(** * Storm_gpt: the exam-answer analysis pipeline of [rev.py]

    A shallow embedding of [AnswerPatternAnalyzer] (document loader,
    answer extractor with rolling context, pattern synthesizer, rubric
    generator, report exporter) and the properties of its
    specification.

    Python values that come back from [json.loads] are modelled by the
    inductive type [json]; Python exceptions by the error monad
    [result]; Python [str] by lists of Unicode code points, so that
    slices such as [[:200]] count characters as Python does. *)

From Stdlib Require Import String Ascii List ZArith NArith Bool Lia.
From Stdlib Require Import DecimalString Floats Uint63 Sorted Permutation.
Import ListNotations.

Local Open Scope Z_scope.
Set Warnings "-register-all".

(** ** Python strings *)

Definition pychar := N.
Definition pystr := list pychar.

Definition bytes_of_string (s : string) : list N :=
  map N_of_ascii (list_ascii_of_string s).

(** Source literals are written in UTF-8; [utf8_decode] turns the bytes
    of a literal into the code points Python sees. *)
Fixpoint utf8_decode (l : list N) : pystr :=
  match l with
  | [] => []
  | b :: r =>
      if (b <? 128)%N then b :: utf8_decode r
      else if (b <? 224)%N then
        match r with
        | c1 :: r1 => ((b - 192) * 64 + (c1 - 128))%N :: utf8_decode r1
        | [] => []
        end
      else if (b <? 240)%N then
        match r with
        | c1 :: c2 :: r2 =>
            ((b - 224) * 4096 + (c1 - 128) * 64 + (c2 - 128))%N
              :: utf8_decode r2
        | _ => []
        end
      else
        match r with
        | c1 :: c2 :: c3 :: r3 =>
            ((b - 240) * 262144 + (c1 - 128) * 4096
             + (c2 - 128) * 64 + (c3 - 128))%N :: utf8_decode r3
        | _ => []
        end
  end.

Definition py (s : string) : pystr := utf8_decode (bytes_of_string s).

Definition pystr_eqb (a b : pystr) : bool :=
  if list_eq_dec N.eq_dec a b then true else false.

(** The newline character. *)
Definition nl : pystr := [10%N].

(** [str(n)] for an integer. *)
Definition str_of_Z (z : Z) : pystr :=
  bytes_of_string (NilZero.string_of_int (Z.to_int z)).

(** [s.startswith(prefix)] *)
Fixpoint startswith (prefix s : pystr) : bool :=
  match prefix, s with
  | [], _ => true
  | p :: prefix', c :: s' => N.eqb p c && startswith prefix' s'
  | _ :: _, [] => false
  end.

(** [l[:n]] and [l[-n:]] *)
Definition slice_to {A} (n : nat) (l : list A) : list A := firstn n l.
Definition slice_last {A} (n : nat) (l : list A) : list A :=
  skipn (List.length l - n) l.

(** [sep.join(parts)] on strings. *)
Fixpoint join {A} (sep : list A) (parts : list (list A)) : list A :=
  match parts with
  | [] => []
  | [p] => p
  | p :: rest => p ++ sep ++ join sep rest
  end.

(** ** Values returned by [json.loads]

    JSON objects become Python dicts, which keep insertion order: an
    association list whose keys are distinct.  Numbers with a fraction
    or an exponent are outside this model ([JInt] is Python's [int]). *)

Inductive json : Type :=
| JNull
| JBool (b : bool)
| JInt (n : Z)
| JStr (s : pystr)
| JList (l : list json)
| JDict (d : list (pystr * json)).

Definition dict := list (pystr * json).

(** ** Python exceptions *)

Inductive exn :=
| TypeError
| AttributeError
| ZeroDivisionError
| APIError
| JSONDecodeError
| UnicodeEncodeError.

Inductive result (A : Type) : Type :=
| Ok (a : A)
| Raise (e : exn).
Arguments Ok {A} a.
Arguments Raise {A} e.

Definition bind {A B} (m : result A) (k : A -> result B) : result B :=
  match m with
  | Ok a => k a
  | Raise e => Raise e
  end.

Notation "x <- m ;; k" := (bind m (fun x => k))
  (at level 61, m at next level, right associativity).
Notation "m ;;; k" := (bind m (fun _ => k))
  (at level 61, right associativity).

(** A [for] loop whose body may raise: the loop variable runs over
    [l], the accumulator is the state the body updates. *)
Fixpoint for_each {A S} (l : list A) (body : S -> A -> result S) (s : S)
  : result S :=
  match l with
  | [] => Ok s
  | x :: rest => s' <- body s x ;; for_each rest body s'
  end.

(** [try: ... except Exception: return default] *)
Definition try_except {A} (m : result A) (default : A) : A :=
  match m with
  | Ok a => a
  | Raise _ => default
  end.

(** ** Operations on Python values *)

Fixpoint assoc_get {V} (d : list (pystr * V)) (k : pystr) : option V :=
  match d with
  | [] => None
  | (k', v) :: rest => if pystr_eqb k' k then Some v else assoc_get rest k
  end.

(** [d[k] = v]: an existing key keeps its position. *)
Fixpoint assoc_set {V} (d : list (pystr * V)) (k : pystr) (v : V)
  : list (pystr * V) :=
  match d with
  | [] => [(k, v)]
  | (k', v') :: rest =>
      if pystr_eqb k' k then (k', v) :: rest
      else (k', v') :: assoc_set rest k v
  end.

Definition dict_get (d : dict) (k : pystr) : option json := assoc_get d k.

(** [k in d] for a dict [d]. *)
Definition dict_mem (d : dict) (k : pystr) : bool :=
  match dict_get d k with Some _ => true | None => false end.

(** [d.get(k, default)] for a dict [d]. *)
Definition dict_get_default (d : dict) (k : pystr) (default : json) : json :=
  match dict_get d k with Some v => v | None => default end.

(** [v.get(k, default)] on any value: only dicts have the method. *)
Definition py_get (v : json) (k : pystr) (default : json) : result json :=
  match v with
  | JDict d => Ok (dict_get_default d k default)
  | _ => Raise AttributeError
  end.

(** [isinstance(v, dict)], [isinstance(v, list)], [isinstance(v, str)] *)
Definition is_dict (v : json) : bool :=
  match v with JDict _ => true | _ => false end.
Definition is_list (v : json) : bool :=
  match v with JList _ => true | _ => false end.
Definition is_str (v : json) : bool :=
  match v with JStr _ => true | _ => false end.

(** Truth value of [v] in an [if]. *)
Definition truthy (v : json) : bool :=
  match v with
  | JNull => false
  | JBool b => b
  | JInt n => negb (n =? 0)
  | JStr s => match s with [] => false | _ => true end
  | JList l => match l with [] => false | _ => true end
  | JDict d => match d with [] => false | _ => true end
  end.

(** [v == s] for a string literal [s]. *)
Definition eq_str (v : json) (s : pystr) : bool :=
  match v with JStr s' => pystr_eqb s' s | _ => false end.

(** [sep.join(l)] on a list of values: every item must be a [str]. *)
Fixpoint strs_of (l : list json) : result (list pystr) :=
  match l with
  | [] => Ok []
  | JStr s :: rest => ss <- strs_of rest ;; Ok (s :: ss)
  | _ :: _ => Raise TypeError
  end.

Definition py_join (sep : pystr) (l : list json) : result pystr :=
  ss <- strs_of l ;; Ok (join sep ss).

(** [v[:n]]: strings and lists can be sliced, any other value raises. *)
Definition py_slice_to (n : nat) (v : json) : result json :=
  match v with
  | JStr s => Ok (JStr (slice_to n s))
  | JList l => Ok (JList (slice_to n l))
  | _ => Raise TypeError
  end.

(** [for x in v]: the items a loop over [v] sees. *)
Definition py_iter (v : json) : result (list json) :=
  match v with
  | JList l => Ok l
  | JDict d => Ok (map (fun kv => JStr (fst kv)) d)
  | JStr s => Ok (map (fun c => JStr [c]) s)
  | _ => Raise TypeError
  end.

(** Hashable values can be dict keys: lists and dicts cannot. *)
Definition hashable (v : json) : bool :=
  match v with
  | JList _ | JDict _ => false
  | _ => true
  end.

(** Equality of dict keys: [True == 1] and [False == 0] in Python, a
    string is equal only to the same string. *)
Definition key_eqb (a b : json) : bool :=
  match a, b with
  | JNull, JNull => true
  | JBool x, JBool y => Bool.eqb x y
  | JBool x, JInt n | JInt n, JBool x => n =? (if x then 1 else 0)
  | JInt n, JInt m => n =? m
  | JStr s, JStr t => pystr_eqb s t
  | _, _ => false
  end.

(** ** The exam questions *)

Definition PREGUNTAS : list pystr :=
  [ py "¿En qué consiste un fondo 130/30 fund? ¿Cuáles son las ventajas y desventajas de estos fondos con respecto a fondos 'long-only'?";
    py "¿En qué consiste la estrategia low-vol? ¿Qué anomalía empírica da pie para implementar esta estrategia?";
    py "¿Qué argumentos a favor tenía Martingale para continuar/expandir estrategias 130/30 + low_vol en ese entonces?" ].

(** [PREGUNTAS[i]] *)
Definition pregunta (i : nat) : pystr := nth i PREGUNTAS [].

(** [f'pregunta_{q_num}'] *)
Definition q_key (q_num : Z) : pystr := py "pregunta_" ++ str_of_Z q_num.

(** [range(1, 4)] *)
Definition range_1_4 : list Z := [1; 2; 3].

(** ** Data of the analyzer *)

(** An entry of [self.documents]. *)
Record document := mk_document {
  doc_filename : pystr;
  doc_student_name : pystr;
  doc_folder_path : pystr;
  doc_full_text : pystr
}.

(** An entry of [self.extracted_answers]: [answers] is the parsed
    response, which [extract_answers_from_document] returns only after
    [result.items()] succeeded on it, hence a dict. *)
Record extracted := mk_extracted {
  ea_student_name : pystr;
  ea_answers : dict
}.

(** A [Counter]: keys in first-insertion order with their counts. *)
Definition counter := list (json * Z).

(** A value of [self.pattern_analysis]. *)
Record pattern_stats := mk_pattern_stats {
  ps_pregunta : pystr;
  ps_total_respuestas : Z;
  ps_conceptos_frecuentes : counter;
  ps_puntos_clave_comunes : list json;
  ps_distribucion_calidad : counter
}.

(** Text built by f-strings: literal characters, and values formatted
    by [str()], kept as the value formatted. *)
Inductive piece :=
| Lit (c : pychar)
| Fmt (v : json).

Definition text := list piece.

Definition lit (s : pystr) : text := map Lit s.

(** ** Text that is printed or written to a file

    The report files are opened with [encoding='utf-8'], and the
    console is taken to encode in UTF-8 as well (the program prints
    emoji): a code point in the surrogate range cannot be encoded, and
    [json.loads] does return lone surrogates.  [print] and [f.write]
    then raise [UnicodeEncodeError]. *)

Definition is_surrogate (c : pychar) : bool :=
  ((55296 <=? c) && (c <=? 57343))%N.

Definition encodable (s : pystr) : bool :=
  forallb (fun c => negb (is_surrogate c)) s.

(** [str(v)] in an f-string: a string is written as it is; any other
    value through [repr], which escapes the surrogates of the strings
    inside it. *)
Definition fmt_encodable (v : json) : bool :=
  match v with
  | JStr s => encodable s
  | _ => true
  end.

Definition piece_encodable (p : piece) : bool :=
  match p with
  | Lit c => negb (is_surrogate c)
  | Fmt v => fmt_encodable v
  end.

Definition text_encodable (t : text) : bool := forallb piece_encodable t.

(** [print(t)], and [f.write(t)] on a file opened in UTF-8. *)
Definition py_print (t : text) : result unit :=
  if text_encodable t then Ok tt else Raise UnicodeEncodeError.

(** Every string of [v], keys included, can be encoded. *)
Fixpoint json_encodable (v : json) : bool :=
  match v with
  | JStr s => encodable s
  | JList l => forallb json_encodable l
  | JDict d =>
      forallb (fun kv => encodable (fst kv) && json_encodable (snd kv)) d
  | _ => true
  end.

(** [json.dump(v, f, indent=2, ensure_ascii=False)]: every value that
    [json.loads] returned can be serialised; with [ensure_ascii=False]
    the strings are written as they are, surrogates included. *)
Definition json_dump (v : json) : result unit :=
  if json_encodable v then Ok tt else Raise UnicodeEncodeError.

(** What is sent to [client.chat.completions.create]: the variable
    parts of the two prompts (the rest of each prompt is constant). *)
Inductive request :=
| ExtractRequest (context student_name full_text : pystr)
| RubricRequest (context : text).

(** The analyzer object, with the requests sent so far. *)
Record analyzer := mk_analyzer {
  documents : list document;
  extracted_answers : list extracted;
  pattern_analysis : list (pystr * pattern_stats);
  rubric : json;
  sent : list request
}.

(** [AnswerPatternAnalyzer(folder_path)] *)
Definition init : analyzer := mk_analyzer [] [] [] (JDict []) [].

(** ** Document Loader *)

(** A path found by [rglob("*.docx")], with what [Document(path)]
    gives: the paragraphs' texts, or [None] when it raises. *)
Record file_entry := mk_file_entry {
  fe_name : pystr;
  fe_parent_name : pystr;
  fe_parent_path : pystr;
  fe_paragraphs : option (list pystr)
}.

Definition lock_marker : pystr := py "~$".

Definition not_lock_file (f : file_entry) : bool :=
  negb (startswith lock_marker (fe_name f)).

(** The body of the loop of [load_documents]; the second component
    collects the files whose error is printed. *)
Definition load_step (st : list document * list file_entry) (f : file_entry)
  : list document * list file_entry :=
  match fe_paragraphs f with
  | Some paragraphs =>
      (fst st ++ [mk_document (fe_name f) (fe_parent_name f)
                    (fe_parent_path f) (join nl paragraphs)],
       snd st)
  | None => (fst st, snd st ++ [f])
  end.

Definition load_documents (a : analyzer) (found : list file_entry)
  : analyzer * list file_entry :=
  let docx_files := filter not_lock_file found in
  let st := fold_left load_step docx_files (documents a, []) in
  (mk_analyzer (fst st) (extracted_answers a) (pattern_analysis a)
     (rubric a) (sent a),
   snd st).

(** ** Answer Extractor *)

Definition placeholder : pystr := py "[Análisis previo]".

(** The body of the inner loop over [prev['answers'].items()]: what
    one entry adds to the context. *)
Definition context_entry (q_num : pystr) (answer : json) : result pystr :=
  match answer with
  | JDict a =>
      match dict_get a (py "key_points") with
      | Some key_points =>
          match key_points with
          | JList ((_ :: _) as l) =>
              s <- py_join (py ", ") (slice_to 3 l) ;;
              Ok (py "  Pregunta " ++ q_num ++ py ": " ++ s ++ py "..." ++ nl)
          | JStr s =>
              Ok (py "  Pregunta " ++ q_num ++ py ": " ++ slice_to 200 s
                    ++ py "..." ++ nl)
          | _ => Ok []
          end
      | None =>
          Ok (py "  Pregunta " ++ q_num ++ py ": " ++ placeholder ++ nl)
      end
  | _ => Ok (py "  Pregunta " ++ q_num ++ py ": " ++ placeholder ++ nl)
  end.

(** The body of the loop over [self.extracted_answers[-3:]]. *)
Definition context_document (context : pystr) (prev : extracted)
  : result pystr :=
  context <- for_each (ea_answers prev)
               (fun context kv =>
                  e <- context_entry (fst kv) (snd kv) ;; Ok (context ++ e))
               (context ++ py "Documento: " ++ ea_student_name prev ++ nl) ;;
  Ok (context ++ nl).

Definition context_header : pystr :=
  nl ++ nl ++ py "### CONTEXTO DE DOCUMENTOS ANTERIORES:" ++ nl
  ++ py "Has analizado los siguientes documentos previamente:" ++ nl ++ nl.

(** The context of [extract_answers_from_document], built before its
    [try] block: an exception here leaves the method. *)
Definition build_context (extracted_answers : list extracted) : result pystr :=
  match extracted_answers with
  | [] => Ok []
  | _ => for_each (slice_last 3 extracted_answers) context_document
           context_header
  end.

(** A line of the summary printed for one question. *)
Record summary_line := mk_summary_line {
  sl_question : pystr;
  sl_conceptos : pystr;
  sl_num_puntos_clave : nat;
  sl_calidad : json
}.

Definition question_keys : list pystr :=
  [py "pregunta_1"; py "pregunta_2"; py "pregunta_3"].

(** [v if isinstance(v, list) else []] *)
Definition list_or_empty (v : json) : list json :=
  match v with JList l => l | _ => [] end.

(** The summary loop inside the [try] block. *)
Definition summary_step (res : dict) (acc : list summary_line)
  (q_num : pystr) : result (list summary_line) :=
  match dict_get res q_num with
  | Some (JDict q_data) =>
      let conceptos :=
        list_or_empty (dict_get_default q_data (py "conceptos_mencionados")
                         (JList [])) in
      let key_points :=
        list_or_empty (dict_get_default q_data (py "key_points") (JList [])) in
      shown <- match conceptos with
               | [] => Ok (py "N/A")
               | _ => py_join (py ", ") conceptos
               end ;;
      Ok (acc ++ [mk_summary_line q_num shown (List.length key_points)
                    (dict_get_default q_data (py "calidad_estimada")
                       (JStr (py "N/A")))])
  | _ => Ok acc
  end.

Definition extraction_summary (res : dict) : result (list summary_line) :=
  for_each question_keys (summary_step res) [].

(** [type(v).__name__] *)
Definition type_name (v : json) : pystr :=
  match v with
  | JNull => py "NoneType"
  | JBool _ => py "bool"
  | JInt _ => py "int"
  | JStr _ => py "str"
  | JList _ => py "list"
  | JDict _ => py "dict"
  end.

(** The debug loop inside the [try] block: it prints every key of the
    response, and the keys of every entry that is an object. *)
Definition debug_entry (_ : unit) (kv : pystr * json) : result unit :=
  py_print (lit (py "    ") ++ lit (fst kv) ++ lit (py ": ")
            ++ lit (type_name (snd kv))) ;;;
  match snd kv with
  | JDict value =>
      for_each value
        (fun _ sub =>
           py_print (lit (py "      └─ ") ++ lit (fst sub) ++ lit (py ": ")
                     ++ lit (type_name (snd sub))))
        tt
  | _ => Ok tt
  end.

Definition debug_structure (res : dict) : result unit :=
  for_each res debug_entry tt.

(** The prints of the summary that show strings of the response: the
    concepts and the quality label of a question (the other prints
    write constants and numbers). *)
Definition print_summary_line (_ : unit) (line : summary_line) : result unit :=
  py_print (lit (py "    - Conceptos: ") ++ lit (sl_conceptos line)) ;;;
  py_print (lit (py "    - Calidad: ") ++ [Fmt (sl_calidad line)]).

(** [if 'observaciones_generales' in result: print(...)] *)
Definition print_observations (res : dict) : result unit :=
  match dict_get res (py "observaciones_generales") with
  | Some v => py_print (lit nl ++ lit (py "  💭 Observaciones: ") ++ [Fmt v])
  | None => Ok tt
  end.

Definition of_option {A} (e : exn) (o : option A) : result A :=
  match o with Some a => Ok a | None => Raise e end.

Section Service.

(** The language-model service: whether [client] is not [None]; the
    content of the response to the n-th request ([None] when the call
    or the access to the content raises); and [json.loads] ([None] when
    it raises). *)
Variable client_configured : bool.
Variable chat_create : nat -> request -> option pystr.
Variable json_loads : pystr -> option json.

(** The [try] block of [extract_answers_from_document] after the
    client check.  Whatever is raised in it is caught, so the lines of
    the summary are built first and checked for printing next: the
    block returns the analysis exactly when none of its steps raises. *)
Definition extract_try (calls : nat) (req : request) (doc_data : document)
  : result (option extracted) :=
  content <- of_option APIError (chat_create calls req) ;;
  parsed <- of_option JSONDecodeError (json_loads content) ;;
  match parsed with
  | JDict res =>
      debug_structure res ;;;
      lines <- extraction_summary res ;;
      for_each lines print_summary_line tt ;;;
      print_observations res ;;;
      Ok (Some (mk_extracted (doc_student_name doc_data) res))
  | _ => Raise AttributeError
  end.

(** Returns the analysis ([None] for Python's [None]) and the requests
    it sent. *)
Definition extract_answers_from_document (a : analyzer) (doc_data : document)
  : result (option extracted * list request) :=
  context <- build_context (extracted_answers a) ;;
  if negb client_configured then Ok (None, [])
  else
    let req := ExtractRequest context (doc_student_name doc_data)
                 (doc_full_text doc_data) in
    Ok (try_except (extract_try (List.length (sent a)) req doc_data) None,
        [req]).

Definition analyze_step (a : analyzer) (doc : document) : result analyzer :=
  r <- extract_answers_from_document a doc ;;
  let a' := mk_analyzer (documents a) (extracted_answers a)
              (pattern_analysis a) (rubric a) (sent a ++ snd r) in
  match fst r with
  | Some analysis =>
      Ok (mk_analyzer (documents a') (extracted_answers a' ++ [analysis])
            (pattern_analysis a') (rubric a') (sent a'))
  | None => Ok a'
  end.

Definition analyze_patterns_iteratively (a : analyzer) : result analyzer :=
  for_each (documents a) analyze_step a.

End Service.

(** ** Pattern Synthesizer *)

(** [c[k] += 1] on a counter whose keys are hashable. *)
Fixpoint counter_incr (c : counter) (k : json) : counter :=
  match c with
  | [] => [(k, 1)]
  | (k', n) :: rest =>
      if key_eqb k' k then (k', n + 1) :: rest
      else (k', n) :: counter_incr rest k
  end.

(** [c[k] += 1]: hashing [k] raises for a list or a dict. *)
Definition counter_add (c : counter) (k : json) : result counter :=
  if hashable k then Ok (counter_incr c k) else Raise TypeError.

(** [Counter(l)] *)
Definition Counter (l : list json) : result counter :=
  for_each l counter_add [].

(** [c.get(k, default)] *)
Fixpoint counter_get (c : counter) (k : json) (default : Z) : Z :=
  match c with
  | [] => default
  | (k', n) :: rest => if key_eqb k' k then n else counter_get rest k default
  end.

(** [sorted(c.items(), key=itemgetter(1), reverse=True)]: Python's sort
    is stable, also with [reverse=True], so entries with equal counts
    keep the order they have in [c]. *)
Fixpoint insert_desc (x : json * Z) (l : counter) : counter :=
  match l with
  | [] => [x]
  | y :: rest =>
      if snd x <? snd y then y :: insert_desc x rest else x :: y :: rest
  end.

Fixpoint sorted_desc (c : counter) : counter :=
  match c with
  | [] => []
  | x :: rest => insert_desc x (sorted_desc rest)
  end.

(** [c.most_common(n)], which is [heapq.nlargest(n, c.items(), key)],
    documented as [sorted(..., reverse=True)[:n]]. *)
Definition most_common (n : nat) (c : counter) : counter :=
  slice_to n (sorted_desc c).

(** [c.most_common()] *)
Definition most_common_all (c : counter) : counter := sorted_desc c.

(** [a / b] on integers, exact for operands below 2^53. *)
Definition float_of_Z (z : Z) : float := PrimFloat.of_uint63 (Uint63.of_Z z).

Definition py_truediv (a b : Z) : result float :=
  if b =? 0 then Raise ZeroDivisionError
  else Ok (float_of_Z a / float_of_Z b)%float.

(** The three accumulators of one question. *)
Record synth_acc := mk_synth_acc {
  all_concepts : list json;
  all_key_points : list json;
  quality_counts : counter
}.

(** The body of the loop over [self.extracted_answers]. *)
Definition synth_doc (q_key : pystr) (acc : synth_acc) (doc : extracted)
  : result synth_acc :=
  match dict_get (ea_answers doc) q_key with
  | Some (JDict answer_data) =>
      let conceptos :=
        dict_get_default answer_data (py "conceptos_mencionados") (JList []) in
      let all_concepts' :=
        match conceptos with
        | JList l => all_concepts acc ++ l
        | _ => all_concepts acc
        end in
      let key_points :=
        dict_get_default answer_data (py "key_points") (JList []) in
      let all_key_points' :=
        match key_points with
        | JList l => all_key_points acc ++ l
        | _ => all_key_points acc
        end in
      quality_counts' <-
        counter_add (quality_counts acc)
          (dict_get_default answer_data (py "calidad_estimada")
             (JStr (py "N/A"))) ;;
      Ok (mk_synth_acc all_concepts' all_key_points' quality_counts')
  | _ => Ok acc
  end.

(** What is printed for one question. *)
Record question_report := mk_question_report {
  qr_key : pystr;
  qr_total : Z;
  qr_quality : counter;
  qr_concepts : list (json * Z * float)
}.

(** The loop that prints the most mentioned concepts. *)
Definition concept_line (total : Z) (acc : list (json * Z * float))
  (cf : json * Z) : result (list (json * Z * float)) :=
  ratio <- py_truediv (snd cf) total ;;
  Ok (acc ++ [(fst cf, snd cf, (ratio * float_of_Z 100)%float)]).

(** The body of the loop over [range(1, 4)]. *)
Definition synth_question (extracted_answers : list extracted)
  (st : list (pystr * pattern_stats) * list question_report) (q_num : Z)
  : result (list (pystr * pattern_stats) * list question_report) :=
  let q_key := q_key q_num in
  acc <- for_each extracted_answers (synth_doc q_key)
           (mk_synth_acc [] [] []) ;;
  concept_freq <- Counter (all_concepts acc) ;;
  let total := Z.of_nat (List.length extracted_answers) in
  lines <- for_each (most_common 10 concept_freq) (concept_line total) [] ;;
  Ok (assoc_set (fst st) q_key
        (mk_pattern_stats (pregunta (Z.to_nat (q_num - 1))) total
           (most_common 10 concept_freq) (all_key_points acc)
           (quality_counts acc)),
      snd st ++ [mk_question_report q_key total
                   (most_common_all (quality_counts acc)) lines]).

(** Returns the analyzer and what was printed. *)
Definition synthesize_patterns (a : analyzer)
  : result (analyzer * list question_report) :=
  st <- for_each range_1_4 (synth_question (extracted_answers a))
          (pattern_analysis a, []) ;;
  Ok (mk_analyzer (documents a) (extracted_answers a) (fst st) (rubric a)
        (sent a),
      snd st).

(** ** Rubric Generator *)

(** [s in v] for a string [s]: a key of a dict, an item of a list, a
    substring of a string; other values raise. *)
Fixpoint substring (s t : pystr) : bool :=
  startswith s t
  || match t with
     | [] => false
     | _ :: t' => substring s t'
     end.

Definition py_contains (v : json) (s : pystr) : result bool :=
  match v with
  | JDict d => Ok (dict_mem d s)
  | JList l => Ok (existsb (fun x => eq_str x s) l)
  | JStr t => Ok (substring s t)
  | _ => Raise TypeError
  end.

(** [v[s]] for a string [s] that [s in v] found. *)
Definition py_getitem (v : json) (s : pystr) : result json :=
  match v with
  | JDict d => Ok (dict_get_default d s JNull)
  | _ => Raise TypeError
  end.

(** An entry of [high_quality_examples]. *)
Record example := mk_example {
  ex_pregunta : Z;
  ex_estudiante : pystr;
  ex_respuesta : json
}.

(** The body of the loop over [range(1, 4)] that collects examples. *)
Definition example_step (doc : extracted) (acc : list example) (q_num : Z)
  : result (list example) :=
  match dict_get (ea_answers doc) (q_key q_num) with
  | Some answer =>
      calidad <- py_get answer (py "calidad_estimada") JNull ;;
      if eq_str calidad (py "alta") then
        respuesta <- py_get answer (py "respuesta_completa") (JStr []) ;;
        cut <- py_slice_to 500 respuesta ;;
        Ok (acc ++ [mk_example q_num (ea_student_name doc) cut])
      else Ok acc
  | None => Ok acc
  end.

Definition high_quality_examples (extracted_answers : list extracted)
  : result (list example) :=
  for_each extracted_answers
    (fun acc doc => for_each range_1_4 (example_step doc) acc) [].

(** The part of the context that lists the patterns of a question. *)
Definition pattern_context (context : text) (kv : pystr * pattern_stats)
  : text :=
  let pattern := snd kv in
  fold_left
    (fun context cf =>
       context ++ lit (py "  - ") ++ [Fmt (fst cf)] ++ lit (py ": ")
       ++ lit (str_of_Z (snd cf)) ++ lit (py " veces") ++ lit nl)
    (slice_to 5 (ps_conceptos_frecuentes pattern))
    (context ++ lit nl ++ lit (ps_pregunta pattern) ++ lit nl
     ++ lit (py "Total respuestas: ")
     ++ lit (str_of_Z (ps_total_respuestas pattern)) ++ lit nl
     ++ lit (py "Conceptos más mencionados:") ++ lit nl).

Definition example_context (context : text) (ex : example) : text :=
  context ++ lit nl ++ lit (py "Pregunta ") ++ lit (str_of_Z (ex_pregunta ex))
  ++ lit (py " - ") ++ lit (ex_estudiante ex) ++ lit (py ":") ++ lit nl
  ++ [Fmt (ex_respuesta ex)] ++ lit (py "...") ++ lit nl.

(** The examples that reach the prompt: [high_quality_examples[:6]]. *)
Definition prompt_examples (examples : list example) : list example :=
  slice_to 6 examples.

(** The context of [generate_rubric], built before its [try] block. *)
Definition rubric_context (a : analyzer) : result text :=
  let context :=
    fold_left pattern_context (pattern_analysis a)
      (lit (py "Análisis de todas las respuestas:") ++ lit nl ++ lit nl) in
  examples <- high_quality_examples (extracted_answers a) ;;
  Ok (fold_left example_context (prompt_examples examples)
        (context ++ lit nl ++ lit nl
         ++ lit (py "Ejemplos de respuestas de alta calidad:") ++ lit nl)).

(** The three fields read from an element of a rubric. *)
Definition element_fields (elem : json) : result (json * json * json) :=
  concepto <- py_get elem (py "concepto") (JStr (py "N/A")) ;;
  puntos <- py_get elem (py "puntos") (JInt 0) ;;
  descripcion <- py_get elem (py "descripcion") (JStr []) ;;
  Ok (concepto, puntos, descripcion).

(** [for elem in rubric_data.get(key, [])] reading each element. *)
Definition rubric_elements (rubric_data : json) (key : pystr)
  : result (list (json * json * json)) :=
  elems <- py_get rubric_data key (JList []) ;;
  items <- py_iter elems ;;
  for_each items (fun acc elem => f <- element_fields elem ;; Ok (acc ++ [f]))
    [].

(** The line printed for one element of the rubric. *)
Definition print_element (_ : unit) (f : json * json * json) : result unit :=
  let '(concepto, puntos, descripcion) := f in
  py_print (lit (py "  • ") ++ [Fmt concepto] ++ lit (py " (") ++ [Fmt puntos]
            ++ lit (py " pts): ") ++ [Fmt descripcion]).

(** The summary printed after the rubric was stored: the elements it
    shows for each question.  The loop runs inside the [try] block, so
    the elements of a list are read first and printed next: it raises
    exactly when one of its steps does. *)
Definition rubric_summary_step (rubric : json)
  (acc : list (Z * list (json * json * json) * list (json * json * json)))
  (q_num : Z)
  : result (list (Z * list (json * json * json) * list (json * json * json))) :=
  present <- py_contains rubric (q_key q_num) ;;
  if present : bool then
    rubric_data <- py_getitem rubric (q_key q_num) ;;
    puntaje <- py_get rubric_data (py "puntaje_total") (JStr (py "N/A")) ;;
    py_print (lit (py "Puntaje total: ") ++ [Fmt puntaje]) ;;;
    obligatorios <- rubric_elements rubric_data (py "elementos_obligatorios") ;;
    for_each obligatorios print_element tt ;;;
    deseables <- py_get rubric_data (py "elementos_deseables") JNull ;;
    if truthy deseables then
      shown <- rubric_elements rubric_data (py "elementos_deseables") ;;
      for_each shown print_element tt ;;;
      Ok (acc ++ [(q_num, obligatorios, shown)])
    else Ok (acc ++ [(q_num, obligatorios, [])])
  else Ok acc.

Definition rubric_summary (rubric : json)
  : result (list (Z * list (json * json * json) * list (json * json * json))) :=
  for_each range_1_4 (rubric_summary_step rubric) [].

Section Generator.

Variable client_configured : bool.
Variable chat_create : nat -> request -> option pystr.
Variable json_loads : pystr -> option json.

(** The [try] block of [generate_rubric] after the client check: the
    rubric to store, if the assignment is reached, and whether an
    exception was caught. *)
Definition rubric_try (calls : nat) (req : request) : option json * bool :=
  match chat_create calls req with
  | None => (None, true)
  | Some content =>
      match json_loads content with
      | None => (None, true)
      | Some parsed =>
          match rubric_summary parsed with
          | Ok _ => (Some parsed, false)
          | Raise _ => (Some parsed, true)
          end
      end
  end.

(** Returns the analyzer and whether an error message was printed. *)
Definition generate_rubric (a : analyzer) : result (analyzer * bool) :=
  context <- rubric_context a ;;
  if negb client_configured then Ok (a, true)
  else
    let req := RubricRequest context in
    let r := rubric_try (List.length (sent a)) req in
    Ok (mk_analyzer (documents a) (extracted_answers a) (pattern_analysis a)
          (match fst r with Some parsed => parsed | None => rubric a end)
          (sent a ++ [req]),
        snd r).

End Generator.

(** ** Report Exporter *)

(** A row of [1_analisis_patrones.xlsx]. *)
Record pattern_row := mk_pattern_row {
  pr_pregunta : pystr;
  pr_total_respuestas : Z;
  pr_conceptos : text;
  pr_calidad_alta : Z;
  pr_calidad_media : Z;
  pr_calidad_baja : Z
}.

Definition pattern_row_of (pattern : pattern_stats) : pattern_row :=
  mk_pattern_row
    (slice_to 50 (ps_pregunta pattern) ++ py "...")
    (ps_total_respuestas pattern)
    (join (lit (py ", "))
       (map (fun kv => [Fmt (fst kv)] ++ lit (py " (")
                       ++ lit (str_of_Z (snd kv)) ++ lit (py "x)"))
          (slice_to 3 (ps_conceptos_frecuentes pattern))))
    (counter_get (ps_distribucion_calidad pattern) (JStr (py "alta")) 0)
    (counter_get (ps_distribucion_calidad pattern) (JStr (py "media")) 0)
    (counter_get (ps_distribucion_calidad pattern) (JStr (py "baja")) 0).

Definition pattern_report (a : analyzer) : list pattern_row :=
  map (fun kv => pattern_row_of (snd kv)) (pattern_analysis a).

(** A row of [2_analisis_por_estudiante.xlsx]. *)
Record student_row := mk_student_row {
  sr_estudiante : pystr;
  sr_pregunta : Z;
  sr_conceptos : pystr;
  sr_num_puntos_clave : nat;
  sr_longitud : json;
  sr_calidad : json
}.

(** The body of the loop over [range(1, 4)] for one document. *)
Definition student_step (doc : extracted) (acc : list student_row) (q_num : Z)
  : result (list student_row) :=
  match dict_get (ea_answers doc) (q_key q_num) with
  | Some (JDict answer) =>
      let conceptos :=
        list_or_empty (dict_get_default answer (py "conceptos_mencionados")
                         (JList [])) in
      let key_points :=
        list_or_empty (dict_get_default answer (py "key_points") (JList [])) in
      joined <- py_join (py ", ") conceptos ;;
      Ok (acc ++ [mk_student_row (ea_student_name doc) q_num joined
                    (List.length key_points)
                    (dict_get_default answer (py "longitud_caracteres")
                       (JInt 0))
                    (dict_get_default answer (py "calidad_estimada")
                       (JStr (py "N/A")))])
  | _ => Ok acc
  end.

Definition student_details (a : analyzer) : result (list student_row) :=
  for_each (extracted_answers a)
    (fun acc doc => for_each range_1_4 (student_step doc) acc) [].

(** ["=" * 80] *)
Definition banner : pystr := repeat 61%N 80.

(** The two [f.write] calls for one element of the rubric. *)
Definition write_element (out : list text) (f : json * json * json)
  : list text :=
  let '(concepto, puntos, descripcion) := f in
  out ++ [lit (py "  [") ++ [Fmt puntos] ++ lit (py " pts] ")
            ++ [Fmt concepto] ++ lit nl;
          lit (py "           ") ++ [Fmt descripcion] ++ lit nl ++ lit nl].

(** The body of the loop over [range(1, 4)] that writes
    [4_pauta_correccion.txt]; [out] holds the [f.write] calls so far. *)
Definition rubric_text_step (rubric : json) (out : list text) (q_num : Z)
  : result (list text) :=
  present <- py_contains rubric (q_key q_num) ;;
  if present : bool then
    rubric_data <- py_getitem rubric (q_key q_num) ;;
    let out := out ++ [lit nl ++ lit banner ++ lit nl;
                       lit (py "PREGUNTA ") ++ lit (str_of_Z q_num) ++ lit nl;
                       lit banner ++ lit nl;
                       lit (pregunta (Z.to_nat (q_num - 1))) ++ lit nl
                         ++ lit nl] in
    puntaje <- py_get rubric_data (py "puntaje_total") (JStr (py "N/A")) ;;
    let out := out ++ [lit (py "PUNTAJE TOTAL: ") ++ [Fmt puntaje]
                         ++ lit (py " puntos") ++ lit nl ++ lit nl;
                       lit (py "ELEMENTOS OBLIGATORIOS:") ++ lit nl] in
    obligatorios <- rubric_elements rubric_data (py "elementos_obligatorios") ;;
    let out := fold_left write_element obligatorios out in
    deseables <- py_get rubric_data (py "elementos_deseables") JNull ;;
    out <- (if truthy deseables then
              elems <- rubric_elements rubric_data (py "elementos_deseables") ;;
              Ok (fold_left write_element elems
                    (out ++ [lit nl ++ lit (py "ELEMENTOS DESEABLES:")
                               ++ lit nl]))
            else Ok out) ;;
    let out := out ++ [lit nl ++ lit (py "CRITERIOS DE CALIDAD:") ++ lit nl] in
    criterios <- py_get rubric_data (py "criterios_calidad") (JList []) ;;
    items <- py_iter criterios ;;
    let out := fold_left
                 (fun out criterio =>
                    out ++ [lit (py "  • ") ++ [Fmt criterio] ++ lit nl])
                 items out in
    ejemplo <- py_get rubric_data (py "ejemplo_respuesta_ideal")
                 (JStr (py "N/A")) ;;
    Ok (out ++ [lit nl ++ lit (py "EJEMPLO DE RESPUESTA IDEAL:") ++ lit nl;
                [Fmt ejemplo] ++ lit nl;
                lit nl])
  else Ok out.

Definition rubric_text (rubric : json) : result (list text) :=
  out <- for_each range_1_4 (rubric_text_step rubric)
           [lit banner ++ lit nl;
            lit (py "PAUTA DE CORRECCIÓN - EXAMEN DE FINANZAS") ++ lit nl;
            lit banner ++ lit nl ++ lit nl] ;;
  notas <- py_contains rubric (py "notas_generales") ;;
  if notas : bool then
    value <- py_getitem rubric (py "notas_generales") ;;
    Ok (out ++ [lit nl ++ lit banner ++ lit nl;
                lit (py "NOTAS GENERALES") ++ lit nl;
                lit banner ++ lit nl;
                [Fmt value] ++ lit nl])
  else Ok out.

(** The four files: the rows handed to [to_excel], the value handed to
    [json.dump], the [f.write] calls of the text file. *)
Record reports := mk_reports {
  analisis_patrones : list pattern_row;
  analisis_por_estudiante : list student_row;
  pauta_correccion_json : json;
  pauta_correccion_txt : list text
}.

(** [export_reports]: an exception leaves the method (the files
    written before it are not part of the result).  The two tables are
    handed to pandas, which is taken to write them.  The rubric goes
    through [json.dump] before the text file is written; every string
    that reaches an [f.write] of the text file is a string of the
    rubric or a constant, so the writes are checked once the text is
    built. *)
Definition export_reports (a : analyzer) : result reports :=
  let patterns := pattern_report a in
  students <- student_details a ;;
  json_dump (rubric a) ;;;
  txt <- rubric_text (rubric a) ;;
  for_each txt (fun _ t => py_print t) tt ;;;
  Ok (mk_reports patterns students (rubric a) txt).

(** ** Predicates used by the properties *)

Definition readable (f : file_entry) : bool :=
  match fe_paragraphs f with Some _ => true | None => false end.

(** [d] is the Document made from the file [f]. *)
Definition loaded_from (d : document) (f : file_entry) : Prop :=
  doc_filename d = fe_name f
  /\ doc_student_name d = fe_parent_name f
  /\ doc_folder_path d = fe_parent_path f
  /\ exists paragraphs,
       fe_paragraphs f = Some paragraphs
       /\ doc_full_text d = join nl paragraphs.

(** [[f x for x in l]] where [f] may raise. *)
Fixpoint map_result {A B} (f : A -> result B) (l : list A) : result (list B) :=
  match l with
  | [] => Ok []
  | x :: rest => y <- f x ;; ys <- map_result f rest ;; Ok (y :: ys)
  end.

(** The part of the context that describes one earlier document: a
    title line, one entry per key of its stored response, a blank
    line. *)
Definition context_section (prev : extracted) : result pystr :=
  entries <- map_result (fun kv => context_entry (fst kv) (snd kv))
               (ea_answers prev) ;;
  Ok (py "Documento: " ++ ea_student_name prev ++ nl ++ concat entries ++ nl).

(** The context attached to a request. *)
Definition request_context (r : request) : option pystr :=
  match r with
  | ExtractRequest context _ _ => Some context
  | RubricRequest _ => None
  end.

(** The context of the i-th request of a run, if any. *)
Definition sent_context (r : result analyzer) (i : nat) : option pystr :=
  match r with
  | Ok a =>
      match nth_error (sent a) i with
      | Some req => request_context req
      | None => None
      end
  | Raise _ => None
  end.

(** A run over five documents in which the third response is not
    valid JSON; two services that differ only in the response to the
    first document. *)
Module FiveDocuments.

Definition doc (name : string) : document :=
  mk_document (py "examen.docx") (py name) (py name) (py "texto").

Definition docs : list document :=
  [doc "s0"; doc "s1"; doc "s2"; doc "s3"; doc "s4"].

(** The n-th response is the text of [n]. *)
Definition chat_create (n : nat) (_ : request) : option pystr :=
  Some (str_of_Z (Z.of_nat n)).

Definition response (point : pystr) : json :=
  JDict [(py "pregunta_1", JDict [(py "key_points", JList [JStr point])])].

Definition json_loads_A (content : pystr) : option json :=
  if pystr_eqb content (py "2") then None else Some (response content).

Definition json_loads_B (content : pystr) : option json :=
  if pystr_eqb content (py "0") then Some (response (py "otro"))
  else json_loads_A content.

Definition start : analyzer := mk_analyzer docs [] [] (JDict []) [].

Definition run_A : result analyzer :=
  analyze_patterns_iteratively true chat_create json_loads_A start.

Definition run_B : result analyzer :=
  analyze_patterns_iteratively true chat_create json_loads_B start.

End FiveDocuments.

(** The stored response [res] can be rendered into a context: no
    entry has a non-string among its first three key points. *)
Definition renders (res : dict) : bool :=
  match map_result (fun kv => context_entry (fst kv) (snd kv)) res with
  | Ok _ => true
  | Raise _ => false
  end.

(** [es] are analyses of some of the documents [ds], in the order of
    [ds], each under the student name of its document. *)
Inductive kept_in_order : list document -> list extracted -> Prop :=
| kept_nil : kept_in_order [] []
| kept_skip d ds es :
    kept_in_order ds es -> kept_in_order (d :: ds) es
| kept_keep d ds e es :
    ea_student_name e = doc_student_name d ->
    kept_in_order ds es -> kept_in_order (d :: ds) (e :: es).

(** *** High-quality examples, as the specification words them *)

(** [answer] carries the quality label ['alta']. *)
Definition high_quality (answer : json) : bool :=
  match answer with
  | JDict d =>
      eq_str (dict_get_default d (py "calidad_estimada") JNull) (py "alta")
  | _ => false
  end.

(** The answer text of [answer], cut to 500 characters. *)
Definition truncated_text (answer : json) : json :=
  match answer with
  | JDict d =>
      match dict_get_default d (py "respuesta_completa") (JStr []) with
      | JStr s => JStr (firstn 500 s)
      | JList l => JList (firstn 500 l)
      | v => v
      end
  | _ => JNull
  end.

(** The example of question [q_num] of [doc], if its label is high. *)
Definition spec_question_example (doc : extracted) (q_num : Z)
  : list example :=
  match dict_get (ea_answers doc) (q_key q_num) with
  | Some answer =>
      if high_quality answer
      then [mk_example q_num (ea_student_name doc) (truncated_text answer)]
      else []
  | None => []
  end.

(** Documents in order, and questions 1 to 3 in order within each. *)
Definition spec_all_examples (docs : list extracted) : list example :=
  flat_map (fun doc => flat_map (spec_question_example doc) [1; 2; 3]) docs.

(** At most 6 examples in total. *)
Definition spec_examples (docs : list extracted) : list example :=
  firstn 6 (spec_all_examples docs).

(** The entries of [doc] for the three questions are objects, and the
    answer text of those labelled high can be sliced. *)
Definition example_ready_at (doc : extracted) (q_num : Z) : bool :=
  match dict_get (ea_answers doc) (q_key q_num) with
  | None => true
  | Some (JDict d) =>
      if eq_str (dict_get_default d (py "calidad_estimada") JNull) (py "alta")
      then
        match dict_get_default d (py "respuesta_completa") (JStr []) with
        | JStr _ | JList _ => true
        | _ => false
        end
      else true
  | Some _ => false
  end.

Definition example_ready (doc : extracted) : bool :=
  forallb (example_ready_at doc) range_1_4.

(** Three students whose nine answers are all labelled high. *)
Module ThreeStudents.

Definition answer (text : string) : json :=
  JDict [(py "respuesta_completa", JStr (py text));
         (py "key_points", JList [JStr (py "punto")]);
         (py "conceptos_mencionados", JList [JStr (py "apalancamiento")]);
         (py "longitud_caracteres", JInt 9);
         (py "calidad_estimada", JStr (py "alta"))].

Definition student (name : string) : extracted :=
  mk_extracted (py name)
    [(py "pregunta_1", answer "respuesta uno");
     (py "pregunta_2", answer "respuesta dos");
     (py "pregunta_3", answer "respuesta tres");
     (py "observaciones_generales", JStr (py "sin observaciones"))].

Definition students : list extracted :=
  [student "Ana"; student "Bruno"; student "Carla"].

Definition state : analyzer := mk_analyzer [] students [] (JDict []) [].

End ThreeStudents.

(** *** What the synthesizer aggregates, as the specification words it *)

(** The well-formed analyses of question [q_num]: the documents whose
    entry for the question is an object. *)
Definition question_answers (q_num : Z) (docs : list extracted) : list dict :=
  flat_map
    (fun doc =>
       match dict_get (ea_answers doc) (q_key q_num) with
       | Some (JDict d) => [d]
       | _ => []
       end)
    docs.

Definition concepts_of (answer : dict) : list json :=
  list_or_empty (dict_get_default answer (py "conceptos_mencionados")
                   (JList [])).

Definition key_points_of (answer : dict) : list json :=
  list_or_empty (dict_get_default answer (py "key_points") (JList [])).

Definition label_of (answer : dict) : json :=
  dict_get_default answer (py "calidad_estimada") (JStr (py "N/A")).

(** Every mentioned concept, every key point and every quality label
    of a question, across the documents in order. *)
Definition question_concepts (q_num : Z) (docs : list extracted) : list json :=
  flat_map concepts_of (question_answers q_num docs).

Definition question_key_points (q_num : Z) (docs : list extracted)
  : list json :=
  flat_map key_points_of (question_answers q_num docs).

Definition question_labels (q_num : Z) (docs : list extracted) : list json :=
  map label_of (question_answers q_num docs).

(** The concepts and the labels of the three questions can be counted:
    none is a list or an object. *)
Definition countable (docs : list extracted) : bool :=
  forallb
    (fun q_num =>
       forallb hashable (question_concepts q_num docs)
       && forallb hashable (question_labels q_num docs))
    range_1_4.

(** How often [k] occurs in [l], and where it occurs first. *)
Definition occurrences (k : json) (l : list json) : nat :=
  length (filter (key_eqb k) l).

Fixpoint first_index (k : json) (l : list json) : nat :=
  match l with
  | [] => 0
  | x :: rest => if key_eqb k x then 0 else S (first_index k rest)
  end.

(** More frequent first; among equally frequent entries, the order
    [R] in which they came. *)
Definition count_then (R : json * Z -> json * Z -> Prop) (x y : json * Z)
  : Prop :=
  snd y < snd x \/ (snd x = snd y /\ R x y).

(** [x] ranks before [y]: it is more frequent, or as frequent and seen
    first in [l]. *)
Definition ranks_before (l : list json) (x y : json * Z) : Prop :=
  snd y < snd x
  \/ (snd x = snd y /\ (first_index (fst x) l < first_index (fst y) l)%nat).

(** The keys of a counter after [c[x] += 1]. *)
Definition add_key (keys : list json) (x : json) : list json :=
  if existsb (fun k => key_eqb k x) keys then keys else keys ++ [x].

(** [Counter(l)] when every item can be hashed, and its keys. *)
Definition counted (l : list json) : counter := fold_left counter_incr l [].

Definition keys_of (l : list json) : list json := fold_left add_key l [].

(** [(freq / total) * 100] *)
Definition percentage (freq total : Z) : float :=
  (float_of_Z freq / float_of_Z total * float_of_Z 100)%float.

(** The entry of [self.pattern_analysis] for question [q_num], and
    what is printed for it. *)
Definition question_stats (q_num : Z) (docs : list extracted) : pattern_stats :=
  mk_pattern_stats
    (pregunta (Z.to_nat (q_num - 1)))
    (Z.of_nat (length docs))
    (most_common 10 (counted (question_concepts q_num docs)))
    (question_key_points q_num docs)
    (counted (question_labels q_num docs)).

Definition question_printed (q_num : Z) (docs : list extracted)
  : question_report :=
  mk_question_report
    (q_key q_num)
    (Z.of_nat (length docs))
    (most_common_all (counted (question_labels q_num docs)))
    (map (fun cf => (fst cf, snd cf,
                     percentage (snd cf) (Z.of_nat (length docs))))
       (most_common 10 (counted (question_concepts q_num docs)))).

(** The entry of question [q_num] after [synthesize_patterns]. *)
Definition synthesized_stats (a : analyzer) (q_num : Z) : option pattern_stats :=
  match synthesize_patterns a with
  | Ok (a', _) => assoc_get (pattern_analysis a') (q_key q_num)
  | Raise _ => None
  end.

(** The concepts printed for question [q_num]. *)
Definition synthesized_printed (a : analyzer) (q_num : Z)
  : option (list (json * Z * float)) :=
  match synthesize_patterns a with
  | Ok (_, printed) =>
      option_map qr_concepts (nth_error printed (Z.to_nat (q_num - 1)))
  | Raise _ => None
  end.

(** The number of analyses that mention [k]. *)
Definition answers_mentioning (k : json) (answers : list dict) : nat :=
  length (filter (fun d => existsb (key_eqb k) (concepts_of d)) answers).

(** The analyses of a question that carry the label [s]. *)
Definition labelled (s : pystr) (q_num : Z) (docs : list extracted)
  : list dict :=
  filter (fun d => eq_str (label_of d) s) (question_answers q_num docs).

(** Two students; their concepts for question 1 tie at two mentions. *)
Module TwoStudents.

Local Open Scope string_scope.

Definition answer (concepts : list string) (quality : string) : json :=
  JDict [(py "respuesta_completa", JStr (py "texto"));
         (py "key_points", JList [JStr (py "punto 1"); JStr (py "punto 2")]);
         (py "conceptos_mencionados",
          JList (map (fun c => JStr (py c)) concepts));
         (py "longitud_caracteres", JInt 5);
         (py "calidad_estimada", JStr (py quality))].

Definition student_A : extracted :=
  mk_extracted (py "A")
    [(py "pregunta_1", answer ["beta"; "alfa"] "alta");
     (py "pregunta_2", answer ["low-vol anomaly"] "excelente");
     (py "pregunta_3",
      JDict [(py "respuesta_completa", JStr (py "texto"));
             (py "conceptos_mencionados", JList [JStr (py "alfa")])])].

Definition student_B : extracted :=
  mk_extracted (py "B")
    [(py "pregunta_1", answer ["alfa"; "beta"; "gamma"] "media");
     (py "pregunta_3", answer [] "baja")].

Definition state : analyzer :=
  mk_analyzer [] [student_A; student_B] [] (JDict []) [].

End TwoStudents.

(** Ten students; six of them mention "low-vol anomaly" in their
    answer to question 2. *)
Module TenStudents.

Local Open Scope string_scope.

Definition student (concepts : list string) : extracted :=
  mk_extracted (py "estudiante")
    [(py "pregunta_2",
      JDict [(py "conceptos_mencionados",
              JList (map (fun c => JStr (py c)) concepts));
             (py "calidad_estimada", JStr (py "media"))])].

Definition students : list extracted :=
  repeat (student ["low-vol anomaly"]) 6 ++ repeat (student ["beta"]) 4.

Definition state : analyzer := mk_analyzer [] students [] (JDict []) [].

End TenStudents.

(** Three students, of whom only the first answers question 2, and
    lists the same concept twice. *)
Module RepeatedConcept.

Local Open Scope string_scope.

Definition low_vol : json := JStr (py "low-vol anomaly").

Definition students : list extracted :=
  [mk_extracted (py "A")
     [(py "pregunta_2",
       JDict [(py "conceptos_mencionados", JList [low_vol; low_vol])])];
   mk_extracted (py "B") [(py "pregunta_1", JDict [])];
   mk_extracted (py "C") [(py "pregunta_2", JStr (py "sin respuesta"))]].

Definition state : analyzer := mk_analyzer [] students [] (JDict []) [].

End RepeatedConcept.

(** *** Shapes that the exporter tolerates *)

(** The summary of the extractor can be printed for [res]: the concept
    lists of its three questions hold strings only.  The extractor
    keeps a response only after printing this summary. *)
Definition summarizable (res : dict) : bool :=
  match extraction_summary res with
  | Ok _ => true
  | Raise _ => false
  end.





(** The three fields of an element that is an object. *)
Definition fields_of (elem : json) : json * json * json :=
  match elem with
  | JDict d =>
      (dict_get_default d (py "concepto") (JStr (py "N/A")),
       dict_get_default d (py "puntos") (JInt 0),
       dict_get_default d (py "descripcion") (JStr []))
  | _ => (JNull, JNull, JNull)
  end.

(** What [4_pauta_correccion.txt] holds for an empty rubric. *)
Definition empty_rubric_text : list text :=
  [lit banner ++ lit nl;
   lit (py "PAUTA DE CORRECCIÓN - EXAMEN DE FINANZAS") ++ lit nl;
   lit banner ++ lit nl ++ lit nl].

(** The concepts of question [q] of [res] can be joined. *)
Definition joinable (res : dict) (q : pystr) : Prop :=
  forall d, dict_get res q = Some (JDict d) ->
            exists joined, py_join (py ", ") (concepts_of d) = Ok joined.

(** A service whose responses hold other keys than the three
    questions: the extraction response has pregunta_1 and pregunta_4
    only, the rubric has pregunta_7 only. *)
Module OtherKeys.

Definition extraction_response : json :=
  JDict [(py "pregunta_1", JDict [(py "calidad_estimada", JStr (py "alta"))]);
         (py "pregunta_4", JDict [(py "calidad_estimada", JStr (py "baja"))])].

Definition rubric_response : json :=
  JDict [(py "pregunta_7", JDict [(py "puntaje_total", JInt 10)])].

Definition chat_create (n : nat) (req : request) : option pystr :=
  match req with
  | ExtractRequest _ _ _ => Some (py "extraccion")
  | RubricRequest _ => Some (py "pauta")
  end.

Definition json_loads (content : pystr) : option json :=
  if pystr_eqb content (py "extraccion") then Some extraction_response
  else if pystr_eqb content (py "pauta") then Some rubric_response
  else None.

Definition doc : document :=
  mk_document (py "examen.docx") (py "A") (py "A") (py "texto").

End OtherKeys.

(** Responses with fields of another type than requested. *)
Module WrongTypes.

Definition full_answer (quality : json) : json :=
  JDict [(py "respuesta_completa", JStr (py "Un fondo 130/30 ..."));
         (py "key_points", JList [JStr (py "apalancamiento");
                                  JStr (py "ventas cortas")]);
         (py "conceptos_mencionados", JList [JStr (py "130/30")]);
         (py "longitud_caracteres", JInt 19);
         (py "calidad_estimada", quality)].

(** The answer to question 3 has no key points. *)
Definition no_key_points : json :=
  JDict [(py "respuesta_completa", JStr (py "Martingale ..."));
         (py "conceptos_mencionados", JList [JStr (py "low-vol")]);
         (py "calidad_estimada", JStr (py "media"))].

(** The entry of question 1 is a text, not an object. *)
Definition text_entry : json :=
  JDict [(py "pregunta_1", JStr (py "No responde"));
         (py "pregunta_2", full_answer (JStr (py "alta")));
         (py "pregunta_3", no_key_points);
         (py "observaciones_generales", JStr (py "Incompleto"))].

(** The quality label of question 1 is a list. *)
Definition list_label : json :=
  JDict [(py "pregunta_1", full_answer (JList [JStr (py "alta")]))].

(** The key points of question 1 are numbers. *)
Definition number_points : json :=
  JDict [(py "pregunta_1", JDict [(py "key_points", JList [JInt 1; JInt 2])])].

(** A rubric whose entry of question 1 is a text. *)
Definition text_rubric : json :=
  JDict [(py "pregunta_1", JStr (py "Ver pauta adjunta"))].

(** A rubric whose criteria of question 1 are [null]. *)
Definition null_criteria : json :=
  JDict [(py "pregunta_1", JDict [(py "criterios_calidad", JNull)])].

(** A rubric whose ideal answer ends in a lone surrogate, as in the
    response ["ejemplo_respuesta_ideal": "ideal \ud83d"]. *)
Definition surrogate_rubric : json :=
  JDict [(py "pregunta_1",
          JDict [(py "ejemplo_respuesta_ideal",
                  JStr (py "ideal " ++ [55357%N]))])].

Definition entries (v : json) : dict :=
  match v with JDict d => d | _ => [] end.

(** A service that answers every extraction request with
    [extraction] and the rubric request with [rubric_response]. *)
Definition chat_create (n : nat) (req : request) : option pystr :=
  match req with
  | ExtractRequest _ _ _ => Some (py "extraccion")
  | RubricRequest _ => Some (py "pauta")
  end.

Definition json_loads (extraction rubric_response : json) (content : pystr)
  : option json :=
  if pystr_eqb content (py "extraccion") then Some extraction
  else Some rubric_response.

Definition doc (name : string) : document :=
  mk_document (py "examen.docx") (py name) (py name) (py "texto").

Definition start (docs : list document) : analyzer :=
  mk_analyzer docs [] [] (JDict []) [].

(** The first stage, and the stages that [main] runs after it. *)
Definition analyzed (extraction rubric_response : json)
  (docs : list document) : result analyzer :=
  analyze_patterns_iteratively true chat_create
    (json_loads extraction rubric_response) (start docs).

Definition pipeline (extraction rubric_response : json)
  (docs : list document) : result reports :=
  a1 <- analyzed extraction rubric_response docs ;;
  r2 <- synthesize_patterns a1 ;;
  r3 <- generate_rubric true chat_create
          (json_loads extraction rubric_response) (fst r2) ;;
  export_reports (fst r3).

(** The rubric stage after two students were analysed, when the
    service answers with [rubric_response]: whether an error is
    reported, the rubric that is stored, and the export that follows. *)
Definition generated (rubric_response : json) : result (analyzer * bool) :=
  generate_rubric true chat_create (json_loads JNull rubric_response)
    TwoStudents.state.

Definition reported (rubric_response : json) : result bool :=
  r <- generated rubric_response ;; Ok (snd r).

Definition stored (rubric_response : json) : result json :=
  r <- generated rubric_response ;; Ok (rubric (fst r)).

Definition exported (rubric_response : json) : result reports :=
  r <- generated rubric_response ;; export_reports (fst r).

End WrongTypes.

(** ** Folder validation and the main pipeline *)

(** What the path given to the analyzer is. *)
Inductive path_kind := Missing | RegularFile | Directory.

(** A directory listed by [folder_path.iterdir()], with the names
    that [subfolder.glob("*.docx")] finds in it. *)
Record subfolder := mk_subfolder {
  sf_name : pystr;
  sf_docx : list pystr
}.

(** What the file system answers: the kind of the path, its
    subfolders, the names found by [folder_path.glob("*.docx")] and the
    paths found by [folder_path.rglob("*.docx")]. *)
Record filesystem := mk_filesystem {
  fs_kind : path_kind;
  fs_subfolders : list subfolder;
  fs_root_docx : list pystr;
  fs_found : list file_entry
}.

(** [iterdir()] on a path that is not a directory raises. *)
Inductive os_result (A : Type) : Type :=
| Done (a : A)
| NotADirectoryError.
Arguments Done {A} a.
Arguments NotADirectoryError {A}.

Definition not_lock_name (name : pystr) : bool :=
  negb (startswith lock_marker name).

(** The loop of [validate_folder_structure] over the subfolders, which
    adds up [total_docx]. *)
Definition count_subfolder (total_docx : Z) (sf : subfolder) : Z :=
  total_docx + Z.of_nat (length (filter not_lock_name (sf_docx sf))).

Definition validate_folder_structure (fs : filesystem) : os_result bool :=
  match fs_kind fs with
  | Missing => Done false
  | RegularFile => NotADirectoryError
  | Directory =>
      match fs_subfolders fs with
      | [] =>
          match fs_root_docx fs with
          | [] => Done false
          | _ :: _ => Done true
          end
      | subfolders =>
          let total_docx := fold_left count_subfolder subfolders 0 in
          if total_docx =? 0 then Done false else Done true
      end
  end.

(** How [main] ends: one of its three early returns, an exception that
    nothing catches, or the end of the pipeline. *)
Inductive crash :=
| NotADirectory
| Uncaught (e : exn).

Inductive main_outcome :=
| FolderMissing
| StructureInvalid
| NoDocuments (a : analyzer)
| Crashed (c : crash)
| Completed (a : analyzer) (r : reports).

Section Main.

Variable client_configured : bool.
Variable chat_create : nat -> request -> option pystr.
Variable json_loads : pystr -> option json.

(** The four stages that [main] runs once documents are loaded. *)
Definition run_stages (a : analyzer) : result (analyzer * reports) :=
  a1 <- analyze_patterns_iteratively client_configured chat_create
          json_loads a ;;
  r2 <- synthesize_patterns a1 ;;
  r3 <- generate_rubric client_configured chat_create json_loads (fst r2) ;;
  r <- export_reports (fst r3) ;;
  Ok (fst r3, r).

(** [main]; the key it may prompt for goes to the environment only,
    which the client, built when the module is loaded, does not read
    again. *)
Definition main (fs : filesystem) : main_outcome :=
  match fs_kind fs with
  | Missing => FolderMissing
  | _ =>
      match validate_folder_structure fs with
      | NotADirectoryError => Crashed NotADirectory
      | Done false => StructureInvalid
      | Done true =>
          let a := fst (load_documents init (fs_found fs)) in
          match documents a with
          | [] => NoDocuments a
          | _ :: _ =>
              match run_stages a with
              | Ok (a', r) => Completed a' r
              | Raise e => Crashed (Uncaught e)
              end
          end
      end
  end.

End Main.

(** Some subfolder directly holds a Word file that is not a lock
    file. *)
Definition some_subfolder_has_docx (subfolders : list subfolder) : bool :=
  existsb (fun sf => existsb not_lock_name (sf_docx sf)) subfolders.

(** Two subfolders, a lock file in the first and a document in the
    second; a document at the root that no subfolder holds. *)
Module SampleTree.

Definition entry (name parent : string) : file_entry :=
  mk_file_entry (py name) (py parent) (py parent) (Some [py "texto"]).

Definition with_subfolders : filesystem :=
  mk_filesystem Directory
    [mk_subfolder (py "Ana") [py "~$examen.docx"];
     mk_subfolder (py "Bruno") [py "examen.docx"]]
    [py "suelto.docx"]
    [entry "suelto.docx" "raiz"; entry "~$examen.docx" "Ana";
     entry "examen.docx" "Bruno"].


End SampleTree.

(** [req] is the extraction request of the document [doc]. *)
Definition request_of (req : request) (doc : document) : Prop :=
  exists context,
    req = ExtractRequest context (doc_student_name doc) (doc_full_text doc).

(** The requests of a run: one per document when there is a client,
    none otherwise. *)
Definition requests_of (client_configured : bool) (reqs : list request)
  (docs : list document) : Prop :=
  if client_configured then Forall2 request_of reqs docs else reqs = [].

(** An analysis that was kept is a response of the service, stored as
    it was parsed, and one whose summary could be printed. *)
Definition stored_response (json_loads : pystr -> option json) (e : extracted)
  : Prop :=
  exists content,
    json_loads content = Some (JDict (ea_answers e))
    /\ summarizable (ea_answers e) = true.

(** The text of a string value. *)
Definition text_of (v : json) : pystr :=
  match v with JStr s => s | _ => [] end.

(** In [res], the concept list of each of the three questions whose
    entry is an object holds strings only. *)
Definition concept_list_ok (res : dict) (q : pystr) : bool :=
  match dict_get res q with
  | Some (JDict d) => forallb is_str (concepts_of d)
  | _ => true
  end.

Definition concepts_are_strings (res : dict) : bool :=
  forallb (concept_list_ok res) question_keys.






(** The sum of the counts of a counter. *)
Definition counter_total (c : counter) : Z :=
  fold_right (fun kv total => snd kv + total) 0 c.

(** The row of the student table for question [q_num] of [doc]: one
    when the entry of the question is an object, none otherwise. *)
Definition row_of (doc : extracted) (q_num : Z) : list student_row :=
  match dict_get (ea_answers doc) (q_key q_num) with
  | Some (JDict answer) =>
      [mk_student_row (ea_student_name doc) q_num
         (join (py ", ") (map text_of (concepts_of answer)))
         (length (key_points_of answer))
         (dict_get_default answer (py "longitud_caracteres") (JInt 0))
         (label_of answer)]
  | _ => []
  end.

Definition student_rows (docs : list extracted) : list student_row :=
  flat_map (fun doc => flat_map (row_of doc) range_1_4) docs.

(** The rows of one question. *)
Definition rows_of_question (q_num : Z) (rows : list student_row)
  : list student_row :=
  filter (fun row => sr_pregunta row =? q_num) rows.

(** The sum of a column of natural numbers. *)
Definition total (column : list nat) : nat := fold_right Nat.add 0%nat column.

(** The entry [answer] of a stored response can be shown in a context:
    if its key points are a list, the first three are strings. *)
Definition entry_renders (answer : json) : bool :=
  match answer with
  | JDict a =>
      match dict_get a (py "key_points") with
      | Some (JList l) => forallb is_str (slice_to 3 l)
      | _ => true
      end
  | _ => true
  end.

Definition key_points_render (e : extracted) : bool :=
  forallb (fun kv => entry_renders (snd kv)) (ea_answers e).

(** Whether the validation accepts a directory (see
    [validate_folder_structure]). *)
Definition structure_valid (fs : filesystem) : bool :=
  match fs_subfolders fs with
  | [] => match fs_root_docx fs with [] => false | _ :: _ => true end
  | _ :: _ => some_subfolder_has_docx (fs_subfolders fs)
  end.

(** The files that [load_documents] can load. *)
Definition loadable (fs : filesystem) : list file_entry :=
  filter readable (filter not_lock_file (fs_found fs)).

(** The row of the pattern table as numbers. *)
Definition row_numbers (row : pattern_row) : Z * Z * Z * Z :=
  (pr_total_respuestas row, pr_calidad_alta row, pr_calidad_media row,
   pr_calidad_baja row).

(** The exceptions that the shape of a value can cause. *)
Definition shape_error (e : exn) : Prop := e = TypeError \/ e = AttributeError.

(** How the pattern table shows a concept with its frequency. *)
Definition concept_cell (kv : json * Z) : text :=
  [Fmt (fst kv)] ++ lit (py " (") ++ lit (str_of_Z (snd kv)) ++ lit (py "x)").

(** The three fields of an element can be written. *)
Definition fields_encodable (f : json * json * json) : bool :=
  let '(concepto, puntos, descripcion) := f in
  fmt_encodable concepto && fmt_encodable puntos && fmt_encodable descripcion.

(** Every [f.write] of [out] can be encoded. *)
Definition writable (out : list text) : bool := forallb text_encodable out.

(** The exceptions that can leave the export: those of the shape of a
    value, and the one of a string that cannot be encoded. *)
Definition export_error (e : exn) : Prop :=
  shape_error e \/ e = UnicodeEncodeError.

(** A service whose every call fails or returns text that
    [json.loads] rejects. *)
Definition service_fails (chat_create : nat -> request -> option pystr)
  (json_loads : pystr -> option json) : Prop :=
  forall n req content,
    chat_create n req = Some content -> json_loads content = None.

(** *** The documents of a tree, as the specification words them *)



(** Four files found in three student folders: a document, a lock
    file, a file that cannot be read, a document. *)
Module FourFiles.

Definition found : list file_entry :=
  [mk_file_entry (py "examen.docx") (py "Ana") (py "raiz/Ana")
     (Some [py "Respuesta 1"; py "Respuesta 2"]);
   mk_file_entry (py "~$examen.docx") (py "Ana") (py "raiz/Ana")
     (Some [py "bloqueo"]);
   mk_file_entry (py "roto.docx") (py "Bruno") (py "raiz/Bruno") None;
   mk_file_entry (py "final.docx") (py "Carla") (py "raiz/Carla")
     (Some [py "Respuesta"])].

End FourFiles.

(** The line of the rubric prompt for a concept with its frequency. *)
Definition concept_item (kv : json * Z) : text :=
  lit (py "  - ") ++ [Fmt (fst kv)] ++ lit (py ": ")
  ++ lit (str_of_Z (snd kv)) ++ lit (py " veces") ++ lit nl.

(** The section of the rubric prompt for a question: its text, the
    number of answers and the concepts of [ranking]. *)
Definition question_section (q_num total : Z) (ranking : counter) : text :=
  lit nl ++ lit (pregunta (Z.to_nat (q_num - 1))) ++ lit nl
  ++ lit (py "Total respuestas: ") ++ lit (str_of_Z total) ++ lit nl
  ++ lit (py "Conceptos más mencionados:") ++ lit nl
  ++ flat_map concept_item ranking.

(** The part of the rubric prompt for an example. *)
Definition example_text (ex : example) : text :=
  lit nl ++ lit (py "Pregunta ") ++ lit (str_of_Z (ex_pregunta ex))
  ++ lit (py " - ") ++ lit (ex_estudiante ex) ++ lit (py ":") ++ lit nl
  ++ [Fmt (ex_respuesta ex)] ++ lit (py "...") ++ lit nl.

(** The context of the rubric prompt, given the ranking of each
    question and the examples. *)
Definition rubric_prompt (total : Z) (ranking : Z -> counter)
  (examples : list example) : text :=
  lit (py "Análisis de todas las respuestas:") ++ lit nl ++ lit nl
  ++ flat_map
       (fun q_num => question_section q_num total (most_common 5 (ranking q_num)))
       [1; 2; 3]
  ++ lit nl ++ lit nl
  ++ lit (py "Ejemplos de respuestas de alta calidad:") ++ lit nl
  ++ flat_map example_text (slice_to 6 examples).

(** * Properties *)

(** ** General lemmas *)

Lemma pystr_eqb_eq a b : pystr_eqb a b = true <-> a = b.
Proof.
  unfold pystr_eqb. destruct (list_eq_dec N.eq_dec a b); split; congruence.
Qed.

Lemma pystr_eqb_refl a : pystr_eqb a a = true.
Proof. now apply pystr_eqb_eq. Qed.

Lemma pystr_eqb_neq a b : pystr_eqb a b = false <-> a <> b.
Proof.
  unfold pystr_eqb. destruct (list_eq_dec N.eq_dec a b); split; congruence.
Qed.


Lemma for_each_ok {A S} (l : list A) (body : S -> A -> result S)
  (f : S -> A -> S) :
  (forall s x, In x l -> body s x = Ok (f s x)) ->
  forall s, for_each l body s = Ok (fold_left f l s).
Proof.
  induction l as [|x l IH]; intros H s; simpl.
  - reflexivity.
  - rewrite H by now left. simpl. apply IH. intros; apply H; now right.
Qed.

Lemma slice_last_app {A} (n : nat) (l1 l2 : list A) :
  (n <= List.length l2)%nat -> slice_last n (l1 ++ l2) = slice_last n l2.
Proof.
  intros H. unfold slice_last. rewrite length_app.
  replace (List.length l1 + List.length l2 - n)%nat
    with (List.length l1 + (List.length l2 - n))%nat by lia.
  now rewrite skipn_app, skipn_all2, Nat.add_comm, Nat.add_sub by lia.
Qed.

Lemma slice_last_length {A} (n : nat) (l : list A) :
  List.length (slice_last n l) = Nat.min n (List.length l).
Proof. unfold slice_last. rewrite length_skipn. lia. Qed.

Lemma slice_last_idem {A} (n : nat) (l : list A) :
  slice_last n (slice_last n l) = slice_last n l.
Proof.
  unfold slice_last at 1. rewrite slice_last_length.
  replace (Nat.min n (List.length l) - n)%nat with 0%nat by lia.
  reflexivity.
Qed.

Lemma slice_last_nil_iff {A} (n : nat) (l : list A) :
  (0 < n)%nat -> slice_last n l = [] <-> l = [].
Proof.
  intros Hn. split; intros H.
  - apply (f_equal (@List.length A)) in H. rewrite slice_last_length in H.
    simpl in H. destruct l; [reflexivity | simpl in H; lia].
  - subst. reflexivity.
Qed.

(** ** Document Loader *)

Lemma load_loop files : forall docs errs,
  exists new,
    fold_left load_step files (docs, errs)
    = (docs ++ new, errs ++ filter (fun f => negb (readable f)) files)
    /\ Forall2 loaded_from new (filter readable files).
Proof.
  induction files as [|f files IH]; intros docs errs; simpl.
  - exists []. now rewrite !app_nil_r.
  - destruct (fe_paragraphs f) as [ps|] eqn:E.
    + assert (Hr : readable f = true) by (unfold readable; now rewrite E).
      assert (Hs : load_step (docs, errs) f
                   = (docs ++ [mk_document (fe_name f) (fe_parent_name f)
                                 (fe_parent_path f) (join nl ps)], errs))
        by (unfold load_step; now rewrite E).
      rewrite Hs, Hr. simpl.
      destruct (IH (docs ++ [mk_document (fe_name f) (fe_parent_name f)
                               (fe_parent_path f) (join nl ps)]) errs)
        as (new & Hf & Hall).
      eexists (_ :: new). rewrite Hf, <- app_assoc. split; [reflexivity|].
      constructor; [|exact Hall].
      repeat split; simpl; eauto.
    + assert (Hr : readable f = false) by (unfold readable; now rewrite E).
      assert (Hs : load_step (docs, errs) f = (docs, errs ++ [f]))
        by (unfold load_step; now rewrite E).
      rewrite Hs, Hr. simpl.
      destruct (IH docs (errs ++ [f])) as (new & Hf & Hall).
      exists new. rewrite Hf, <- app_assoc. now split.
Qed.







(** ** Answer Extractor: the rolling context *)

Lemma for_each_append {A B} (f : A -> result (list B)) (l : list A) :
  forall s,
    for_each l (fun acc x => e <- f x ;; Ok (acc ++ e)) s
    = (es <- map_result f l ;; Ok (s ++ concat es)).
Proof.
  induction l as [|x l IH]; intros s; simpl.
  - now rewrite app_nil_r.
  - destruct (f x) as [e|err]; simpl; [|reflexivity].
    rewrite IH. destruct (map_result f l); simpl; [|reflexivity].
    now rewrite app_assoc.
Qed.

Lemma context_document_section context prev :
  context_document context prev
  = (s <- context_section prev ;; Ok (context ++ s)).
Proof.
  unfold context_document, context_section.
  rewrite (for_each_append (fun kv => context_entry (fst kv) (snd kv))).
  destruct (map_result _ (ea_answers prev)); cbn [bind]; [|reflexivity].
  now rewrite <- !app_assoc.
Qed.

Lemma context_loop_sections w : forall h,
  for_each w context_document h
  = (sections <- map_result context_section w ;; Ok (h ++ concat sections)).
Proof.
  induction w as [|p w IH]; intros h; cbn [for_each map_result bind].
  - now rewrite app_nil_r.
  - rewrite context_document_section.
    destruct (context_section p) as [s|e]; cbn [bind]; [|reflexivity].
    rewrite IH.
    destruct (map_result context_section w); cbn [bind concat];
      [|reflexivity].
    now rewrite app_assoc.
Qed.

Lemma build_context_sections l :
  l <> [] ->
  build_context l
  = (sections <- map_result context_section (slice_last 3 l) ;;
     Ok (context_header ++ concat sections)).
Proof.
  intros Hl. unfold build_context. destruct l as [|x l]; [congruence|].
  apply context_loop_sections.
Qed.

Lemma build_context_window l :
  build_context l = build_context (slice_last 3 l).
Proof.
  unfold build_context.
  destruct l as [|x l]; [reflexivity|].
  destruct (slice_last 3 (x :: l)) eqn:E.
  - apply slice_last_nil_iff in E; [discriminate | lia].
  - rewrite <- E, slice_last_idem. reflexivity.
Qed.

Lemma slice_to_length_le {A} (n : nat) (l : list A) :
  (length (slice_to n l) <= n)%nat.
Proof. unfold slice_to. rewrite length_firstn. lia. Qed.

Lemma strs_of_map ss : strs_of (map JStr ss) = Ok ss.
Proof.
  induction ss as [|s ss IH]; cbn [map strs_of]; [reflexivity|].
  now rewrite IH.
Qed.

(** C3 (as amended). The context of a request is built from at most
    the last three entries of the accumulated list of analyses, that
    is, of the documents that yielded a result: it is the same for two
    lists with the same last three entries, and when the three
    preceding documents all yielded a result it is built from exactly
    these.  It holds a title line per document and, for every key of
    its stored response, the first three key points when they are a
    non-empty list of strings, the first 200 characters when the key
    points are a string, and the placeholder when the entry is not an
    object or has no key points. *)
Theorem rolling_context_spec :
  (forall l,
      build_context l = build_context (slice_last 3 l)
      /\ (length (slice_last 3 l) <= 3)%nat)
  /\ (forall prior e1 e2 e3,
         build_context (prior ++ [e1; e2; e3]) = build_context [e1; e2; e3])
  /\ (forall l,
         l <> [] ->
         build_context l
         = (sections <- map_result context_section (slice_last 3 l) ;;
            Ok (context_header ++ concat sections)))
  /\ (forall q a k ks ss,
         dict_get a (py "key_points") = Some (JList (k :: ks)) ->
         slice_to 3 (k :: ks) = map JStr ss ->
         context_entry q (JDict a)
         = Ok (py "  Pregunta " ++ q ++ py ": " ++ join (py ", ") ss
                 ++ py "..." ++ nl))
  /\ (forall q a s,
         dict_get a (py "key_points") = Some (JStr s) ->
         context_entry q (JDict a)
         = Ok (py "  Pregunta " ++ q ++ py ": " ++ slice_to 200 s
                 ++ py "..." ++ nl)
         /\ (length (slice_to 200 s) <= 200)%nat)
  /\ (forall q answer,
         is_dict answer = false
         \/ (exists a, answer = JDict a
                       /\ dict_get a (py "key_points") = None) ->
         context_entry q answer
         = Ok (py "  Pregunta " ++ q ++ py ": " ++ placeholder ++ nl))
  /\ (forall chat_create json_loads a doc_data context,
         build_context (extracted_answers a) = Ok context ->
         exists analysis,
           extract_answers_from_document true chat_create json_loads a doc_data
           = Ok (analysis,
                 [ExtractRequest context (doc_student_name doc_data)
                    (doc_full_text doc_data)])).
Proof.
  split; [|split; [|split; [|split; [|split; [|split]]]]].
  - intros l. split; [apply build_context_window|].
    rewrite slice_last_length. lia.
  - intros prior e1 e2 e3.
    rewrite build_context_window, slice_last_app by (simpl; lia).
    symmetry. apply build_context_window.
  - apply build_context_sections.
  - intros q a k ks ss Hk Hs. unfold context_entry. rewrite Hk.
    unfold py_join. rewrite Hs, strs_of_map. reflexivity.
  - intros q a s Hk. unfold context_entry. rewrite Hk.
    split; [reflexivity | apply slice_to_length_le].
  - intros q answer [H | (a & -> & H)].
    + destruct answer; try reflexivity. discriminate.
    + unfold context_entry. now rewrite H.
  - intros chat_create json_loads a doc_data context H.
    unfold extract_answers_from_document. rewrite H. cbn [bind negb].
    eexists. reflexivity.
Qed.

(** Four key points of an earlier answer: the context shows the first
    three. *)
Lemma rolling_context_first_three_points :
  context_entry (py "pregunta_1")
    (JDict [(py "key_points",
             JList [JStr (py "apalancamiento"); JStr (py "ventas cortas");
                    JStr (py "alfa"); JStr (py "beta")])])
  = Ok (py "  Pregunta pregunta_1: apalancamiento, ventas cortas, alfa..."
          ++ nl).
Proof.
  apply (proj1 (proj2 (proj2 (proj2 rolling_context_spec)))
           (py "pregunta_1")
           [(py "key_points",
             JList [JStr (py "apalancamiento"); JStr (py "ventas cortas");
                    JStr (py "alfa"); JStr (py "beta")])]
           (JStr (py "apalancamiento"))
           [JStr (py "ventas cortas"); JStr (py "alfa"); JStr (py "beta")]
           [py "apalancamiento"; py "ventas cortas"; py "alfa"]).
  - reflexivity.
  - reflexivity.
Defined.

Import FiveDocuments.

(** C3, counterexample.  In a run over five documents whose third
    response is not valid JSON, the context sent with the fifth
    document changes with the response to the first one, although the
    responses to the four documents after it are the same: the window
    is over the accumulated analyses, not over the preceding
    documents.  And an entry whose key points are an empty list adds
    nothing to the context, not even the placeholder. *)
Lemma context_reaches_earlier_document :
  map json_loads_A [py "1"; py "2"; py "3"; py "4"]
  = map json_loads_B [py "1"; py "2"; py "3"; py "4"]
  /\ (exists context_A context_B,
        sent_context run_A 4 = Some context_A
        /\ sent_context run_B 4 = Some context_B
        /\ pystr_eqb context_A context_B = false)
  /\ context_entry (py "pregunta_1") (JDict [(py "key_points", JList [])])
     = Ok [].
Proof.
  split; [reflexivity|]. split; [|reflexivity].
  eexists. eexists. split; [|split].
  - vm_compute. reflexivity.
  - vm_compute. reflexivity.
  - vm_compute. reflexivity.
Qed.

(** ** Answer Extractor: failures and order *)

Lemma map_result_ok {A B} (f : A -> result B) (l : list A) :
  Forall (fun x => exists y, f x = Ok y) l ->
  exists ys, map_result f l = Ok ys.
Proof.
  induction 1 as [|x l (y & Hy) _ (ys & Hys)]; cbn [map_result].
  - now exists [].
  - rewrite Hy, Hys. cbn [bind]. now exists (y :: ys).
Qed.

Lemma Forall_slice_last {A} (P : A -> Prop) n (l : list A) :
  Forall P l -> Forall P (slice_last n l).
Proof.
  intros H. unfold slice_last.
  rewrite <- (firstn_skipn (length l - n) l) in H.
  now apply Forall_app in H.
Qed.

Lemma context_section_ok prev :
  renders (ea_answers prev) = true -> exists s, context_section prev = Ok s.
Proof.
  unfold renders, context_section.
  destruct (map_result _ (ea_answers prev)); [|discriminate].
  intros _. cbn [bind]. eexists. reflexivity.
Qed.

Lemma build_context_ok l :
  Forall (fun e => renders (ea_answers e) = true) l ->
  exists context, build_context l = Ok context.
Proof.
  intros H. destruct l as [|x l]; [now exists []|].
  rewrite build_context_sections by discriminate.
  destruct (map_result_ok context_section (slice_last 3 (x :: l)))
    as (ss & Hss).
  - apply Forall_slice_last.
    eapply Forall_impl; [|exact H]. intros e. apply context_section_ok.
  - rewrite Hss. cbn [bind]. eexists. reflexivity.
Qed.

Section Run.

Variable client_configured : bool.
Variable chat_create : nat -> request -> option pystr.
Variable json_loads : pystr -> option json.

(** What [extract_try] gives when it gives an analysis. *)
Lemma extract_try_some calls req doc_data analysis :
  try_except (extract_try chat_create json_loads calls req doc_data) None
  = Some analysis ->
  exists content,
    chat_create calls req = Some content
    /\ json_loads content = Some (JDict (ea_answers analysis))
    /\ ea_student_name analysis = doc_student_name doc_data.
Proof.
  unfold extract_try.
  destruct (chat_create calls req) as [content|] eqn:Ec; [|discriminate].
  cbn [of_option bind].
  destruct (json_loads content) as [parsed|] eqn:El; [|discriminate].
  cbn [of_option bind].
  destruct parsed; try discriminate.
  destruct (debug_structure d); cbn [bind]; [|discriminate].
  destruct (extraction_summary d) as [lines|]; cbn [bind]; [|discriminate].
  destruct (for_each lines print_summary_line tt); cbn [bind]; [|discriminate].
  destruct (print_observations d); [|discriminate].
  cbn [bind try_except]. intros [= <-]. exists content. repeat split; auto.
Qed.

Hypothesis responses_render :
  forall content res,
    json_loads content = Some (JDict res) -> renders res = true.

Lemma analyze_step_ok a doc :
  Forall (fun e => renders (ea_answers e) = true) (extracted_answers a) ->
  exists a' new,
    analyze_step client_configured chat_create json_loads a doc = Ok a'
    /\ extracted_answers a' = extracted_answers a ++ new
    /\ kept_in_order [doc] new
    /\ documents a' = documents a
    /\ length (sent a')
       = (length (sent a) + if client_configured then 1 else 0)%nat
    /\ Forall (fun e => renders (ea_answers e) = true) (extracted_answers a').
Proof.
  intros Hinv. destruct (build_context_ok _ Hinv) as (context & Hc).
  unfold analyze_step, extract_answers_from_document.
  rewrite Hc. cbn [bind].
  destruct client_configured; cbn [negb bind fst snd].
  - match goal with
    | |- context [try_except ?t None] => destruct (try_except t None) as [e|] eqn:E
    end.
    + destruct (extract_try_some _ _ _ _ E) as (content & _ & Hl & Hn).
      eexists. exists [e]. split; [reflexivity|]. cbn.
      repeat split.
      * constructor; [exact Hn | constructor].
      * rewrite length_app. reflexivity.
      * apply Forall_app. split; [exact Hinv|].
        constructor; [|constructor]. eapply responses_render; eauto.
    + eexists. exists []. split; [reflexivity|]. cbn.
      rewrite app_nil_r, length_app. repeat split; auto.
      repeat constructor.
  - eexists. exists []. split; [reflexivity|]. cbn.
    rewrite !app_nil_r, Nat.add_0_r. repeat split; auto.
    repeat constructor.
Qed.

Lemma kept_in_order_app ds1 es1 ds2 es2 :
  kept_in_order ds1 es1 -> kept_in_order ds2 es2 ->
  kept_in_order (ds1 ++ ds2) (es1 ++ es2).
Proof.
  induction 1; intros H2; cbn [app]; auto using kept_in_order.
Qed.

Lemma analyze_loop_ok docs : forall a,
  Forall (fun e => renders (ea_answers e) = true) (extracted_answers a) ->
  exists a' new,
    for_each docs (analyze_step client_configured chat_create json_loads) a
    = Ok a'
    /\ extracted_answers a' = extracted_answers a ++ new
    /\ kept_in_order docs new
    /\ length (sent a')
       = (length (sent a) + if client_configured then length docs else 0)%nat.
Proof.
  induction docs as [|doc docs IH]; intros a Hinv.
  - exists a, []. cbn [for_each]. rewrite app_nil_r.
    repeat split; [constructor | destruct client_configured; cbn; lia].
  - destruct (analyze_step_ok a doc Hinv)
      as (a1 & new1 & Hs & He & Hk & _ & Hn & Hinv1).
    destruct (IH a1 Hinv1) as (a' & new & Hf & He' & Hk' & Hn').
    exists a', (new1 ++ new). cbn [for_each]. rewrite Hs. cbn [bind].
    split; [exact Hf|]. split; [now rewrite He', He, app_assoc|].
    split; [exact (kept_in_order_app [doc] new1 docs new Hk Hk')|].
    rewrite Hn', Hn. destruct client_configured; cbn [length]; lia.
Qed.

End Run.

(** C5. A document whose extraction meets a missing client or a
    response that is not valid JSON yields no result: no request at all
    in the first case, exactly one in the second (no retry), and the
    accumulated list is left as it was.  Over a whole run the
    accumulated analyses are those of some of the documents, in the
    order of the documents. *)
Theorem extraction_fails_soft
  (client_configured : bool) (chat_create : nat -> request -> option pystr)
  (json_loads : pystr -> option json) :
  (forall a doc_data context,
      build_context (extracted_answers a) = Ok context ->
      let req := ExtractRequest context (doc_student_name doc_data)
                   (doc_full_text doc_data) in
      extract_answers_from_document false chat_create json_loads a doc_data
      = Ok (None, [])
      /\ (forall content,
             chat_create (length (sent a)) req = Some content ->
             json_loads content = None ->
             extract_answers_from_document true chat_create json_loads a
               doc_data
             = Ok (None, [req])))
  /\ (forall a doc_data reqs,
         extract_answers_from_document client_configured chat_create
           json_loads a doc_data = Ok (None, reqs) ->
         exists a',
           analyze_step client_configured chat_create json_loads a doc_data
           = Ok a'
           /\ extracted_answers a' = extracted_answers a
           /\ sent a' = sent a ++ reqs
           /\ (length reqs <= 1)%nat)
  /\ ((forall content res,
          json_loads content = Some (JDict res) -> renders res = true) ->
      forall a,
        Forall (fun e => renders (ea_answers e) = true)
          (extracted_answers a) ->
        exists a' new,
          analyze_patterns_iteratively client_configured chat_create
            json_loads a = Ok a'
          /\ extracted_answers a' = extracted_answers a ++ new
          /\ kept_in_order (documents a) new
          /\ length (sent a')
             = (length (sent a)
                + if client_configured then length (documents a) else 0)%nat).
Proof.
  split; [|split].
  - intros a doc_data context Hc req. split.
    + unfold extract_answers_from_document. now rewrite Hc.
    + intros content Hchat Hloads.
      unfold extract_answers_from_document. rewrite Hc. cbn [bind negb].
      fold req. unfold extract_try. rewrite Hchat. cbn [of_option bind].
      now rewrite Hloads.
  - intros a doc_data reqs H. unfold analyze_step. rewrite H.
    cbn [bind fst snd]. eexists. split; [reflexivity|]. cbn.
    repeat split.
    unfold extract_answers_from_document in H.
    destruct (build_context (extracted_answers a)); [|discriminate].
    cbn [bind] in H. destruct client_configured; cbn [negb] in H;
      inversion H; cbn; lia.
  - intros Hr a Hinv. unfold analyze_patterns_iteratively.
    now apply analyze_loop_ok.
Qed.

Import FiveDocuments.

(** The run over five documents whose third response does not parse:
    four analyses, in the order of the documents, five requests. *)
Lemma extraction_fails_soft_five_documents :
  exists a' new,
    run_A = Ok a'
    /\ extracted_answers a' = [] ++ new
    /\ kept_in_order docs new
    /\ length (sent a') = 5%nat.
Proof.
  apply (proj2 (proj2 (extraction_fails_soft true chat_create json_loads_A))).
  - intros content res. unfold json_loads_A.
    destruct (pystr_eqb content (py "2")); [discriminate|].
    intros [= <-]. reflexivity.
  - constructor.
Defined.

(** ** Rubric Generator: the high-quality examples *)

Lemma for_each_flat_map {A B} (l : list A) (body : list B -> A -> result (list B))
  (g : A -> list B) :
  (forall acc x, In x l -> body acc x = Ok (acc ++ g x)) ->
  forall acc, for_each l body acc = Ok (acc ++ flat_map g l).
Proof.
  induction l as [|x l IH]; intros H acc; cbn [for_each flat_map].
  - now rewrite app_nil_r.
  - rewrite H by now left. cbn [bind]. rewrite IH.
    + now rewrite app_assoc.
    + intros; apply H; now right.
Qed.

Lemma example_step_spec doc acc q_num :
  example_ready_at doc q_num = true ->
  example_step doc acc q_num = Ok (acc ++ spec_question_example doc q_num).
Proof.
  unfold example_ready_at, example_step, spec_question_example.
  destruct (dict_get (ea_answers doc) (q_key q_num)) as [answer|];
    [|now rewrite app_nil_r].
  destruct answer; try discriminate.
  cbn [py_get bind high_quality truncated_text].
  destruct (eq_str _ (py "alta")); [|now rewrite app_nil_r].
  destruct (dict_get_default d (py "respuesta_completa") (JStr []));
    try discriminate; reflexivity.
Qed.

Lemma high_quality_examples_spec docs :
  forallb example_ready docs = true ->
  high_quality_examples docs = Ok (spec_all_examples docs).
Proof.
  intros H. unfold high_quality_examples, spec_all_examples.
  rewrite (for_each_flat_map docs _
             (fun doc => flat_map (spec_question_example doc) [1; 2; 3]));
    [reflexivity|].
  intros acc doc Hin.
  rewrite forallb_forall in H. specialize (H doc Hin).
  unfold example_ready in H. rewrite forallb_forall in H.
  apply for_each_flat_map. intros acc' q Hq. apply example_step_spec; auto.
Qed.

Lemma truncated_text_length answer s :
  truncated_text answer = JStr s -> (length s <= 500)%nat.
Proof.
  unfold truncated_text. destruct answer; try discriminate.
  destruct (dict_get_default d (py "respuesta_completa") (JStr []))
    as [| | |s0| |]; try discriminate.
  intros E. replace s with (firstn 500 s0) by congruence.
  rewrite length_firstn. lia.
Qed.

Lemma spec_all_examples_In docs ex :
  In ex (spec_all_examples docs) ->
  exists doc answer,
    In doc docs
    /\ In (ex_pregunta ex) [1; 2; 3]
    /\ dict_get (ea_answers doc) (q_key (ex_pregunta ex)) = Some answer
    /\ high_quality answer = true
    /\ ex_estudiante ex = ea_student_name doc
    /\ ex_respuesta ex = truncated_text answer.
Proof.
  unfold spec_all_examples. rewrite in_flat_map.
  intros (doc & Hdoc & Hex). rewrite in_flat_map in Hex.
  destruct Hex as (q & Hq & Hex). unfold spec_question_example in Hex.
  destruct (dict_get (ea_answers doc) (q_key q)) as [answer|] eqn:E;
    [|contradiction].
  destruct (high_quality answer) eqn:Hh; [|contradiction].
  destruct Hex as [<-|[]]. cbn [ex_pregunta ex_estudiante ex_respuesta].
  exists doc, answer. repeat split; auto.
Qed.

(** C6. The examples that reach the rubric prompt are the answers
    whose quality label is ['alta'], taken document by document and,
    within a document, question 1 to 3, each with its text cut to 500
    characters, and only the first 6 of them. *)
Theorem high_quality_examples_refine (a : analyzer) :
  forallb example_ready (extracted_answers a) = true ->
  let docs := extracted_answers a in
  high_quality_examples docs = Ok (spec_all_examples docs)
  /\ prompt_examples (spec_all_examples docs) = spec_examples docs
  /\ (exists opening,
        rubric_context a
        = Ok (fold_left example_context (spec_examples docs) opening))
  /\ (length (spec_examples docs) <= 6)%nat
  /\ (length (spec_all_examples docs) <= 6 ->
      spec_examples docs = spec_all_examples docs)%nat
  /\ (forall ex,
        In ex (spec_examples docs) ->
        exists doc answer,
          In doc docs
          /\ In (ex_pregunta ex) [1; 2; 3]
          /\ dict_get (ea_answers doc) (q_key (ex_pregunta ex)) = Some answer
          /\ high_quality answer = true
          /\ ex_estudiante ex = ea_student_name doc
          /\ ex_respuesta ex = truncated_text answer
          /\ (forall s, ex_respuesta ex = JStr s -> (length s <= 500)%nat)).
Proof.
  intros H docs.
  pose proof (high_quality_examples_spec docs H) as Hs.
  split; [exact Hs|]. split; [reflexivity|]. split.
  { unfold rubric_context. fold docs. rewrite Hs. cbn [bind].
    eexists. reflexivity. }
  split.
  { unfold spec_examples. rewrite length_firstn. lia. }
  split.
  { intros Hl. unfold spec_examples. now apply firstn_all2. }
  intros ex Hin. unfold spec_examples in Hin.
  assert (Hin' : In ex (spec_all_examples docs)).
  { rewrite <- (firstn_skipn 6 (spec_all_examples docs)).
    apply in_or_app. now left. }
  destruct (spec_all_examples_In docs ex Hin')
    as (doc & answer & H1 & H2 & H3 & H4 & H5 & H6).
  exists doc, answer. repeat split; auto.
  intros s Hs'. rewrite H6 in Hs'. now apply truncated_text_length in Hs'.
Qed.

(** Nine high answers of three students: the six examples are the
    three answers of the first two students. *)
Lemma high_quality_examples_three_students :
  high_quality_examples ThreeStudents.students
  = Ok (spec_all_examples ThreeStudents.students)
  /\ map (fun ex => (ex_estudiante ex, ex_pregunta ex))
       (spec_examples ThreeStudents.students)
     = [(py "Ana", 1); (py "Ana", 2); (py "Ana", 3);
        (py "Bruno", 1); (py "Bruno", 2); (py "Bruno", 3)].
Proof.
  split.
  - exact (proj1 (high_quality_examples_refine ThreeStudents.state eq_refl)).
  - reflexivity.
Defined.

(** ** Counters *)

Lemma key_eqb_sym a b : key_eqb a b = key_eqb b a.
Proof.
  destruct a, b; cbn [key_eqb]; try reflexivity.
  - now destruct b, b0.
  - apply Z.eqb_sym.
  - unfold pystr_eqb.
    destruct (list_eq_dec N.eq_dec s s0), (list_eq_dec N.eq_dec s0 s);
      congruence.
Qed.

Lemma key_eqb_refl a : hashable a = true -> key_eqb a a = true.
Proof.
  destruct a; cbn [key_eqb hashable]; intros H; try discriminate; auto.
  - apply Bool.eqb_reflx.
  - apply Z.eqb_refl.
  - apply pystr_eqb_refl.
Qed.

Lemma key_eqb_trans a b c :
  key_eqb a b = true -> key_eqb b c = true -> key_eqb a c = true.
Proof.
  destruct a, b, c; cbn [key_eqb]; try discriminate; auto;
    rewrite ?Bool.eqb_true_iff, ?Z.eqb_eq, ?pystr_eqb_eq;
    try congruence;
    repeat match goal with b : bool |- _ => destruct b end; lia.
Qed.

Lemma key_eqb_hashable a b : key_eqb a b = true -> hashable a = true.
Proof. destruct a, b; cbn; congruence. Qed.

(** Two keys equal to a third one are equal to the same values. *)
Lemma key_eqb_congr a b c :
  key_eqb a b = true -> key_eqb a c = key_eqb b c.
Proof.
  intros H. destruct (key_eqb b c) eqn:E.
  - eapply key_eqb_trans; eauto.
  - destruct (key_eqb a c) eqn:E'; [|reflexivity].
    rewrite key_eqb_sym in H. rewrite <- E. symmetry.
    eapply key_eqb_trans; eauto.
Qed.

Lemma counter_get_incr c x k :
  counter_get (counter_incr c x) k 0
  = counter_get c k 0 + (if key_eqb k x then 1 else 0).
Proof.
  induction c as [|[k' n] c IH]; cbn [counter_incr counter_get].
  - rewrite (key_eqb_sym x k). destruct (key_eqb k x); reflexivity.
  - destruct (key_eqb k' x) eqn:Ex; cbn [counter_get].
    + rewrite (key_eqb_sym k x), <- (key_eqb_congr _ _ k Ex).
      destruct (key_eqb k' k) eqn:Ek; lia.
    + destruct (key_eqb k' k) eqn:Ek; [|exact IH].
      rewrite <- (key_eqb_congr _ _ x Ek), Ex. lia.
Qed.

Lemma counter_get_counted l : forall c k,
  counter_get (fold_left counter_incr l c) k 0
  = counter_get c k 0 + Z.of_nat (occurrences k l).
Proof.
  unfold occurrences.
  induction l as [|x l IH]; intros c k; cbn [fold_left filter].
  - cbn. lia.
  - rewrite IH, counter_get_incr.
    destruct (key_eqb k x); cbn [length]; lia.
Qed.

Lemma Counter_counted l :
  forallb hashable l = true -> Counter l = Ok (counted l).
Proof.
  intros H. unfold Counter, counted. apply for_each_ok.
  intros c x Hin. unfold counter_add.
  rewrite forallb_forall in H. now rewrite (H x Hin).
Qed.

Lemma counter_incr_keys c x :
  map fst (counter_incr c x) = add_key (map fst c) x.
Proof.
  unfold add_key.
  induction c as [|[k n] c IH]; cbn [counter_incr map existsb fst].
  - reflexivity.
  - destruct (key_eqb k x); cbn [orb map fst]; [reflexivity|].
    rewrite IH. now destruct (existsb _ (map fst c)).
Qed.

Lemma fold_counter_incr_keys l : forall c,
  map fst (fold_left counter_incr l c) = fold_left add_key l (map fst c).
Proof.
  induction l as [|x l IH]; intros c; cbn [fold_left]; [reflexivity|].
  now rewrite IH, counter_incr_keys.
Qed.

Lemma counted_keys l : map fst (counted l) = keys_of l.
Proof. apply fold_counter_incr_keys. Qed.

(** *** First occurrences *)

Lemma first_index_le k l : (first_index k l <= length l)%nat.
Proof.
  induction l as [|x l IH]; cbn [first_index length]; [lia|].
  destruct (key_eqb k x); lia.
Qed.

Lemma first_index_congr a b l :
  key_eqb a b = true -> first_index a l = first_index b l.
Proof.
  intros H. induction l as [|x l IH]; cbn [first_index]; [reflexivity|].
  now rewrite (key_eqb_congr _ _ x H), IH.
Qed.

Lemma first_index_found k l :
  (first_index k l < length l)%nat
  <-> exists x, In x l /\ key_eqb k x = true.
Proof.
  induction l as [|y l IH]; cbn [first_index length In].
  - split; [lia | intros (x & [] & _)].
  - destruct (key_eqb k y) eqn:E.
    + split; [intros _; exists y; auto | lia].
    + split.
      * intros H. destruct (proj1 IH) as (x & Hx & Hk); [lia|].
        exists x; auto.
      * intros (x & [->|Hx] & Hk); [congruence|].
        apply -> Nat.succ_lt_mono. apply IH. exists x; auto.
Qed.

Lemma first_index_app_l k p q :
  (first_index k p < length p)%nat ->
  first_index k (p ++ q) = first_index k p.
Proof.
  induction p as [|x p IH]; cbn [first_index length app]; [lia|].
  destruct (key_eqb k x); [reflexivity|]. intros H. rewrite IH; lia.
Qed.

Lemma first_index_app_r k p q :
  first_index k p = length p ->
  first_index k (p ++ q) = (length p + first_index k q)%nat.
Proof.
  induction p as [|x p IH]; cbn [first_index length app]; [reflexivity|].
  destruct (key_eqb k x); [discriminate|]. intros H. rewrite IH; lia.
Qed.

Lemma StronglySorted_snoc {A} (R : A -> A -> Prop) l x :
  StronglySorted R l -> Forall (fun y => R y x) l ->
  StronglySorted R (l ++ [x]).
Proof.
  induction 1 as [|y l Hs IH Hy]; intros Hall; cbn [app].
  - repeat constructor.
  - inversion Hall; subst. constructor; [auto|].
    apply Forall_app. split; [exact Hy | now constructor].
Qed.

(** The keys of a counter are the distinct items of the list, each
    found in it, in the order of their first occurrence. *)
Lemma keys_of_spec l :
  forallb hashable l = true ->
  (forall k, In k (keys_of l) ->
             hashable k = true /\ (first_index k l < length l)%nat)
  /\ (forall x, In x l -> existsb (fun k => key_eqb k x) (keys_of l) = true)
  /\ StronglySorted lt (map (fun k => first_index k l) (keys_of l)).
Proof.
  induction l as [|x p IH] using rev_ind; intros Hh.
  - cbn. repeat split; try contradiction. constructor.
  - rewrite forallb_app in Hh. apply andb_true_iff in Hh.
    destruct Hh as [Hp Hx]. cbn [forallb] in Hx. rewrite andb_true_r in Hx.
    destruct (IH Hp) as (K1 & K2 & K3). clear IH.
    unfold keys_of. rewrite fold_left_app. cbn [fold_left].
    fold (keys_of p). unfold add_key.
    assert (Hold : forall k, In k (keys_of p) ->
                             first_index k (p ++ [x]) = first_index k p).
    { intros k Hk. apply first_index_app_l. now apply K1. }
    destruct (existsb (fun k => key_eqb k x) (keys_of p)) eqn:E.
    + split; [|split].
      * intros k Hk. split; [now apply K1|].
        rewrite (Hold k Hk), length_app. destruct (K1 k Hk). lia.
      * intros y Hy. apply in_app_or in Hy.
        destruct Hy as [Hy|[<-|[]]]; auto.
      * rewrite (map_ext_in _ (fun k => first_index k p)); auto.
    + assert (Hnew : first_index x p = length p).
      { pose proof (first_index_le x p) as Hle.
        destruct (Nat.eq_dec (first_index x p) (length p)) as [|Hne]; auto.
        destruct (proj1 (first_index_found x p)) as (y & Hy & Hxy); [lia|].
        specialize (K2 y Hy). apply existsb_exists in K2.
        destruct K2 as (k & Hk & Hky).
        assert (key_eqb k x = true).
        { rewrite key_eqb_sym in Hxy. eapply key_eqb_trans; eauto. }
        assert (existsb (fun k => key_eqb k x) (keys_of p) = true)
          by (apply existsb_exists; eauto).
        congruence. }
      assert (Hxi : first_index x (p ++ [x]) = length p).
      { rewrite first_index_app_r by exact Hnew. cbn [first_index].
        rewrite key_eqb_refl by exact Hx. lia. }
      split; [|split].
      * intros k Hk. apply in_app_or in Hk. rewrite length_app. cbn [length].
        destruct Hk as [Hk|[<-|[]]].
        -- rewrite (Hold k Hk). destruct (K1 k Hk). split; [auto | lia].
        -- split; [exact Hx | lia].
      * intros y Hy. rewrite existsb_app. apply in_app_or in Hy.
        destruct Hy as [Hy|[<-|[]]].
        -- now rewrite (K2 y Hy).
        -- cbn [existsb]. rewrite key_eqb_refl by exact Hx.
           now rewrite orb_true_r.
      * rewrite map_app. cbn [map]. rewrite Hxi.
        apply StronglySorted_snoc.
        -- rewrite (map_ext_in _ (fun k => first_index k p)); auto.
        -- apply Forall_forall. intros i Hi. apply in_map_iff in Hi.
           destruct Hi as (k & <- & Hk). rewrite (Hold k Hk).
           now apply K1.
Qed.

Lemma keys_of_incl l k : In k (keys_of l) -> In k l.
Proof.
  unfold keys_of.
  assert (G : forall ks, In k (fold_left add_key l ks) -> In k ks \/ In k l).
  { induction l as [|x l IH]; intros ks; cbn [fold_left]; [auto|].
    intros H. apply IH in H. destruct H as [H|H]; [|right; now right].
    unfold add_key in H. destruct (existsb _ ks); [now left|].
    apply in_app_or in H. destruct H as [H|[<-|[]]]; [now left|].
    right; now left. }
  intros H. destruct (G [] H) as [[]|]; assumption.
Qed.

Lemma StronglySorted_map_inv {A B} (f : A -> B) (R' : B -> B -> Prop)
  (R : A -> A -> Prop) l :
  (forall a b, R' (f a) (f b) -> R a b) ->
  StronglySorted R' (map f l) -> StronglySorted R l.
Proof.
  intros HR. induction l as [|x l IH]; cbn [map]; intros H.
  - constructor.
  - inversion H as [|? ? Hs Hall]; subst. constructor; [auto|].
    rewrite Forall_map in Hall. eapply Forall_impl; [|exact Hall]. auto.
Qed.

Lemma StronglySorted_app_inv {A} (R : A -> A -> Prop) l1 l2 :
  StronglySorted R (l1 ++ l2) ->
  StronglySorted R l1 /\ StronglySorted R l2
  /\ (forall x y, In x l1 -> In y l2 -> R x y).
Proof.
  induction l1 as [|a l1 IH]; cbn [app]; intros H.
  - repeat split; [constructor | exact H | contradiction].
  - inversion H as [|? ? Hs Hall]; subst.
    destruct (IH Hs) as (H1 & H2 & H3). apply Forall_app in Hall.
    destruct Hall as [Ha1 Ha2]. repeat split; auto.
    + now constructor.
    + intros x y [<-|Hx] Hy; [|auto].
      rewrite Forall_forall in Ha2. auto.
Qed.

Lemma counter_get_in c k n :
  StronglySorted (fun a b => key_eqb a b = false) (map fst c) ->
  hashable k = true -> In (k, n) c -> counter_get c k 0 = n.
Proof.
  induction c as [|[k' n'] c IH]; cbn [map fst counter_get In];
    intros Hs Hk Hin; [contradiction|].
  inversion Hs as [|? ? Hs' Hall]; subst.
  destruct Hin as [[= -> ->]|Hin].
  - now rewrite key_eqb_refl.
  - rewrite Forall_forall in Hall.
    rewrite (Hall k) by (apply in_map_iff; exists (k, n); auto). auto.
Qed.

Lemma occurrences_pos k l :
  (first_index k l < length l)%nat -> (0 < occurrences k l)%nat.
Proof.
  intros H. apply first_index_found in H. destruct H as (x & Hx & Hk).
  unfold occurrences.
  assert (Hin : In x (filter (key_eqb k) l)) by (apply filter_In; auto).
  destruct (filter (key_eqb k) l); [contradiction | cbn; lia].
Qed.

Lemma occurrences_congr a b l :
  key_eqb a b = true -> occurrences a l = occurrences b l.
Proof.
  intros H. unfold occurrences. f_equal. apply filter_ext.
  intros x. now apply key_eqb_congr.
Qed.

(** The entries of a counter: each key with the number of its
    occurrences, in the order of first occurrence. *)
Lemma counted_spec l :
  forallb hashable l = true ->
  (forall k n, In (k, n) (counted l) ->
               n = Z.of_nat (occurrences k l)
               /\ (0 < occurrences k l)%nat /\ In k l)
  /\ (forall x, In x l ->
                exists k, key_eqb k x = true
                          /\ In (k, Z.of_nat (occurrences x l)) (counted l))
  /\ StronglySorted
       (fun x y => (first_index (fst x) l < first_index (fst y) l)%nat)
       (counted l).
Proof.
  intros Hh. destruct (keys_of_spec l Hh) as (K1 & K2 & K3).
  rewrite <- counted_keys in K1, K2, K3.
  assert (Hne : StronglySorted (fun a b => key_eqb a b = false)
                  (map fst (counted l))).
  { eapply StronglySorted_map_inv; [|exact K3]. cbn beta.
    intros a b Hlt. destruct (key_eqb a b) eqn:E; [|reflexivity].
    rewrite (first_index_congr _ _ l E) in Hlt. lia. }
  assert (Hentry : forall k n, In (k, n) (counted l) ->
                               n = Z.of_nat (occurrences k l)).
  { intros k n Hin.
    assert (Hk : In k (map fst (counted l)))
      by (apply in_map_iff; exists (k, n); auto).
    rewrite <- (counter_get_in _ _ _ Hne (proj1 (K1 k Hk)) Hin).
    unfold counted. now rewrite counter_get_counted. }
  split; [|split].
  - intros k n Hin.
    assert (Hk : In k (map fst (counted l)))
      by (apply in_map_iff; exists (k, n); auto).
    split; [auto|]. split.
    + apply occurrences_pos. now apply K1.
    + apply keys_of_incl. now rewrite <- counted_keys.
  - intros x Hx. specialize (K2 x Hx). apply existsb_exists in K2.
    destruct K2 as (k & Hk & Hkx). apply in_map_iff in Hk.
    destruct Hk as ([k' n] & Hfst & Hin). cbn [fst] in Hfst. subst k'.
    exists k. split; [exact Hkx|].
    rewrite <- (occurrences_congr _ _ l Hkx).
    now rewrite <- (Hentry k n Hin).
  - eapply StronglySorted_map_inv; [|rewrite map_map in K3; exact K3].
    cbn beta. auto.
Qed.

(** *** The stable sort by descending count *)

Lemma insert_desc_perm x s : Permutation (insert_desc x s) (x :: s).
Proof.
  induction s as [|y s IH]; cbn [insert_desc]; [reflexivity|].
  destruct (snd x <? snd y); [|reflexivity].
  rewrite IH. apply perm_swap.
Qed.

Lemma sorted_desc_perm c : Permutation (sorted_desc c) c.
Proof.
  induction c as [|x c IH]; cbn [sorted_desc]; [reflexivity|].
  rewrite insert_desc_perm. now constructor.
Qed.

Section Stable.

Variable R : json * Z -> json * Z -> Prop.

Lemma insert_desc_sorted x s :
  StronglySorted (count_then R) s -> (forall y, In y s -> R x y) ->
  StronglySorted (count_then R) (insert_desc x s).
Proof.
  induction 1 as [|y s Hs IH Hall]; intros Hx; cbn [insert_desc].
  - repeat constructor.
  - rewrite Forall_forall in Hall.
    destruct (snd x <? snd y) eqn:E.
    + apply Z.ltb_lt in E. constructor.
      * apply IH. intros z Hz. apply Hx. now right.
      * apply Forall_forall. intros z Hz.
        apply (Permutation_in _ (insert_desc_perm x s)) in Hz.
        destruct Hz as [<-|Hz]; [now left | auto].
    + apply Z.ltb_ge in E. constructor.
      * constructor; [exact Hs | now apply Forall_forall].
      * apply Forall_forall. intros z Hz.
        assert (Hzy : snd z <= snd y).
        { destruct Hz as [<-|Hz]; [lia|].
          destruct (Hall z Hz) as [H|[H _]]; lia. }
        destruct (Z.eq_dec (snd x) (snd z)) as [Heq|Hne].
        -- right. split; [exact Heq | now apply Hx].
        -- left. lia.
Qed.

Lemma sorted_desc_stable c :
  StronglySorted R c -> StronglySorted (count_then R) (sorted_desc c).
Proof.
  induction 1 as [|x c Hs IH Hall]; cbn [sorted_desc]; [constructor|].
  apply insert_desc_sorted; [exact IH|].
  intros y Hy. apply (Permutation_in _ (sorted_desc_perm c)) in Hy.
  rewrite Forall_forall in Hall. auto.
Qed.

End Stable.

(** The ranking of the items of [l]: most frequent first, ties in the
    order of first occurrence; every entry holds the number of
    occurrences of its key; what [most_common n] leaves out ranks
    after everything it keeps. *)
Lemma most_common_spec n l :
  forallb hashable l = true ->
  let r := most_common n (counted l) in
  (length r <= n)%nat
  /\ StronglySorted (ranks_before l) r
  /\ (forall k f, In (k, f) r ->
                  f = Z.of_nat (occurrences k l)
                  /\ (0 < occurrences k l)%nat /\ In k l)
  /\ (forall x, In x l ->
                exists k,
                  key_eqb k x = true
                  /\ (In (k, Z.of_nat (occurrences x l)) r
                      \/ (length r = n
                          /\ forall e, In e r ->
                               ranks_before l e
                                 (k, Z.of_nat (occurrences x l))))).
Proof.
  intros Hh r. destruct (counted_spec l Hh) as (C1 & C2 & C3).
  pose proof (sorted_desc_stable _ _ C3) as Hs. cbn beta in Hs.
  change (StronglySorted (ranks_before l) (sorted_desc (counted l))) in Hs.
  rewrite <- (firstn_skipn n (sorted_desc (counted l))) in Hs.
  apply StronglySorted_app_inv in Hs. destruct Hs as (S1 & _ & S3).
  assert (Hin : forall e, In e r -> In e (counted l)).
  { intros e He. apply (Permutation_in _ (sorted_desc_perm (counted l))).
    rewrite <- (firstn_skipn n (sorted_desc (counted l))).
    apply in_or_app. now left. }
  split; [|split; [|split]].
  - unfold r, most_common, slice_to. rewrite length_firstn. lia.
  - exact S1.
  - intros k f Hk. apply C1. now apply Hin.
  - intros x Hx. destruct (C2 x Hx) as (k & Hkx & Hk). exists k.
    split; [exact Hkx|].
    apply (Permutation_in _ (Permutation_sym (sorted_desc_perm (counted l))))
      in Hk.
    rewrite <- (firstn_skipn n (sorted_desc (counted l))) in Hk.
    apply in_app_or in Hk. destruct Hk as [Hk|Hk]; [now left|].
    right. split; [|intros e He; now apply S3].
    unfold r, most_common, slice_to. rewrite length_firstn.
    destruct (Nat.le_gt_cases n (length (sorted_desc (counted l))))
      as [Hle|Hgt]; [lia|].
    rewrite skipn_all2 in Hk by lia. contradiction.
Qed.

(** ** Pattern Synthesizer *)

Lemma synth_loop q_num docs : forall acc,
  for_each docs (synth_doc (q_key q_num)) acc
  = (counts <- for_each (question_labels q_num docs) counter_add
                 (quality_counts acc) ;;
     Ok (mk_synth_acc
           (all_concepts acc ++ question_concepts q_num docs)
           (all_key_points acc ++ question_key_points q_num docs)
           counts)).
Proof.
  unfold question_labels, question_concepts, question_key_points,
    question_answers.
  induction docs as [|doc docs IH]; intros acc;
    cbn [for_each flat_map map bind].
  - rewrite !app_nil_r. now destruct acc.
  - unfold synth_doc at 1.
    destruct (dict_get (ea_answers doc) (q_key q_num)) as [[| | | | |d]|];
      cbn [bind app flat_map map for_each]; try apply IH.
    fold (label_of d).
    destruct (counter_add (quality_counts acc) (label_of d)) as [qc|e];
      cbn [bind]; [|reflexivity].
    rewrite IH. cbn [quality_counts all_concepts all_key_points].
    destruct (for_each _ counter_add qc); cbn [bind]; [|reflexivity].
    unfold concepts_of, key_points_of, list_or_empty.
    destruct (dict_get_default d (py "conceptos_mencionados") (JList []));
      destruct (dict_get_default d (py "key_points") (JList []));
      cbn [app]; rewrite ?app_nil_r, <- ?app_assoc; reflexivity.
Qed.

Lemma concept_lines_ok total ranking :
  (ranking <> [] -> total <> 0) ->
  forall acc,
    for_each ranking (concept_line total) acc
    = Ok (acc ++ map (fun cf => (fst cf, snd cf, percentage (snd cf) total))
                   ranking).
Proof.
  intros Ht. induction ranking as [|cf ranking IH]; intros acc;
    cbn [for_each map].
  - now rewrite app_nil_r.
  - unfold concept_line at 1, py_truediv.
    destruct (total =? 0) eqn:E.
    + apply Z.eqb_eq in E. exfalso. apply Ht; [discriminate | exact E].
    + cbn [bind]. rewrite IH.
      * now rewrite <- app_assoc.
      * intros _. now apply Z.eqb_neq.
Qed.

Lemma countable_at docs q_num :
  countable docs = true -> In q_num range_1_4 ->
  forallb hashable (question_concepts q_num docs) = true
  /\ forallb hashable (question_labels q_num docs) = true.
Proof.
  unfold countable. rewrite forallb_forall. intros H Hq.
  apply andb_true_iff. now apply H.
Qed.

Lemma question_concepts_nil q_num : question_concepts q_num [] = [].
Proof. reflexivity. Qed.

Lemma synth_question_ok docs st q_num :
  forallb hashable (question_concepts q_num docs) = true ->
  forallb hashable (question_labels q_num docs) = true ->
  synth_question docs st q_num
  = Ok (assoc_set (fst st) (q_key q_num) (question_stats q_num docs),
        snd st ++ [question_printed q_num docs]).
Proof.
  intros Hc Hl. unfold synth_question. rewrite synth_loop.
  cbn [quality_counts all_concepts all_key_points app].
  fold (Counter (question_labels q_num docs)).
  rewrite (Counter_counted _ Hl). cbn [bind all_concepts].
  rewrite (Counter_counted _ Hc). cbn [bind].
  rewrite concept_lines_ok.
  - reflexivity.
  - intros Hne Hz. apply Hne. destruct docs; [reflexivity|].
    cbn [length] in Hz. lia.
Qed.

Lemma assoc_get_set_same {V} (d : list (pystr * V)) k v :
  assoc_get (assoc_set d k v) k = Some v.
Proof.
  induction d as [|[k' v'] d IH]; cbn [assoc_set assoc_get].
  - now rewrite pystr_eqb_refl.
  - destruct (pystr_eqb k' k) eqn:E; cbn [assoc_get]; now rewrite E.
Qed.

Lemma assoc_get_set_other {V} (d : list (pystr * V)) k k' v :
  pystr_eqb k k' = false ->
  assoc_get (assoc_set d k v) k' = assoc_get d k'.
Proof.
  intros Hk. induction d as [|[k0 v0] d IH]; cbn [assoc_set assoc_get].
  - now rewrite Hk.
  - destruct (pystr_eqb k0 k) eqn:E; cbn [assoc_get]; [|now rewrite IH].
    apply pystr_eqb_eq in E. subst k0. now rewrite Hk.
Qed.

(** [synthesize_patterns] returns when everything it counts can be
    hashed: it stores the statistics of the three questions. *)
Lemma synthesize_patterns_ok a :
  countable (extracted_answers a) = true ->
  let docs := extracted_answers a in
  synthesize_patterns a
  = Ok (mk_analyzer (documents a) docs
          (assoc_set
             (assoc_set
                (assoc_set (pattern_analysis a) (q_key 1) (question_stats 1 docs))
                (q_key 2) (question_stats 2 docs))
             (q_key 3) (question_stats 3 docs))
          (rubric a) (sent a),
        [question_printed 1 docs; question_printed 2 docs;
         question_printed 3 docs]).
Proof.
  intros H docs. unfold synthesize_patterns, range_1_4. cbn [for_each].
  fold docs.
  destruct (countable_at docs 1 H) as [H1 H1']; [cbn; auto|].
  destruct (countable_at docs 2 H) as [H2 H2']; [cbn; auto|].
  destruct (countable_at docs 3 H) as [H3 H3']; [cbn; auto|].
  rewrite (synth_question_ok docs _ 1 H1 H1'). cbn [bind fst snd].
  rewrite (synth_question_ok docs _ 2 H2 H2'). cbn [bind fst snd].
  rewrite (synth_question_ok docs _ 3 H3 H3'). cbn [bind fst snd app].
  reflexivity.
Qed.

Lemma synthesized_stats_ok a q_num :
  countable (extracted_answers a) = true -> In q_num [1; 2; 3] ->
  synthesized_stats a q_num = Some (question_stats q_num (extracted_answers a)).
Proof.
  intros H Hq. unfold synthesized_stats.
  rewrite (synthesize_patterns_ok a H). cbn [pattern_analysis].
  destruct Hq as [<-|[<-|[<-|[]]]].
  - rewrite !assoc_get_set_other by reflexivity. apply assoc_get_set_same.
  - rewrite assoc_get_set_other by reflexivity. apply assoc_get_set_same.
  - apply assoc_get_set_same.
Qed.

(** C1. For each of the three questions the synthesizer stores the
    concepts ranked by descending frequency of exact matches, concepts
    of equal frequency in the order of their first occurrence across
    the documents; it keeps the first 10 of this ranking, so that a
    concept it leaves out ranks after all those it keeps; and it keeps
    every key point. *)
Theorem concept_ranking (a : analyzer) (q_num : Z) :
  countable (extracted_answers a) = true ->
  In q_num [1; 2; 3] ->
  let docs := extracted_answers a in
  let l := question_concepts q_num docs in
  exists stats,
    synthesized_stats a q_num = Some stats
    /\ let r := ps_conceptos_frecuentes stats in
       (length r <= 10)%nat
       /\ StronglySorted (ranks_before l) r
       /\ (forall k f, In (k, f) r ->
                       f = Z.of_nat (occurrences k l)
                       /\ (0 < occurrences k l)%nat /\ In k l)
       /\ (forall x, In x l ->
                     exists k,
                       key_eqb k x = true
                       /\ (In (k, Z.of_nat (occurrences x l)) r
                           \/ (length r = 10%nat
                               /\ forall e, In e r ->
                                    ranks_before l e
                                      (k, Z.of_nat (occurrences x l)))))
       /\ (forall s x, key_eqb (JStr s) x = true <-> x = JStr s)
       /\ ps_puntos_clave_comunes stats = question_key_points q_num docs.
Proof.
  intros H Hq docs l. exists (question_stats q_num docs).
  split; [now apply synthesized_stats_ok|].
  cbn [question_stats ps_conceptos_frecuentes ps_puntos_clave_comunes].
  destruct (countable_at docs q_num H) as [Hc _];
    [unfold range_1_4; exact Hq|].
  destruct (most_common_spec 10 l Hc) as (M1 & M2 & M3 & M4).
  split; [exact M1|]. split; [exact M2|]. split; [exact M3|].
  split; [exact M4|]. split; [|reflexivity].
  intros s x. split.
  - destruct x; cbn [key_eqb]; try discriminate.
    rewrite pystr_eqb_eq. congruence.
  - intros ->. cbn [key_eqb]. apply pystr_eqb_refl.
Qed.

Import TwoStudents.

(** Two students: "beta" and "alfa" are both mentioned twice for
    question 1 and "beta" was seen first. *)
Lemma concept_ranking_two_students :
  exists stats,
    synthesized_stats state 1 = Some stats
    /\ ps_conceptos_frecuentes stats
       = [(JStr (py "beta"), 2); (JStr (py "alfa"), 2); (JStr (py "gamma"), 1)]
    /\ length (ps_puntos_clave_comunes stats) = 4%nat.
Proof.
  destruct (concept_ranking state 1 eq_refl (or_introl eq_refl))
    as (stats & Hs & _).
  exists stats. split; [exact Hs|].
  vm_compute in Hs. injection Hs as <-. split; reflexivity.
Defined.

(** ** Pattern Synthesizer: totals, frequencies and percentages *)

Lemma occurrences_app k l1 l2 :
  occurrences k (l1 ++ l2) = (occurrences k l1 + occurrences k l2)%nat.
Proof. unfold occurrences. now rewrite filter_app, length_app. Qed.

Lemma occurrences_once k l :
  (occurrences k l <= 1)%nat ->
  occurrences k l = if existsb (key_eqb k) l then 1%nat else 0%nat.
Proof.
  unfold occurrences.
  induction l as [|x l IH]; cbn [filter existsb]; [reflexivity|].
  destruct (key_eqb k x); cbn [length orb]; intros H.
  - assert (length (filter (key_eqb k) l) = 0%nat) by lia. lia.
  - auto.
Qed.

Lemma occurrences_answers k answers :
  (forall d, In d answers -> (occurrences k (concepts_of d) <= 1)%nat) ->
  occurrences k (flat_map concepts_of answers) = answers_mentioning k answers.
Proof.
  unfold answers_mentioning.
  induction answers as [|d answers IH]; intros H; cbn [flat_map filter].
  - reflexivity.
  - rewrite occurrences_app, IH by (intros; apply H; now right).
    rewrite occurrences_once by (apply H; now left).
    destruct (existsb (key_eqb k) (concepts_of d)); reflexivity.
Qed.

Lemma synthesized_printed_ok a q_num :
  countable (extracted_answers a) = true -> In q_num [1; 2; 3] ->
  synthesized_printed a q_num
  = Some (qr_concepts (question_printed q_num (extracted_answers a))).
Proof.
  intros H Hq. unfold synthesized_printed.
  rewrite (synthesize_patterns_ok a H).
  destruct Hq as [<-|[<-|[<-|[]]]]; reflexivity.
Qed.

(** C8 (as amended). For each question the total answer count is the
    number of extracted documents, whether or not they answer the
    question; a reported concept carries the number of its occurrences
    in the concept lists of the analyses of the question, which is the
    number of analyses that mention it when none lists it twice; the
    printed percentage is this frequency over the number of extracted
    documents, times 100. *)
Theorem frequency_report (a : analyzer) (q_num : Z) :
  countable (extracted_answers a) = true ->
  In q_num [1; 2; 3] ->
  let docs := extracted_answers a in
  let answers := question_answers q_num docs in
  exists stats lines,
    synthesized_stats a q_num = Some stats
    /\ synthesized_printed a q_num = Some lines
    /\ ps_total_respuestas stats = Z.of_nat (length docs)
    /\ (forall k f,
          In (k, f) (ps_conceptos_frecuentes stats) ->
          f = Z.of_nat (occurrences k (question_concepts q_num docs))
          /\ ((forall d, In d answers ->
                         (occurrences k (concepts_of d) <= 1)%nat) ->
              f = Z.of_nat (answers_mentioning k answers)))
    /\ lines
       = map (fun cf => (fst cf, snd cf,
                         percentage (snd cf) (Z.of_nat (length docs))))
           (ps_conceptos_frecuentes stats).
Proof.
  intros H Hq docs answers.
  exists (question_stats q_num docs),
    (qr_concepts (question_printed q_num docs)).
  split; [now apply synthesized_stats_ok|].
  split; [now apply synthesized_printed_ok|].
  split; [reflexivity|]. split; [|reflexivity].
  cbn [question_stats ps_conceptos_frecuentes].
  destruct (countable_at docs q_num H) as [Hc _];
    [unfold range_1_4; exact Hq|].
  destruct (most_common_spec 10 _ Hc) as (_ & _ & M3 & _).
  intros k f Hin. destruct (M3 k f Hin) as (Hf & _). split; [exact Hf|].
  intros Honce. rewrite Hf. f_equal.
  now apply occurrences_answers.
Qed.

(** Six of ten answers to question 2 mention "low-vol anomaly": the
    report shows 6 and 60.0. *)
Lemma frequency_report_six_of_ten :
  exists stats lines,
    synthesized_stats TenStudents.state 2 = Some stats
    /\ synthesized_printed TenStudents.state 2 = Some lines
    /\ ps_total_respuestas stats = 10
    /\ lines = [(JStr (py "low-vol anomaly"), 6, 60%float);
                (JStr (py "beta"), 4, 40%float)].
Proof.
  destruct (frequency_report TenStudents.state 2 eq_refl
              (or_intror (or_introl eq_refl)))
    as (stats & lines & Hs & Hl & Ht & _ & _).
  exists stats, lines. split; [exact Hs|]. split; [exact Hl|].
  split; [exact Ht|].
  vm_compute in Hl. now injection Hl as <-.
Defined.

(** C8, counterexample. Of three extracted documents only one has an
    analysis of question 2, and it lists "low-vol anomaly" twice: the
    total is 3, not 1, and the frequency is 2, although a single
    answer mentions the concept. *)
Lemma total_counts_documents_not_answers :
  length (question_answers 2 RepeatedConcept.students) = 1%nat
  /\ answers_mentioning RepeatedConcept.low_vol
       (question_answers 2 RepeatedConcept.students) = 1%nat
  /\ option_map ps_total_respuestas
       (synthesized_stats RepeatedConcept.state 2) = Some 3
  /\ option_map ps_conceptos_frecuentes
       (synthesized_stats RepeatedConcept.state 2)
     = Some [(RepeatedConcept.low_vol, 2)].
Proof. repeat split. Qed.

(** ** Report Exporter: the quality columns *)

Lemma key_eqb_str s v : key_eqb (JStr s) v = eq_str v s.
Proof.
  destruct v; cbn [key_eqb eq_str]; try reflexivity.
  unfold pystr_eqb.
  destruct (list_eq_dec N.eq_dec s s0), (list_eq_dec N.eq_dec s0 s);
    congruence.
Qed.

Lemma occurrences_labels s answers :
  occurrences (JStr s) (map label_of answers)
  = length (filter (fun d => eq_str (label_of d) s) answers).
Proof.
  unfold occurrences.
  induction answers as [|d answers IH]; cbn [map filter]; [reflexivity|].
  rewrite key_eqb_str. destruct (eq_str (label_of d) s); cbn [length]; lia.
Qed.

Lemma quality_column s q_num docs :
  counter_get (ps_distribucion_calidad (question_stats q_num docs)) (JStr s) 0
  = Z.of_nat (length (labelled s q_num docs)).
Proof.
  cbn [question_stats ps_distribucion_calidad]. unfold counted, labelled.
  rewrite counter_get_counted. cbn [counter_get].
  unfold question_labels. now rewrite occurrences_labels.
Qed.

Lemma eq_str_exclusive v s t :
  pystr_eqb s t = false -> eq_str v s = true -> eq_str v t = false.
Proof.
  destruct v; cbn [eq_str]; try discriminate.
  rewrite pystr_eqb_eq. intros H <-. exact H.
Qed.

Lemma filter3_length {A} (p1 p2 p3 : A -> bool) (l : list A) :
  (forall x, p1 x = true -> p2 x = false /\ p3 x = false) ->
  (forall x, p2 x = true -> p3 x = false) ->
  (length (filter p1 l) + length (filter p2 l) + length (filter p3 l)
   <= length l)%nat.
Proof.
  intros H12 H23. induction l as [|x l IH]; cbn [filter length]; [lia|].
  destruct (p1 x) eqn:E1.
  - destruct (H12 x E1) as [-> ->]. cbn [length]. lia.
  - destruct (p2 x) eqn:E2.
    + rewrite (H23 x E2). cbn [length]. lia.
    + destruct (p3 x); cbn [length]; lia.
Qed.

Lemma question_answers_length q_num docs :
  (length (question_answers q_num docs) <= length docs)%nat.
Proof.
  unfold question_answers.
  induction docs as [|doc docs IH]; cbn [flat_map length]; [lia|].
  rewrite length_app. set (rest := flat_map _ docs) in *.
  destruct (dict_get (ea_answers doc) (q_key q_num)) as [[| | | | |d]|];
    cbn [length]; unfold dict in *; lia.
Qed.

Import TwoStudents.

(** C10. In the row of a question the three quality columns count the
    analyses of the question whose label is exactly ['alta'],
    ['media'] or ['baja'], 0 when there is none; an answer with
    another label or with none, like a document without an analysis of
    the question, is counted in the total only, so the three columns
    sum to at most the total and, for some inputs, to less. *)
Theorem quality_columns :
  (forall a q_num,
      countable (extracted_answers a) = true ->
      In q_num [1; 2; 3] ->
      let docs := extracted_answers a in
      exists stats,
        synthesized_stats a q_num = Some stats
        /\ let row := pattern_row_of stats in
           pr_total_respuestas row = Z.of_nat (length docs)
           /\ pr_calidad_alta row
              = Z.of_nat (length (labelled (py "alta") q_num docs))
           /\ pr_calidad_media row
              = Z.of_nat (length (labelled (py "media") q_num docs))
           /\ pr_calidad_baja row
              = Z.of_nat (length (labelled (py "baja") q_num docs))
           /\ pr_calidad_alta row + pr_calidad_media row
              + pr_calidad_baja row
              <= Z.of_nat (length (question_answers q_num docs))
              <= pr_total_respuestas row)
  /\ (forall a,
         countable (extracted_answers a) = true ->
         pattern_analysis a = [] ->
         exists a' printed,
           synthesize_patterns a = Ok (a', printed)
           /\ pattern_report a'
              = map (fun q_num =>
                       pattern_row_of
                         (question_stats q_num (extracted_answers a)))
                  [1; 2; 3]
           /\ forall r, export_reports a' = Ok r ->
                        analisis_patrones r = pattern_report a')
  /\ (exists stats,
         synthesized_stats state 3 = Some stats
         /\ pr_total_respuestas (pattern_row_of stats) = 2
         /\ pr_calidad_alta (pattern_row_of stats) = 0
         /\ pr_calidad_media (pattern_row_of stats) = 0
         /\ pr_calidad_baja (pattern_row_of stats) = 1).
Proof.
  split; [|split].
  - intros a q_num H Hq docs. exists (question_stats q_num docs).
    split; [now apply synthesized_stats_ok|].
    unfold pattern_row_of.
    cbn [pr_total_respuestas pr_calidad_alta pr_calidad_media
           pr_calidad_baja].
    rewrite !quality_column.
    change (ps_total_respuestas (question_stats q_num docs))
      with (Z.of_nat (length docs)).
    repeat split; try reflexivity.
    + pose proof (filter3_length
                    (fun d => eq_str (label_of d) (py "alta"))
                    (fun d => eq_str (label_of d) (py "media"))
                    (fun d => eq_str (label_of d) (py "baja"))
                    (question_answers q_num docs)) as Hsum.
      unfold labelled. cbn beta in Hsum.
      assert (Hle : (length (filter (fun d => eq_str (label_of d) (py "alta"))
                               (question_answers q_num docs))
                     + length (filter (fun d => eq_str (label_of d) (py "media"))
                                 (question_answers q_num docs))
                     + length (filter (fun d => eq_str (label_of d) (py "baja"))
                                 (question_answers q_num docs))
                     <= length (question_answers q_num docs))%nat).
      { apply Hsum.
        - intros d Hd. split; eapply eq_str_exclusive; eauto; reflexivity.
        - intros d Hd. eapply eq_str_exclusive; eauto; reflexivity. }
      lia.
    + pose proof (question_answers_length q_num docs). lia.
  - intros a H Hpa. rewrite (synthesize_patterns_ok a H).
    eexists. eexists. split; [reflexivity|]. split.
    + unfold pattern_report. cbn [pattern_analysis]. rewrite Hpa.
      reflexivity.
    + intros r Hr. unfold export_reports in Hr.
      destruct (student_details _); cbn [bind] in Hr; [|discriminate].
      destruct (json_dump _); cbn [bind] in Hr; [|discriminate].
      destruct (rubric_text _); cbn [bind] in Hr; [|discriminate].
      destruct (for_each _ _ _); cbn [bind] in Hr; [|discriminate].
      now injection Hr as <-.
  - eexists. split; [reflexivity|]. repeat split.
Qed.

(** Two students, question 1: one high answer, one medium. *)
Lemma quality_columns_two_students :
  exists stats,
    synthesized_stats state 1 = Some stats
    /\ pr_calidad_alta (pattern_row_of stats) = 1
    /\ pr_calidad_media (pattern_row_of stats) = 1
    /\ pr_calidad_baja (pattern_row_of stats) = 0.
Proof.
  destruct (proj1 quality_columns state 1 eq_refl (or_introl eq_refl))
    as (stats & Hs & _).
  exists stats. split; [exact Hs|].
  vm_compute in Hs. injection Hs as <-. repeat split.
Defined.

(** ** Report Exporter: what it needs to complete *)


Lemma for_each_invariant {A S} (P : S -> Prop) (l : list A)
  (body : S -> A -> result S) :
  (forall s x s', body s x = Ok s' -> P s -> P s') ->
  forall s s', for_each l body s = Ok s' -> P s -> P s'.
Proof.
  intros H. induction l as [|x l IH]; intros s s'; cbn [for_each].
  - now intros [= <-].
  - destruct (body s x) as [s1|] eqn:E; cbn [bind]; [|discriminate].
    intros Hf Hs. eapply IH; eauto.
Qed.

Lemma summary_step_joinable res acc q acc' :
  summary_step res acc q = Ok acc' -> joinable res q.
Proof.
  unfold summary_step, joinable. intros H d Hd. rewrite Hd in H.
  fold (concepts_of d) in H.
  destruct (concepts_of d) as [|c cs] eqn:E.
  - now exists [].
  - destruct (py_join (py ", ") (c :: cs)) as [joined|];
      [now exists joined | discriminate].
Qed.

Lemma summarizable_joinable res q_num :
  summarizable res = true -> In q_num range_1_4 -> joinable res (q_key q_num).
Proof.
  unfold summarizable, extraction_summary, question_keys.
  cbn [for_each].
  destruct (summary_step res [] (py "pregunta_1")) as [s1|] eqn:E1;
    cbn [bind]; [|discriminate].
  destruct (summary_step res s1 (py "pregunta_2")) as [s2|] eqn:E2;
    cbn [bind]; [|discriminate].
  destruct (summary_step res s2 (py "pregunta_3")) as [s3|] eqn:E3;
    cbn [bind]; [|discriminate].
  intros _ [<-|[<-|[<-|[]]]].
  - exact (summary_step_joinable _ _ _ _ E1).
  - exact (summary_step_joinable _ _ _ _ E2).
  - exact (summary_step_joinable _ _ _ _ E3).
Qed.





(** The extractor keeps a response only if its summary was printed. *)
Lemma extract_try_summarizable chat_create json_loads calls req doc_data
  analysis :
  try_except (extract_try chat_create json_loads calls req doc_data) None
  = Some analysis ->
  summarizable (ea_answers analysis) = true.
Proof.
  unfold extract_try.
  destruct (chat_create calls req) as [content|]; [|discriminate].
  cbn [of_option bind].
  destruct (json_loads content) as [parsed|]; [|discriminate].
  cbn [of_option bind].
  destruct parsed as [| | | | |res]; try discriminate.
  destruct (debug_structure res); cbn [bind]; [|discriminate].
  destruct (extraction_summary res) as [lines|] eqn:E; cbn [bind];
    [|discriminate].
  destruct (for_each lines print_summary_line tt); cbn [bind]; [|discriminate].
  destruct (print_observations res); [|discriminate].
  cbn [bind try_except]. intros [= <-]. cbn [ea_answers].
  unfold summarizable. now rewrite E.
Qed.

Lemma analyze_keeps_summarizable client_configured chat_create json_loads
  a a' :
  analyze_patterns_iteratively client_configured chat_create json_loads a
  = Ok a' ->
  forallb (fun doc => summarizable (ea_answers doc)) (extracted_answers a)
  = true ->
  forallb (fun doc => summarizable (ea_answers doc)) (extracted_answers a')
  = true.
Proof.
  unfold analyze_patterns_iteratively.
  apply (for_each_invariant
           (fun s => forallb (fun doc => summarizable (ea_answers doc))
                       (extracted_answers s) = true)).
  clear a a'. intros a doc a'. unfold analyze_step.
  destruct (extract_answers_from_document _ _ _ a doc) as [[analysis reqs]|]
    eqn:E; cbn [bind fst snd]; [|discriminate].
  destruct analysis as [analysis|]; intros [= <-]; cbn [extracted_answers];
    [|auto].
  intros Hinv. rewrite forallb_app, Hinv. cbn [forallb andb].
  rewrite andb_true_r.
  unfold extract_answers_from_document in E.
  destruct (build_context (extracted_answers a)); cbn [bind] in E;
    [|discriminate].
  destruct client_configured; cbn [negb] in E; [|discriminate].
  injection E as E _. now apply extract_try_summarizable in E.
Qed.

(** ** Text that can be encoded *)


Lemma text_encodable_app t1 t2 :
  text_encodable (t1 ++ t2) = text_encodable t1 && text_encodable t2.
Proof. apply forallb_app. Qed.

Lemma text_encodable_lit s : text_encodable (lit s) = encodable s.
Proof.
  unfold text_encodable, lit, encodable.
  induction s as [|c s IH]; cbn [map forallb piece_encodable];
    [reflexivity | now rewrite IH].
Qed.

Lemma text_encodable_fmt v : text_encodable [Fmt v] = fmt_encodable v.
Proof. cbn. apply andb_true_r. Qed.


Lemma encodable_bytes s : encodable (bytes_of_string s) = true.
Proof.
  unfold bytes_of_string, encodable.
  induction (list_ascii_of_string s) as [|c l IH]; [reflexivity|].
  cbn [map forallb]. rewrite IH, andb_true_r.
  pose proof (N_ascii_bounded c) as Hb. unfold is_surrogate.
  apply negb_true_iff, andb_false_iff. left. apply N.leb_gt. lia.
Qed.

Lemma encodable_str_of_Z z : encodable (str_of_Z z) = true.
Proof. apply encodable_bytes. Qed.

Lemma encodable_pregunta i : encodable (pregunta i) = true.
Proof.
  unfold pregunta. do 3 (destruct i as [|i]; [vm_compute; reflexivity|]).
  now destruct i.
Qed.


Lemma py_print_ok t : text_encodable t = true -> py_print t = Ok tt.
Proof. unfold py_print. now intros ->. Qed.

Lemma py_print_spec t : py_print t = Ok tt <-> text_encodable t = true.
Proof.
  unfold py_print. destruct (text_encodable t); split; auto; discriminate.
Qed.

Lemma py_print_raises t e : py_print t = Raise e -> e = UnicodeEncodeError.
Proof.
  unfold py_print. destruct (text_encodable t); [discriminate|].
  now intros [= <-].
Qed.

Lemma json_dump_spec v : json_dump v = Ok tt <-> json_encodable v = true.
Proof.
  unfold json_dump. destruct (json_encodable v); split; auto; discriminate.
Qed.

(** Whatever is read from a value whose strings can be encoded can be
    encoded too. *)
Lemma json_encodable_fmt v : json_encodable v = true -> fmt_encodable v = true.
Proof. now destruct v. Qed.

Lemma json_encodable_lookup d k v :
  json_encodable (JDict d) = true -> dict_get d k = Some v ->
  json_encodable v = true.
Proof.
  cbn [json_encodable]. unfold dict_get.
  induction d as [|[k' v'] d IH]; cbn [forallb assoc_get fst snd];
    [discriminate|].
  rewrite !andb_true_iff. intros [[_ Hv] Hd].
  destruct (pystr_eqb k' k); [now intros [= <-] | now apply IH].
Qed.

Lemma json_encodable_default d k v :
  json_encodable (JDict d) = true -> json_encodable v = true ->
  json_encodable (dict_get_default d k v) = true.
Proof.
  intros Hd Hv. unfold dict_get_default.
  destruct (dict_get d k) as [x|] eqn:E; [|exact Hv].
  exact (json_encodable_lookup _ _ _ Hd E).
Qed.

Lemma py_get_encodable v k dflt x :
  json_encodable v = true -> json_encodable dflt = true ->
  py_get v k dflt = Ok x -> json_encodable x = true.
Proof.
  intros Hv Hd. destruct v; try discriminate. cbn [py_get].
  intros [= <-]. now apply json_encodable_default.
Qed.

Lemma py_getitem_encodable v k x :
  json_encodable v = true -> py_getitem v k = Ok x -> json_encodable x = true.
Proof.
  intros Hv. destruct v; try discriminate. cbn [py_getitem].
  intros [= <-]. now apply json_encodable_default.
Qed.

Lemma py_iter_encodable v items :
  json_encodable v = true -> py_iter v = Ok items ->
  forallb json_encodable items = true.
Proof.
  destruct v as [| | |s|l|d]; try discriminate; cbn [py_iter json_encodable];
    intros Hv [= <-].
  - unfold encodable in Hv.
    induction s as [|c s IH]; [reflexivity|].
    cbn [forallb] in Hv. apply andb_true_iff in Hv. destruct Hv as [Hc Hs].
    cbn [map forallb json_encodable encodable]. rewrite Hc. cbn [andb].
    now apply IH.
  - exact Hv.
  - induction d as [|[k x] d IH]; [reflexivity|].
    cbn [forallb fst snd] in Hv. rewrite !andb_true_iff in Hv.
    destruct Hv as [[Hk _] Hd].
    cbn [map forallb json_encodable fst]. rewrite Hk. now apply IH.
Qed.

Lemma element_fields_encodable elem f :
  json_encodable elem = true -> element_fields elem = Ok f ->
  fields_encodable f = true.
Proof.
  intros He. unfold element_fields.
  destruct (py_get elem (py "concepto") (JStr (py "N/A"))) as [c|] eqn:Ec;
    cbn [bind]; [|discriminate].
  destruct (py_get elem (py "puntos") (JInt 0)) as [p|] eqn:Ep;
    cbn [bind]; [|discriminate].
  destruct (py_get elem (py "descripcion") (JStr [])) as [d|] eqn:Ed;
    cbn [bind]; [|discriminate].
  intros [= <-]. cbn [fields_encodable].
  apply (py_get_encodable _ _ _ _ He) in Ec; [|reflexivity].
  apply (py_get_encodable _ _ _ _ He) in Ep; [|reflexivity].
  apply (py_get_encodable _ _ _ _ He) in Ed; [|reflexivity].
  now rewrite (json_encodable_fmt c Ec), (json_encodable_fmt p Ep),
    (json_encodable_fmt d Ed).
Qed.

Lemma rubric_elements_encodable rubric_data key elems :
  json_encodable rubric_data = true ->
  rubric_elements rubric_data key = Ok elems ->
  forallb fields_encodable elems = true.
Proof.
  intros Hr. unfold rubric_elements.
  destruct (py_get rubric_data key (JList [])) as [v|] eqn:Ev; cbn [bind];
    [|discriminate].
  assert (Hv : json_encodable v = true)
    by (apply (py_get_encodable _ _ _ _ Hr) in Ev; [exact Ev | reflexivity]).
  destruct (py_iter v) as [items|] eqn:Ei; cbn [bind]; [|discriminate].
  pose proof (py_iter_encodable _ _ Hv Ei) as Hitems. clear Ev Ei Hv.
  assert (G : forall acc, forallb fields_encodable acc = true ->
              for_each items
                (fun acc elem => f <- element_fields elem ;; Ok (acc ++ [f]))
                acc = Ok elems ->
              forallb fields_encodable elems = true).
  { induction items as [|elem items IH]; intros acc Hacc; cbn [for_each].
    - now intros [= <-].
    - cbn [forallb] in Hitems. apply andb_true_iff in Hitems.
      destruct Hitems as [He Hi].
      destruct (element_fields elem) as [f|] eqn:Ef; cbn [bind];
        [|discriminate].
      apply (IH Hi). rewrite forallb_app, Hacc. cbn [forallb andb].
      now rewrite (element_fields_encodable _ _ He Ef). }
  now apply G.
Qed.

Lemma Ok_inj {A} (x y : A) : Ok x = Ok y -> x = y.
Proof. now intros [= ->]. Qed.

Lemma writable_app out1 out2 :
  writable (out1 ++ out2) = writable out1 && writable out2.
Proof. apply forallb_app. Qed.

Lemma writable_cons t out :
  writable (t :: out) = text_encodable t && writable out.
Proof. reflexivity. Qed.

Lemma writable_nil : writable [] = true.
Proof. reflexivity. Qed.

(** Solves [writable] goals over texts made of constants and of
    values known to be encodable. *)
Ltac enc_atom :=
  match goal with
  | H : ?g |- ?g => exact H
  | |- encodable (str_of_Z _) = true => apply encodable_str_of_Z
  | |- encodable (pregunta _) = true => apply encodable_pregunta
  | |- fmt_encodable _ = true => apply json_encodable_fmt; assumption
  | |- encodable _ = true => reflexivity
  end.

Ltac enc_text :=
  rewrite ?writable_app, ?writable_cons, ?writable_nil, ?text_encodable_app,
    ?text_encodable_lit, ?text_encodable_fmt, ?andb_true_r;
  repeat match goal with
         | |- _ && _ = true => apply andb_true_iff; split
         end;
  enc_atom.

Lemma write_element_writable out f :
  writable out = true -> fields_encodable f = true ->
  writable (write_element out f) = true.
Proof.
  destruct f as [[concepto puntos] descripcion]. cbn [fields_encodable].
  rewrite !andb_true_iff. intros Hout [[Hc Hp] Hd].
  unfold write_element. enc_text.
Qed.

Lemma write_elements_writable elems : forall out,
  writable out = true -> forallb fields_encodable elems = true ->
  writable (fold_left write_element elems out) = true.
Proof.
  induction elems as [|f elems IH]; intros out Hout; cbn [fold_left forallb];
    [auto|].
  rewrite andb_true_iff. intros [Hf He].
  apply IH; [now apply write_element_writable | exact He].
Qed.

Lemma write_criteria_writable items : forall out,
  writable out = true -> forallb json_encodable items = true ->
  writable
    (fold_left
       (fun out criterio => out ++ [lit (py "  • ") ++ [Fmt criterio] ++ lit nl])
       items out) = true.
Proof.
  induction items as [|c items IH]; intros out Hout; cbn [fold_left forallb];
    [auto|].
  rewrite andb_true_iff. intros [Hc Hi].
  apply IH; [|exact Hi]. enc_text.
Qed.

Lemma rubric_text_step_writable rubric out q_num out' :
  json_encodable rubric = true -> writable out = true ->
  rubric_text_step rubric out q_num = Ok out' -> writable out' = true.
Proof.
  intros Hr Hout. unfold rubric_text_step.
  destruct (py_contains rubric (q_key q_num)) as [present|]; cbn [bind];
    [|discriminate].
  destruct present; [|now intros [= <-]].
  destruct (py_getitem rubric (q_key q_num)) as [rubric_data|] eqn:Eg;
    cbn [bind]; [|discriminate].
  pose proof (py_getitem_encodable _ _ _ Hr Eg) as Hd.
  destruct (py_get rubric_data (py "puntaje_total") (JStr (py "N/A")))
    as [puntaje|] eqn:Ep; cbn [bind]; [|discriminate].
  apply (py_get_encodable _ _ _ _ Hd) in Ep; [|reflexivity].
  destruct (rubric_elements rubric_data (py "elementos_obligatorios"))
    as [obligatorios|] eqn:Eo; cbn [bind]; [|discriminate].
  apply (rubric_elements_encodable _ _ _ Hd) in Eo.
  destruct (py_get rubric_data (py "elementos_deseables") JNull)
    as [deseables|]; cbn [bind]; [|discriminate].
  match goal with
  | |- (bind ?m _) = _ -> _ =>
      assert (Hm : forall o, m = Ok o -> writable o = true)
  end.
  { intros o. destruct (truthy deseables).
    - destruct (rubric_elements rubric_data (py "elementos_deseables"))
        as [elems|] eqn:Ee; cbn [bind]; [|discriminate].
      apply (rubric_elements_encodable _ _ _ Hd) in Ee.
      intros H. apply Ok_inj in H. subst o.
      apply write_elements_writable; [|exact Ee].
      assert (Ho : writable
                     (fold_left write_element obligatorios
                        ((out ++ [lit nl ++ lit banner ++ lit nl;
                                  lit (py "PREGUNTA ") ++ lit (str_of_Z q_num)
                                    ++ lit nl;
                                  lit banner ++ lit nl;
                                  lit (pregunta (Z.to_nat (q_num - 1)))
                                    ++ lit nl ++ lit nl])
                         ++ [lit (py "PUNTAJE TOTAL: ") ++ [Fmt puntaje]
                               ++ lit (py " puntos") ++ lit nl ++ lit nl;
                             lit (py "ELEMENTOS OBLIGATORIOS:") ++ lit nl]))
                   = true).
      { apply write_elements_writable; [|exact Eo]. enc_text. }
      enc_text.
    - intros H. apply Ok_inj in H. subst o.
      apply write_elements_writable; [|exact Eo]. enc_text. }
  match goal with
  | |- (bind ?m _) = _ -> _ => destruct m as [o|]; cbn [bind]; [|discriminate]
  end.
  specialize (Hm o eq_refl).
  destruct (py_get rubric_data (py "criterios_calidad") (JList []))
    as [criterios|] eqn:Ec; cbn [bind]; [|discriminate].
  apply (py_get_encodable _ _ _ _ Hd) in Ec; [|reflexivity].
  destruct (py_iter criterios) as [items|] eqn:Ei; cbn [bind]; [|discriminate].
  apply (py_iter_encodable _ _ Ec) in Ei.
  destruct (py_get rubric_data (py "ejemplo_respuesta_ideal") (JStr (py "N/A")))
    as [ejemplo|] eqn:Ee; cbn [bind]; [|discriminate].
  apply (py_get_encodable _ _ _ _ Hd) in Ee; [|reflexivity].
  intros H. apply Ok_inj in H. subst out'.
  assert (Hc : writable
                 (fold_left
                    (fun out criterio =>
                       out ++ [lit (py "  • ") ++ [Fmt criterio] ++ lit nl])
                    items
                    (o ++ [lit nl ++ lit (py "CRITERIOS DE CALIDAD:") ++ lit nl]))
               = true).
  { apply write_criteria_writable; [|exact Ei]. enc_text. }
  enc_text.
Qed.

Lemma rubric_text_writable rubric out :
  json_encodable rubric = true -> rubric_text rubric = Ok out ->
  writable out = true.
Proof.
  intros Hr. unfold rubric_text.
  destruct (for_each range_1_4 (rubric_text_step rubric) _) as [o|] eqn:E;
    cbn [bind]; [|discriminate].
  assert (Ho : writable o = true).
  { eapply (for_each_invariant (fun s => writable s = true) range_1_4
              (rubric_text_step rubric)).
    - intros s q s' Hs Hw. exact (rubric_text_step_writable _ _ _ _ Hr Hw Hs).
    - exact E.
    - reflexivity. }
  destruct (py_contains rubric (py "notas_generales")) as [notas|];
    cbn [bind]; [|discriminate].
  destruct notas; [|intros H; apply Ok_inj in H; now subst out].
  destruct (py_getitem rubric (py "notas_generales")) as [value|] eqn:Ev;
    cbn [bind]; [|discriminate].
  apply (py_getitem_encodable _ _ _ Hr) in Ev.
  intros H. apply Ok_inj in H. subst out. enc_text.
Qed.

Lemma write_all_ok out :
  writable out = true -> for_each out (fun _ t => py_print t) tt = Ok tt.
Proof.
  induction out as [|t out IH]; cbn [for_each]; [reflexivity|].
  rewrite writable_cons, andb_true_iff. intros [Ht Ho].
  rewrite (py_print_ok _ Ht).
  cbn [bind]. now apply IH.
Qed.


Lemma export_reports_inv a r :
  export_reports a = Ok r ->
  exists students txt,
    student_details a = Ok students
    /\ json_encodable (rubric a) = true
    /\ rubric_text (rubric a) = Ok txt
    /\ r = mk_reports (pattern_report a) students (rubric a) txt.
Proof.
  unfold export_reports, json_dump.
  destruct (student_details a) as [students|]; cbn [bind]; [|discriminate].
  destruct (json_encodable (rubric a)); cbn [bind]; [|discriminate].
  destruct (rubric_text (rubric a)) as [txt|]; cbn [bind]; [|discriminate].
  destruct (for_each txt _ tt); cbn [bind]; [|discriminate].
  intros H. apply Ok_inj in H. subst r. now exists students, txt.
Qed.


(** ** Rubric Generator: failures *)


Import TwoStudents.


(** Rubrics that the service can return and the export does not
    survive, after two students were analysed.  A rubric whose entry
    of question 1 is a text: the summary fails, an error is reported,
    yet the rubric is stored and the export raises.  A rubric whose
    criteria are [null], and one with a lone surrogate in a string: no
    error is reported, and the export raises. *)
Lemma stored_rubric_breaks_export :
  (WrongTypes.reported WrongTypes.text_rubric = Ok true
   /\ WrongTypes.stored WrongTypes.text_rubric = Ok WrongTypes.text_rubric
   /\ WrongTypes.exported WrongTypes.text_rubric = Raise AttributeError)
  /\ (WrongTypes.reported WrongTypes.null_criteria = Ok false
      /\ WrongTypes.stored WrongTypes.null_criteria
         = Ok WrongTypes.null_criteria
      /\ WrongTypes.exported WrongTypes.null_criteria = Raise TypeError)
  /\ (WrongTypes.reported WrongTypes.surrogate_rubric = Ok false
      /\ WrongTypes.stored WrongTypes.surrogate_rubric
         = Ok WrongTypes.surrogate_rubric
      /\ WrongTypes.exported WrongTypes.surrogate_rubric
         = Raise UnicodeEncodeError).
Proof. repeat split; vm_compute; reflexivity. Qed.

(** ** The three questions across the stages *)

Lemma for_each_ext {A S} (l : list A) (body1 body2 : S -> A -> result S) :
  (forall s x, In x l -> body1 s x = body2 s x) ->
  forall s, for_each l body1 s = for_each l body2 s.
Proof.
  induction l as [|x l IH]; intros H s; cbn [for_each]; [reflexivity|].
  rewrite H by now left. destruct (body2 s x); cbn [bind]; [|reflexivity].
  apply IH. intros; apply H; now right.
Qed.

Lemma for_each_invariant_in {A S} (P : S -> Prop) (l : list A)
  (body : S -> A -> result S) :
  (forall s x s', In x l -> body s x = Ok s' -> P s -> P s') ->
  forall s s', for_each l body s = Ok s' -> P s -> P s'.
Proof.
  induction l as [|x l IH]; intros H s s'; cbn [for_each].
  - now intros [= <-].
  - destruct (body s x) as [s1|] eqn:E; cbn [bind]; [|discriminate].
    intros Hf Hs. eapply IH; [| exact Hf |].
    + intros; eapply H; eauto. now right.
    + eapply H; eauto. now left.
Qed.

Lemma summary_lines_keyed res lines :
  extraction_summary res = Ok lines ->
  Forall (fun l => In (sl_question l) question_keys) lines.
Proof.
  intros H.
  apply (for_each_invariant_in
           (Forall (fun l => In (sl_question l) question_keys))
           question_keys (summary_step res)) with (s := []);
    [|exact H|constructor].
  intros acc k acc' Hk. unfold summary_step.
  destruct (dict_get res k) as [[| | | | |q_data]|];
    try (now intros [= <-]).
  destruct (match list_or_empty _ with [] => _ | _ :: _ => _ end)
    as [shown|]; cbn [bind]; [|discriminate].
  intros [= <-] Hacc. apply Forall_app. split; [exact Hacc|].
  constructor; [exact Hk | constructor].
Qed.

Lemma examples_keyed docs examples :
  high_quality_examples docs = Ok examples ->
  Forall (fun ex => In (ex_pregunta ex) range_1_4) examples.
Proof.
  intros H.
  apply (for_each_invariant_in
           (Forall (fun ex => In (ex_pregunta ex) range_1_4)) docs
           (fun acc doc => for_each range_1_4 (example_step doc) acc))
    with (s := []); [|exact H|constructor].
  intros acc doc acc' _.
  apply for_each_invariant_in. clear acc acc'.
  intros acc q acc' Hq. unfold example_step.
  destruct (dict_get (ea_answers doc) (q_key q)) as [answer|];
    [|now intros [= <-]].
  destruct (py_get answer (py "calidad_estimada") JNull) as [calidad|];
    cbn [bind]; [|discriminate].
  destruct (eq_str calidad (py "alta")); [|now intros [= <-]].
  destruct (py_get answer (py "respuesta_completa") (JStr []))
    as [respuesta|]; cbn [bind]; [|discriminate].
  destruct (py_slice_to 500 respuesta); cbn [bind]; [|discriminate].
  intros [= <-] Hacc. apply Forall_app. split; [exact Hacc|].
  constructor; [exact Hq | constructor].
Qed.

Lemma student_rows_keyed a rows :
  student_details a = Ok rows ->
  Forall (fun row => In (sr_pregunta row) range_1_4) rows.
Proof.
  intros H.
  apply (for_each_invariant_in
           (Forall (fun row => In (sr_pregunta row) range_1_4))
           (extracted_answers a)
           (fun acc doc => for_each range_1_4 (student_step doc) acc))
    with (s := []); [|exact H|constructor].
  intros acc doc acc' _.
  apply for_each_invariant_in. clear acc acc'.
  intros acc q acc' Hq. unfold student_step.
  destruct (dict_get (ea_answers doc) (q_key q)) as [[| | | | |answer]|];
    try (now intros [= <-]).
  destruct (py_join _ _); cbn [bind]; [|discriminate].
  intros [= <-] Hacc. apply Forall_app. split; [exact Hacc|].
  constructor; [exact Hq | constructor].
Qed.

(** The text of the rubric reads the entries of the three questions
    and the general notes, and nothing else. *)
Lemma rubric_text_keys d d' :
  (forall k, In k (question_keys ++ [py "notas_generales"]) ->
             dict_get d k = dict_get d' k) ->
  rubric_text (JDict d) = rubric_text (JDict d').
Proof.
  intros H. unfold rubric_text.
  rewrite (for_each_ext range_1_4 (rubric_text_step (JDict d))
             (rubric_text_step (JDict d'))).
  - cbn [py_contains py_getitem]. unfold dict_mem, dict_get_default.
    rewrite (H (py "notas_generales")) by (apply in_or_app; right; now left).
    reflexivity.
  - intros out q Hq. unfold rubric_text_step.
    cbn [py_contains py_getitem]. unfold dict_mem, dict_get_default.
    rewrite (H (q_key q)); [reflexivity|].
    apply in_or_app. left.
    destruct Hq as [<-|[<-|[<-|[]]]]; cbn; auto.
Qed.

(** C9 (as amended). There are exactly three questions, and every
    stage iterates over the same three keys: the summary of the
    extractor, the pattern analysis of the synthesizer (its keys are
    exactly the three, in order), the examples of the rubric
    generator, and the tables and the text of the exporter.  The stored
    response of the extractor and the rubric are kept as the language
    model returned them, whatever keys they hold; the stages read the
    three keys in them. *)
Theorem three_questions :
  length PREGUNTAS = 3%nat
  /\ map q_key range_1_4 = question_keys
  /\ (forall a,
         countable (extracted_answers a) = true ->
         pattern_analysis a = [] ->
         exists a' printed,
           synthesize_patterns a = Ok (a', printed)
           /\ map fst (pattern_analysis a') = question_keys
           /\ map qr_key printed = question_keys
           /\ length (pattern_report a') = 3%nat)
  /\ (forall res lines,
         extraction_summary res = Ok lines ->
         Forall (fun l => In (sl_question l) question_keys) lines)
  /\ (forall docs examples,
         high_quality_examples docs = Ok examples ->
         Forall (fun ex => In (ex_pregunta ex) range_1_4) examples)
  /\ (forall a rows,
         student_details a = Ok rows ->
         Forall (fun row => In (sr_pregunta row) range_1_4) rows)
  /\ (forall d d',
         (forall k, In k (question_keys ++ [py "notas_generales"]) ->
                    dict_get d k = dict_get d' k) ->
         rubric_text (JDict d) = rubric_text (JDict d')).
Proof.
  split; [reflexivity|]. split; [reflexivity|]. split.
  { intros a H Hpa. rewrite (synthesize_patterns_ok a H).
    eexists. eexists. split; [reflexivity|]. rewrite Hpa.
    repeat split. }
  split; [exact summary_lines_keyed|]. split; [exact examples_keyed|].
  split; [exact student_rows_keyed | exact rubric_text_keys].
Qed.

Import TwoStudents.

(** Two students: the pattern analysis has the three keys. *)
Lemma three_questions_two_students :
  exists a' printed,
    synthesize_patterns state = Ok (a', printed)
    /\ map fst (pattern_analysis a') = question_keys
    /\ map qr_key printed = question_keys
    /\ length (pattern_report a') = 3%nat.
Proof.
  exact (proj1 (proj2 (proj2 three_questions)) state eq_refl eq_refl).
Defined.

(** C9, counterexample. A response with the keys pregunta_1 and
    pregunta_4 is stored by the extractor as it is, and a rubric with
    the key pregunta_7 is stored as it is: these structures are not
    keyed by the three questions. *)
Lemma stored_responses_keep_their_keys :
  (exists analysis reqs,
      extract_answers_from_document true OtherKeys.chat_create
        OtherKeys.json_loads init OtherKeys.doc
      = Ok (Some analysis, reqs)
      /\ map fst (ea_answers analysis) = [py "pregunta_1"; py "pregunta_4"])
  /\ (exists a' err,
         generate_rubric true OtherKeys.chat_create OtherKeys.json_loads init
         = Ok (a', err)
         /\ rubric a' = OtherKeys.rubric_response
         /\ py_contains (rubric a') (py "pregunta_1") = Ok false
         /\ py_contains (rubric a') (py "pregunta_7") = Ok true).
Proof.
  split.
  - eexists. eexists. split; [vm_compute; reflexivity | reflexivity].
  - eexists. eexists. split; [vm_compute; reflexivity|]. repeat split.
Qed.

(** ** What the extractor guarantees to the synthesizer *)

Lemma strs_of_hashable l ss :
  strs_of l = Ok ss -> forallb hashable l = true.
Proof.
  revert ss. induction l as [|x l IH]; intros ss; [reflexivity|].
  destruct x; cbn [strs_of]; try discriminate.
  destruct (strs_of l) as [ss'|]; cbn [bind]; [|discriminate].
  intros _. cbn [forallb hashable andb]. eapply IH. reflexivity.
Qed.

Lemma question_concepts_cons q_num doc docs :
  question_concepts q_num (doc :: docs)
  = match dict_get (ea_answers doc) (q_key q_num) with
    | Some (JDict d) => concepts_of d
    | _ => []
    end ++ question_concepts q_num docs.
Proof.
  unfold question_concepts, question_answers. cbn [flat_map].
  rewrite flat_map_app.
  destruct (dict_get (ea_answers doc) (q_key q_num)) as [[| | | | |d]|];
    cbn [flat_map app]; try reflexivity.
  now rewrite app_nil_r.
Qed.

(** The concepts that the synthesizer counts are strings, since the
    extractor joined them before it kept the response: only a quality
    label can fail to be hashable. *)
Lemma extracted_concepts_hashable docs q_num :
  forallb (fun doc => summarizable (ea_answers doc)) docs = true ->
  In q_num range_1_4 ->
  forallb hashable (question_concepts q_num docs) = true.
Proof.
  intros H Hq. induction docs as [|doc docs IH]; [reflexivity|].
  cbn [forallb] in H. apply andb_true_iff in H. destruct H as [Hd Hr].
  rewrite question_concepts_cons, forallb_app, (IH Hr), andb_true_r.
  pose proof (summarizable_joinable _ q_num Hd Hq) as Hj.
  destruct (dict_get (ea_answers doc) (q_key q_num)) as [[| | | | |d]|] eqn:E;
    try reflexivity.
  destruct (Hj d E) as (joined & Hjoined). unfold py_join in Hjoined.
  destruct (strs_of (concepts_of d)) as [ss|] eqn:Es; [|discriminate].
  exact (strs_of_hashable _ _ Es).
Qed.

(** ** Malformed responses *)

Import WrongTypes.

(** C2. Where the claim holds and where the code breaks it.  An
    answer without key points is counted with 0 key points by the
    summary of the extractor and by the export.  But a response whose
    entry for question 1 is a text is accepted by the extractor and
    the synthesizer, and [generate_rubric] then raises on it while
    collecting examples; a quality label that is a list makes
    [synthesize_patterns] raise; key points that are numbers make the
    extraction of the next document raise; a rubric whose entry is a
    text makes [export_reports] raise. *)
Theorem malformed_response_raises :
  (exists lines,
      extraction_summary (entries text_entry) = Ok lines
      /\ map (fun l => (sl_question l, sl_num_puntos_clave l)) lines
         = [(py "pregunta_2", 2%nat); (py "pregunta_3", 0%nat)])
  /\ (exists a1 a2 printed rows,
         analyzed text_entry (JDict []) [doc "A"] = Ok a1
         /\ map ea_answers (extracted_answers a1) = [entries text_entry]
         /\ synthesize_patterns a1 = Ok (a2, printed)
         /\ student_details a2 = Ok rows
         /\ map (fun r => (sr_pregunta r, sr_num_puntos_clave r)) rows
            = [(2, 2%nat); (3, 0%nat)]
         /\ generate_rubric true chat_create
              (json_loads text_entry (JDict [])) a2
            = Raise AttributeError)
  /\ pipeline text_entry (JDict []) [doc "A"] = Raise AttributeError
  /\ (exists a1,
         analyzed list_label (JDict []) [doc "A"] = Ok a1
         /\ synthesize_patterns a1 = Raise TypeError)
  /\ (exists a1,
         analyzed number_points (JDict []) [doc "A"] = Ok a1
         /\ length (extracted_answers a1) = 1%nat)
  /\ analyzed number_points (JDict []) [doc "A"; doc "B"] = Raise TypeError
  /\ (exists a1 a2 printed a3 err,
         analyzed (JDict []) text_rubric [doc "A"] = Ok a1
         /\ synthesize_patterns a1 = Ok (a2, printed)
         /\ generate_rubric true chat_create
              (json_loads (JDict []) text_rubric) a2
            = Ok (a3, err)
         /\ rubric a3 = text_rubric
         /\ export_reports a3 = Raise AttributeError).
Proof.
  split; [eexists; split; reflexivity|].
  split.
  { do 4 eexists. split; [vm_compute; reflexivity|].
    split; [reflexivity|]. split; [vm_compute; reflexivity|].
    split; [vm_compute; reflexivity|]. split; reflexivity. }
  split; [reflexivity|].
  split.
  { eexists. split; [vm_compute; reflexivity | reflexivity]. }
  split.
  { eexists. split; [vm_compute; reflexivity | reflexivity]. }
  split; [reflexivity|].
  do 5 eexists. split; [vm_compute; reflexivity|].
  split; [vm_compute; reflexivity|]. split; [vm_compute; reflexivity|].
  split; reflexivity.
Qed.

(** ** Folder validation *)

Lemma count_subfolders_zero subfolders : forall total_docx,
  0 <= total_docx ->
  (fold_left count_subfolder subfolders total_docx =? 0)
  = (total_docx =? 0) && negb (some_subfolder_has_docx subfolders).
Proof.
  unfold some_subfolder_has_docx.
  induction subfolders as [|sf sfs IH]; intros total Ht;
    cbn [fold_left existsb].
  - now rewrite andb_true_r.
  - unfold count_subfolder at 2. rewrite IH by lia.
    destruct (filter not_lock_name (sf_docx sf)) as [|n ns] eqn:E.
    + assert (Hn : existsb not_lock_name (sf_docx sf) = false).
      { destruct (existsb not_lock_name (sf_docx sf)) eqn:Ex; [|reflexivity].
        apply existsb_exists in Ex. destruct Ex as (x & Hx & Hl).
        assert (In x (filter not_lock_name (sf_docx sf)))
          by (apply filter_In; auto).
        rewrite E in H. contradiction. }
      rewrite Hn. cbn [length orb]. now rewrite Z.add_0_r.
    + assert (Hn : existsb not_lock_name (sf_docx sf) = true).
      { apply existsb_exists. exists n.
        apply filter_In. rewrite E. now left. }
      rewrite Hn. cbn [orb negb]. rewrite andb_false_r.
      apply andb_false_intro1. apply Z.eqb_neq. cbn [length]. lia.
Qed.



(** ** The run of the extractor over the documents *)

Section RunInvariants.

Variable client_configured : bool.
Variable chat_create : nat -> request -> option pystr.
Variable json_loads : pystr -> option json.

Lemma analyze_step_inv a doc a1 :
  analyze_step client_configured chat_create json_loads a doc = Ok a1 ->
  exists new reqs,
    extracted_answers a1 = extracted_answers a ++ new
    /\ kept_in_order [doc] new
    /\ Forall (stored_response json_loads) new
    /\ sent a1 = sent a ++ reqs
    /\ requests_of client_configured reqs [doc]
    /\ documents a1 = documents a
    /\ pattern_analysis a1 = pattern_analysis a
    /\ rubric a1 = rubric a.
Proof.
  unfold analyze_step, extract_answers_from_document.
  destruct (build_context (extracted_answers a)) as [context|];
    cbn [bind]; [|discriminate].
  unfold requests_of.
  destruct client_configured; cbn [negb bind fst snd].
  - match goal with
    | |- context [try_except ?t None] =>
        destruct (try_except t None) as [e|] eqn:E
    end; intros [= <-]; cbn.
    + destruct (extract_try_some _ _ _ _ _ _ E) as (content & _ & Hl & Hn).
      exists [e]. eexists. split; [reflexivity|].
      split; [constructor; [exact Hn | constructor]|].
      split.
      { constructor; [|constructor]. exists content. split; [exact Hl|].
        eapply extract_try_summarizable; eauto. }
      split; [reflexivity|]. split; [|auto].
      constructor; [|constructor]. eexists. reflexivity.
    + exists []. eexists. rewrite app_nil_r. split; [reflexivity|].
      split; [repeat constructor|]. split; [constructor|].
      split; [reflexivity|]. split; [|auto].
      constructor; [|constructor]. eexists. reflexivity.
  - intros [= <-]; cbn. exists [], []. rewrite !app_nil_r.
    repeat split; auto. repeat constructor.
Qed.

Lemma requests_of_app reqs1 docs1 reqs2 docs2 :
  requests_of client_configured reqs1 docs1 ->
  requests_of client_configured reqs2 docs2 ->
  requests_of client_configured (reqs1 ++ reqs2) (docs1 ++ docs2).
Proof.
  unfold requests_of. destruct client_configured.
  - apply Forall2_app.
  - now intros -> ->.
Qed.

Lemma analyze_loop_inv docs : forall a a',
  for_each docs (analyze_step client_configured chat_create json_loads) a
  = Ok a' ->
  exists new reqs,
    extracted_answers a' = extracted_answers a ++ new
    /\ kept_in_order docs new
    /\ Forall (stored_response json_loads) new
    /\ sent a' = sent a ++ reqs
    /\ requests_of client_configured reqs docs
    /\ documents a' = documents a
    /\ pattern_analysis a' = pattern_analysis a
    /\ rubric a' = rubric a.
Proof.
  induction docs as [|doc docs IH]; intros a a'; cbn [for_each].
  - intros [= <-]. exists [], []. rewrite !app_nil_r.
    repeat split; auto; try constructor.
    unfold requests_of. destruct client_configured; constructor.
  - destruct (analyze_step _ _ _ a doc) as [a1|] eqn:E; cbn [bind];
      [|discriminate].
    intros Hf.
    destruct (analyze_step_inv _ _ _ E)
      as (new1 & reqs1 & He1 & Hk1 & Hs1 & Hr1 & Hq1 & Hd1 & Hp1 & Hu1).
    destruct (IH _ _ Hf)
      as (new2 & reqs2 & He2 & Hk2 & Hs2 & Hr2 & Hq2 & Hd2 & Hp2 & Hu2).
    exists (new1 ++ new2), (reqs1 ++ reqs2).
    split; [now rewrite He2, He1, app_assoc|].
    split; [exact (kept_in_order_app [doc] new1 docs new2 Hk1 Hk2)|].
    split; [now apply Forall_app|].
    split; [now rewrite Hr2, Hr1, app_assoc|].
    split; [exact (requests_of_app reqs1 [doc] reqs2 docs Hq1 Hq2)|].
    repeat split; congruence.
Qed.

End RunInvariants.

(** X2. Whatever the service answers, a run of the extractor that
    ends only appends to the accumulated analyses and to the requests:
    the new analyses are responses of the service stored as parsed, for
    some of the documents and in their order; with a client there is
    exactly one request per document, in the order of the documents,
    each with the name and the text of its document, and without a
    client none; documents, pattern analysis and rubric are left as
    they were. *)
Theorem analyze_run_invariants
  (client_configured : bool) (chat_create : nat -> request -> option pystr)
  (json_loads : pystr -> option json) (a a' : analyzer) :
  analyze_patterns_iteratively client_configured chat_create json_loads a
  = Ok a' ->
  exists new reqs,
    extracted_answers a' = extracted_answers a ++ new
    /\ kept_in_order (documents a) new
    /\ Forall (stored_response json_loads) new
    /\ sent a' = sent a ++ reqs
    /\ requests_of client_configured reqs (documents a)
    /\ documents a' = documents a
    /\ pattern_analysis a' = pattern_analysis a
    /\ rubric a' = rubric a.
Proof.
  intros H. unfold analyze_patterns_iteratively in H.
  destruct (analyze_loop_inv _ _ _ _ _ _ H)
    as (new & reqs & He & Hk & Hs & Hr & Hq & Hd & Hp & Hu).
  exists new, reqs. repeat split; assumption.
Qed.

(** The run over five documents: five requests for four analyses. *)
Lemma analyze_run_invariants_five_documents :
  exists a' new reqs,
    FiveDocuments.run_A = Ok a'
    /\ extracted_answers a' = [] ++ new
    /\ kept_in_order FiveDocuments.docs new
    /\ sent a' = [] ++ reqs
    /\ Forall2 request_of reqs FiveDocuments.docs
    /\ length new = 4%nat.
Proof.
  assert (E : exists a', FiveDocuments.run_A = Ok a'
                         /\ length (extracted_answers a') = 4%nat)
    by (vm_compute; eexists; split; reflexivity).
  destruct E as (a' & E & Hlen).
  destruct (analyze_run_invariants true FiveDocuments.chat_create
              FiveDocuments.json_loads_A FiveDocuments.start a' E)
    as (new & reqs & He & Hk & _ & Hr & Hq & _).
  exists a', new, reqs. repeat split; auto.
  cbn in He. now rewrite <- He.
Defined.

(** ** Which responses the extractor keeps *)

Lemma strs_of_spec l :
  strs_of l
  = if forallb is_str l then Ok (map text_of l) else Raise TypeError.
Proof.
  induction l as [|x l IH]; [reflexivity|].
  destruct x; cbn [strs_of forallb is_str andb map text_of]; try reflexivity.
  rewrite IH. now destruct (forallb is_str l).
Qed.

Lemma py_join_spec sep l :
  py_join sep l
  = if forallb is_str l then Ok (join sep (map text_of l))
    else Raise TypeError.
Proof.
  unfold py_join. rewrite strs_of_spec. now destruct (forallb is_str l).
Qed.

Lemma summary_step_spec res acc q :
  concept_list_ok res q = true ->
  exists acc', summary_step res acc q = Ok acc'.
Proof.
  unfold summary_step, concept_list_ok.
  destruct (dict_get res q) as [[| | | | |d]|]; try (eexists; reflexivity).
  fold (concepts_of d). intros H.
  destruct (concepts_of d) as [|c cs] eqn:E; cbn [bind].
  - eexists. reflexivity.
  - rewrite py_join_spec, H. cbn [bind]. eexists. reflexivity.
Qed.

Lemma summary_step_raises res acc q :
  concept_list_ok res q = false ->
  summary_step res acc q = Raise TypeError.
Proof.
  unfold summary_step, concept_list_ok.
  destruct (dict_get res q) as [[| | | | |d]|]; try discriminate.
  fold (concepts_of d). intros H.
  destruct (concepts_of d) as [|c cs] eqn:E; [discriminate|].
  now rewrite py_join_spec, H.
Qed.

(** The summary can be printed exactly when the concept lists hold
    strings only; otherwise joining them raises [TypeError]. *)
Lemma summarizable_spec res : summarizable res = concepts_are_strings res.
Proof.
  unfold summarizable, concepts_are_strings, extraction_summary,
    question_keys.
  cbn [forallb for_each].
  destruct (concept_list_ok res (py "pregunta_1")) eqn:E1.
  - destruct (summary_step_spec res [] _ E1) as (s1 & ->). cbn [bind andb].
    destruct (concept_list_ok res (py "pregunta_2")) eqn:E2.
    + destruct (summary_step_spec res s1 _ E2) as (s2 & ->). cbn [bind andb].
      destruct (concept_list_ok res (py "pregunta_3")) eqn:E3.
      * now destruct (summary_step_spec res s2 _ E3) as (s3 & ->).
      * now rewrite (summary_step_raises res s2 _ E3).
    + now rewrite (summary_step_raises res s1 _ E2).
  - now rewrite (summary_step_raises res [] _ E1).
Qed.











(** ** When the synthesizer raises *)

Lemma counting_raises l : forall c,
  forallb hashable l = false ->
  for_each l counter_add c = Raise TypeError.
Proof.
  induction l as [|x l IH]; intros c; cbn [forallb for_each];
    [discriminate|].
  unfold counter_add at 1. destruct (hashable x); cbn [andb bind].
  - apply IH.
  - reflexivity.
Qed.

Lemma synth_question_raises docs st q_num :
  forallb hashable (question_concepts q_num docs)
  && forallb hashable (question_labels q_num docs) = false ->
  synth_question docs st q_num = Raise TypeError.
Proof.
  intros H. unfold synth_question. rewrite synth_loop.
  cbn [quality_counts all_concepts all_key_points app].
  destruct (forallb hashable (question_labels q_num docs)) eqn:El.
  - fold (Counter (question_labels q_num docs)).
    rewrite (Counter_counted _ El). cbn [bind all_concepts].
    rewrite andb_true_r in H. unfold Counter.
    now rewrite (counting_raises _ [] H).
  - now rewrite (counting_raises _ [] El).
Qed.

Lemma synthesize_patterns_raises a :
  countable (extracted_answers a) = false ->
  synthesize_patterns a = Raise TypeError.
Proof.
  intros E. unfold synthesize_patterns, range_1_4. cbn [for_each].
  unfold countable, range_1_4 in E. cbn [forallb] in E.
  rewrite andb_true_r in E.
  set (docs := extracted_answers a) in *.
  destruct (forallb hashable (question_concepts 1 docs)
            && forallb hashable (question_labels 1 docs)) eqn:E1.
  - apply andb_true_iff in E1. destruct E1 as [H1 H1'].
    rewrite (synth_question_ok docs _ 1 H1 H1'). cbn [bind andb] in *.
    destruct (forallb hashable (question_concepts 2 docs)
              && forallb hashable (question_labels 2 docs)) eqn:E2.
    + apply andb_true_iff in E2. destruct E2 as [H2 H2'].
      rewrite (synth_question_ok docs _ 2 H2 H2'). cbn [bind andb] in *.
      now rewrite (synth_question_raises docs _ 3 E).
    + now rewrite (synth_question_raises docs _ 2 E2).
  - now rewrite (synth_question_raises docs _ 1 E1).
Qed.

Lemma synthesize_patterns_countable a r :
  synthesize_patterns a = Ok r -> countable (extracted_answers a) = true.
Proof.
  intros H. destruct (countable (extracted_answers a)) eqn:E; [reflexivity|].
  rewrite (synthesize_patterns_raises a E) in H. discriminate.
Qed.

(** X4. [synthesize_patterns] returns exactly when, in the analyses
    of the three questions, no mentioned concept and no quality label
    is a list or an object; otherwise it raises [TypeError].  It raises
    nothing else: with no extracted document no percentage is
    computed, so there is no division by zero. *)
Theorem synthesize_patterns_total (a : analyzer) :
  if countable (extracted_answers a)
  then exists a' printed, synthesize_patterns a = Ok (a', printed)
  else synthesize_patterns a = Raise TypeError.
Proof.
  destruct (countable (extracted_answers a)) eqn:E.
  - rewrite (synthesize_patterns_ok a E). eexists. eexists. reflexivity.
  - now apply synthesize_patterns_raises.
Qed.

(** No extracted document: the three entries are stored with a total
    of 0.  A quality label that is a list: [TypeError]. *)
Lemma synthesize_patterns_total_samples :
  (exists a' printed, synthesize_patterns init = Ok (a', printed))
  /\ synthesize_patterns
       (mk_analyzer []
          [mk_extracted (py "A") (WrongTypes.entries WrongTypes.list_label)]
          [] (JDict []) [])
     = Raise TypeError.
Proof.
  split.
  - exact (synthesize_patterns_total init).
  - exact (synthesize_patterns_total
             (mk_analyzer []
                [mk_extracted (py "A")
                   (WrongTypes.entries WrongTypes.list_label)]
                [] (JDict []) [])).
Defined.

(** ** What the counts add up to *)

Lemma counter_total_incr c x :
  counter_total (counter_incr c x) = counter_total c + 1.
Proof.
  induction c as [|[k n] c IH]; cbn [counter_incr counter_total fold_right snd].
  - reflexivity.
  - destruct (key_eqb k x); cbn [counter_total fold_right snd].
    + lia.
    + fold (counter_total (counter_incr c x)). rewrite IH.
      fold (counter_total c). lia.
Qed.

Lemma counter_total_counted l :
  counter_total (counted l) = Z.of_nat (length l).
Proof.
  unfold counted.
  assert (G : forall c, counter_total (fold_left counter_incr l c)
                        = counter_total c + Z.of_nat (length l)).
  { induction l as [|x l IH]; intros c; cbn [fold_left length].
    - lia.
    - rewrite IH, counter_total_incr. lia. }
  now rewrite G.
Qed.

Lemma counter_total_app c1 c2 :
  counter_total (c1 ++ c2) = counter_total c1 + counter_total c2.
Proof.
  induction c1 as [|kv c1 IH]; cbn [app counter_total fold_right].
  - reflexivity.
  - fold (counter_total (c1 ++ c2)). fold (counter_total c1). lia.
Qed.

Lemma counter_total_perm c1 c2 :
  Permutation c1 c2 -> counter_total c1 = counter_total c2.
Proof.
  induction 1; cbn [counter_total fold_right]; try lia.
  fold (counter_total l) (counter_total l'). lia.
Qed.

Lemma counter_total_nonneg c :
  Forall (fun kv => 0 <= snd kv) c -> 0 <= counter_total c.
Proof.
  induction 1 as [|kv c Hkv _ IH]; cbn [counter_total fold_right]; [lia|].
  fold (counter_total c). lia.
Qed.

(** X5. The quality histogram of a question adds up to the number of
    well-formed analyses of the question, and the frequencies of the
    reported concepts to at most the number of concept mentions, with
    equality when at most ten distinct concepts are mentioned. *)
Theorem histogram_totals (a : analyzer) (q_num : Z) :
  countable (extracted_answers a) = true ->
  In q_num [1; 2; 3] ->
  let docs := extracted_answers a in
  exists stats,
    synthesized_stats a q_num = Some stats
    /\ counter_total (ps_distribucion_calidad stats)
       = Z.of_nat (length (question_answers q_num docs))
    /\ counter_total (ps_conceptos_frecuentes stats)
       <= Z.of_nat (length (question_concepts q_num docs))
    /\ ((length (counted (question_concepts q_num docs)) <= 10)%nat ->
        counter_total (ps_conceptos_frecuentes stats)
        = Z.of_nat (length (question_concepts q_num docs))).
Proof.
  intros H Hq docs. exists (question_stats q_num docs).
  split; [now apply synthesized_stats_ok|].
  cbn [question_stats ps_distribucion_calidad ps_conceptos_frecuentes].
  split.
  { rewrite counter_total_counted. unfold question_labels.
    now rewrite length_map. }
  destruct (countable_at docs q_num H) as [Hc _];
    [unfold range_1_4; exact Hq|].
  set (l := question_concepts q_num docs) in *.
  pose proof (counter_total_counted l) as Ht.
  rewrite <- (counter_total_perm _ _ (sorted_desc_perm (counted l))) in Ht.
  rewrite <- (firstn_skipn 10 (sorted_desc (counted l))) in Ht.
  rewrite counter_total_app in Ht.
  unfold most_common, slice_to. split.
  - assert (0 <= counter_total (skipn 10 (sorted_desc (counted l)))).
    { apply counter_total_nonneg. apply Forall_forall. intros [k n] Hin.
      destruct (counted_spec l Hc) as (C1 & _).
      destruct (C1 k n) as (-> & _).
      - apply (Permutation_in _ (sorted_desc_perm (counted l))).
        rewrite <- (firstn_skipn 10 (sorted_desc (counted l))).
        apply in_or_app. now right.
      - cbn [snd]. lia. }
    lia.
  - intros Hlen.
    rewrite skipn_all2 in Ht.
    + cbn [counter_total fold_right] in Ht. lia.
    + rewrite (Permutation_length (sorted_desc_perm (counted l))). exact Hlen.
Qed.

(** Two students, question 1: two analyses, five concept mentions. *)
Lemma histogram_totals_two_students :
  exists stats,
    synthesized_stats TwoStudents.state 1 = Some stats
    /\ counter_total (ps_distribucion_calidad stats) = 2
    /\ counter_total (ps_conceptos_frecuentes stats) = 5.
Proof.
  destruct (histogram_totals TwoStudents.state 1 eq_refl (or_introl eq_refl))
    as (stats & Hs & Hq & _ & Hc).
  exists stats. split; [exact Hs|]. split; [exact Hq|].
  apply Hc. vm_compute. lia.
Defined.

(** ** The student table against the synthesis *)

Lemma concept_list_ok_at res q_num :
  concepts_are_strings res = true -> In q_num range_1_4 ->
  concept_list_ok res (q_key q_num) = true.
Proof.
  unfold concepts_are_strings, question_keys. cbn [forallb].
  rewrite !andb_true_iff. intros (H1 & H2 & H3 & _) [<-|[<-|[<-|[]]]];
    assumption.
Qed.

Lemma student_step_spec doc acc q_num :
  summarizable (ea_answers doc) = true -> In q_num range_1_4 ->
  student_step doc acc q_num = Ok (acc ++ row_of doc q_num).
Proof.
  intros Hs Hq. rewrite summarizable_spec in Hs.
  pose proof (concept_list_ok_at _ _ Hs Hq) as Hok.
  unfold student_step, row_of, concept_list_ok in *.
  destruct (dict_get (ea_answers doc) (q_key q_num)) as [[| | | | |d]|];
    try (now rewrite app_nil_r).
  fold (concepts_of d) (key_points_of d) (label_of d).
  now rewrite py_join_spec, Hok.
Qed.

Lemma student_details_spec a :
  forallb (fun doc => summarizable (ea_answers doc)) (extracted_answers a)
  = true ->
  student_details a = Ok (student_rows (extracted_answers a)).
Proof.
  intros H. unfold student_details, student_rows.
  rewrite (for_each_flat_map (extracted_answers a) _
             (fun doc => flat_map (row_of doc) range_1_4));
    [reflexivity|].
  intros acc doc Hdoc. rewrite forallb_forall in H.
  apply for_each_flat_map. intros acc' q Hq.
  apply student_step_spec; auto.
Qed.

Lemma rows_of_question_row_of q_num doc q :
  rows_of_question q_num (row_of doc q)
  = if q =? q_num then row_of doc q else [].
Proof.
  unfold rows_of_question, row_of.
  destruct (dict_get (ea_answers doc) (q_key q)) as [[| | | | |d]|];
    cbn [filter sr_pregunta]; destruct (q =? q_num); reflexivity.
Qed.

Lemma rows_of_question_document q_num doc :
  In q_num range_1_4 ->
  rows_of_question q_num (flat_map (row_of doc) range_1_4) = row_of doc q_num.
Proof.
  intros Hq. unfold range_1_4. cbn [flat_map].
  unfold rows_of_question. rewrite !filter_app.
  fold (rows_of_question q_num (row_of doc 1))
    (rows_of_question q_num (row_of doc 2))
    (rows_of_question q_num (row_of doc 3)).
  rewrite !rows_of_question_row_of.
  destruct Hq as [<-|[<-|[<-|[]]]]; cbn [Z.eqb Pos.eqb app];
    now rewrite ?app_nil_r.
Qed.

Lemma rows_of_question_student_rows q_num docs :
  In q_num range_1_4 ->
  rows_of_question q_num (student_rows docs)
  = flat_map (fun doc => row_of doc q_num) docs.
Proof.
  intros Hq. unfold student_rows.
  induction docs as [|doc docs IH]; [reflexivity|].
  cbn [flat_map]. unfold rows_of_question in *. rewrite filter_app, IH.
  f_equal. now apply rows_of_question_document.
Qed.

Lemma total_app c1 c2 : total (c1 ++ c2) = (total c1 + total c2)%nat.
Proof.
  induction c1 as [|n c1 IH]; cbn [app total fold_right]; [reflexivity|].
  fold (total (c1 ++ c2)) (total c1). lia.
Qed.

Lemma length_flat_map_total {A B} (f : A -> list B) (l : list A) :
  length (flat_map f l) = total (map (fun x => length (f x)) l).
Proof.
  induction l as [|x l IH]; cbn [flat_map map total fold_right];
    [reflexivity|].
  rewrite length_app, IH. reflexivity.
Qed.

Lemma rows_match_answers q_num docs :
  let mine := flat_map (fun doc => row_of doc q_num) docs in
  map sr_calidad mine = question_labels q_num docs
  /\ map sr_num_puntos_clave mine
     = map (fun d => length (key_points_of d)) (question_answers q_num docs)
  /\ map sr_conceptos mine
     = map (fun d => join (py ", ") (map text_of (concepts_of d)))
         (question_answers q_num docs).
Proof.
  unfold question_labels, question_answers.
  induction docs as [|doc docs (IH1 & IH2 & IH3)]; [repeat split|].
  cbn [flat_map]. rewrite !map_app, IH1, IH2, IH3. unfold row_of.
  destruct (dict_get (ea_answers doc) (q_key q_num)) as [[| | | | |d]|];
    repeat split.
Qed.

(** X6. On what the extractor accumulated the student table is
    produced, and for each question it has exactly one row per
    well-formed analysis of the question, in the order of the
    documents: the quality column of these rows lists the labels that
    the synthesizer counted, and their key-point counts add up to the
    number of key points that the synthesizer collected for the
    question. *)
Theorem student_rows_match_synthesis (a : analyzer) (q_num : Z) :
  forallb (fun doc => summarizable (ea_answers doc)) (extracted_answers a)
  = true ->
  In q_num [1; 2; 3] ->
  let docs := extracted_answers a in
  exists rows,
    student_details a = Ok rows
    /\ let mine := rows_of_question q_num rows in
       length mine = length (question_answers q_num docs)
       /\ map sr_calidad mine = question_labels q_num docs
       /\ total (map sr_num_puntos_clave mine)
          = length (question_key_points q_num docs)
       /\ (length rows <= 3 * length docs)%nat.
Proof.
  intros H Hq docs. exists (student_rows docs).
  split; [now apply student_details_spec|]. cbn zeta.
  rewrite (rows_of_question_student_rows q_num docs Hq).
  destruct (rows_match_answers q_num docs) as (R1 & R2 & _).
  split; [|split; [exact R1|split]].
  - rewrite <- (length_map sr_calidad), R1. unfold question_labels.
    now rewrite length_map.
  - rewrite R2. unfold question_key_points.
    now rewrite length_flat_map_total.
  - unfold student_rows. clear.
    induction docs as [|doc docs IH]; cbn [flat_map length]; [lia|].
    rewrite length_app.
    assert (length (flat_map (row_of doc) range_1_4) <= 3)%nat.
    { unfold range_1_4. cbn [flat_map]. rewrite !length_app.
      unfold row_of.
      destruct (dict_get (ea_answers doc) (q_key 1)) as [[| | | | |d1]|];
        destruct (dict_get (ea_answers doc) (q_key 2)) as [[| | | | |d2]|];
        destruct (dict_get (ea_answers doc) (q_key 3)) as [[| | | | |d3]|];
        cbn [length]; lia. }
    lia.
Qed.

(** Two students, question 3: two rows, of which the first has no
    quality label; two key points in all. *)
Lemma student_rows_match_synthesis_two_students :
  exists rows,
    student_details TwoStudents.state = Ok rows
    /\ map sr_calidad (rows_of_question 3 rows)
       = [JStr (py "N/A"); JStr (py "baja")]
    /\ total (map sr_num_puntos_clave (rows_of_question 3 rows)) = 2%nat.
Proof.
  destruct (student_rows_match_synthesis TwoStudents.state 3 eq_refl
              (or_intror (or_intror (or_introl eq_refl))))
    as (rows & Hr & _ & Hl & Hk & _).
  exists rows. split; [exact Hr|]. split; [exact Hl | exact Hk].
Defined.

(** ** The examples of the rubric against the quality columns *)

Lemma high_quality_label d :
  high_quality (JDict d) = eq_str (label_of d) (py "alta").
Proof.
  unfold high_quality, label_of, dict_get_default.
  now destruct (dict_get d (py "calidad_estimada")).
Qed.

Lemma labelled_cons s q_num doc docs :
  labelled s q_num (doc :: docs)
  = labelled s q_num [doc] ++ labelled s q_num docs.
Proof.
  unfold labelled, question_answers. cbn [flat_map].
  now rewrite app_nil_r, filter_app.
Qed.

Lemma examples_of_question doc q_num :
  length (spec_question_example doc q_num)
  = length (labelled (py "alta") q_num [doc]).
Proof.
  unfold spec_question_example, labelled, question_answers.
  cbn [flat_map]. rewrite app_nil_r.
  destruct (dict_get (ea_answers doc) (q_key q_num)) as [[| | | | |d]|];
    try reflexivity.
  rewrite high_quality_label. cbn [filter].
  now destruct (eq_str (label_of d) (py "alta")).
Qed.

Lemma examples_count docs :
  length (spec_all_examples docs)
  = (length (labelled (py "alta") 1 docs)
     + length (labelled (py "alta") 2 docs)
     + length (labelled (py "alta") 3 docs))%nat.
Proof.
  induction docs as [|doc docs IH]; [reflexivity|].
  change (spec_all_examples (doc :: docs))
    with ((spec_question_example doc 1
           ++ spec_question_example doc 2
           ++ spec_question_example doc 3 ++ [])
          ++ spec_all_examples docs).
  rewrite !length_app, IH, !examples_of_question.
  rewrite (labelled_cons _ 1 doc docs), (labelled_cons _ 2 doc docs),
    (labelled_cons _ 3 doc docs), !length_app.
  cbn [length]. lia.
Qed.

(** X7. The high-quality examples that the rubric generator collects
    (before it keeps six of them) are as many as the three 'Calidad
    Alta' cells of the pattern table taken together. *)
Theorem examples_match_quality_columns (a : analyzer) :
  countable (extracted_answers a) = true ->
  forallb example_ready (extracted_answers a) = true ->
  exists examples s1 s2 s3,
    high_quality_examples (extracted_answers a) = Ok examples
    /\ synthesized_stats a 1 = Some s1
    /\ synthesized_stats a 2 = Some s2
    /\ synthesized_stats a 3 = Some s3
    /\ Z.of_nat (length examples)
       = pr_calidad_alta (pattern_row_of s1)
         + pr_calidad_alta (pattern_row_of s2)
         + pr_calidad_alta (pattern_row_of s3).
Proof.
  intros Hc Hr. set (docs := extracted_answers a).
  exists (spec_all_examples docs), (question_stats 1 docs),
    (question_stats 2 docs), (question_stats 3 docs).
  split; [now apply high_quality_examples_spec|].
  split; [apply synthesized_stats_ok; cbn; auto|].
  split; [apply synthesized_stats_ok; cbn; auto|].
  split; [apply synthesized_stats_ok; cbn; auto|].
  unfold pattern_row_of. cbn [pr_calidad_alta].
  rewrite !quality_column, examples_count. lia.
Qed.

(** Three students with nine high answers: nine examples, three per
    question. *)
Lemma examples_match_quality_columns_three_students :
  exists examples s1 s2 s3,
    high_quality_examples ThreeStudents.students = Ok examples
    /\ synthesized_stats ThreeStudents.state 1 = Some s1
    /\ synthesized_stats ThreeStudents.state 2 = Some s2
    /\ synthesized_stats ThreeStudents.state 3 = Some s3
    /\ Z.of_nat (length examples)
       = pr_calidad_alta (pattern_row_of s1)
         + pr_calidad_alta (pattern_row_of s2)
         + pr_calidad_alta (pattern_row_of s3).
Proof.
  exact (examples_match_quality_columns ThreeStudents.state eq_refl eq_refl).
Defined.

(** ** A rubric that was stored although its summary raised *)

(** A loop raises when another loop over the same items raises, if
    the body of the first raises on every item, in every state, on
    which the body of the second does. *)
Lemma for_each_raises_with {A S T} (l : list A)
  (body1 : S -> A -> result S) (body2 : T -> A -> result T) :
  (forall x s e t, In x l -> body1 s x = Raise e ->
                   exists e', body2 t x = Raise e') ->
  forall s e t,
    for_each l body1 s = Raise e -> exists e', for_each l body2 t = Raise e'.
Proof.
  induction l as [|x l IH]; intros H s e t; cbn [for_each]; [discriminate|].
  destruct (body1 s x) as [s1|e1] eqn:E1; cbn [bind].
  - intros Hf. destruct (body2 t x) as [t1|e2]; cbn [bind].
    + eapply IH; [|exact Hf]. intros; eapply H; eauto. now right.
    + now exists e2.
  - intros _. destruct (H x s e1 t (or_introl eq_refl) E1) as (e' & ->).
    now exists e'.
Qed.

Lemma print_elements_ok elems :
  forallb fields_encodable elems = true ->
  for_each elems print_element tt = Ok tt.
Proof.
  induction elems as [|f elems IH]; cbn [forallb for_each]; [reflexivity|].
  rewrite andb_true_iff. intros [Hf He].
  destruct f as [[concepto puntos] descripcion]. cbn [fields_encodable] in Hf.
  rewrite !andb_true_iff in Hf. destruct Hf as [[Hc Hp] Hd].
  unfold print_element at 1. rewrite py_print_ok; [cbn [bind]; now apply IH|].
  rewrite !text_encodable_app, !text_encodable_lit, !text_encodable_fmt.
  rewrite Hc, Hp, Hd. reflexivity.
Qed.

(** With strings that can be encoded the prints of the summary go
    through, so the summary raises only where the text file, which
    reads the same fields, raises too. *)
Lemma rubric_text_step_raises rubric acc out q_num e :
  json_encodable rubric = true ->
  rubric_summary_step rubric acc q_num = Raise e ->
  rubric_text_step rubric out q_num = Raise e.
Proof.
  intros Hr. unfold rubric_summary_step, rubric_text_step.
  destruct (py_contains rubric (q_key q_num)) as [present|]; cbn [bind];
    [|intros H; injection H as ->; reflexivity].
  destruct present; [|discriminate].
  destruct (py_getitem rubric (q_key q_num)) as [rubric_data|] eqn:Eg;
    cbn [bind]; [|intros H; injection H as ->; reflexivity].
  pose proof (py_getitem_encodable _ _ _ Hr Eg) as Hd.
  destruct (py_get rubric_data (py "puntaje_total") (JStr (py "N/A")))
    as [puntaje|] eqn:Ep; cbn [bind];
    [|intros H; injection H as ->; reflexivity].
  apply (py_get_encodable _ _ _ _ Hd) in Ep; [|reflexivity].
  rewrite py_print_ok; cbn [bind].
  2:{ rewrite text_encodable_app, text_encodable_lit, text_encodable_fmt.
      now rewrite (json_encodable_fmt _ Ep). }
  destruct (rubric_elements rubric_data (py "elementos_obligatorios"))
    as [obligatorios|] eqn:Eo; cbn [bind];
    [|intros H; injection H as ->; reflexivity].
  rewrite (print_elements_ok _ (rubric_elements_encodable _ _ _ Hd Eo)).
  cbn [bind].
  destruct (py_get rubric_data (py "elementos_deseables") JNull)
    as [deseables|]; cbn [bind];
    [|intros H; injection H as ->; reflexivity].
  destruct (truthy deseables); [|discriminate].
  destruct (rubric_elements rubric_data (py "elementos_deseables"))
    as [shown|] eqn:Es; cbn [bind];
    [|intros H; injection H as ->; reflexivity].
  rewrite (print_elements_ok _ (rubric_elements_encodable _ _ _ Hd Es)).
  discriminate.
Qed.

Lemma rubric_text_raises rubric e :
  json_encodable rubric = true ->
  rubric_summary rubric = Raise e -> exists e', rubric_text rubric = Raise e'.
Proof.
  unfold rubric_summary, rubric_text. intros Hr H.
  destruct (for_each_raises_with range_1_4 (rubric_summary_step rubric)
              (rubric_text_step rubric)) with
    (s := @nil (Z * list (json * json * json) * list (json * json * json)))
    (e := e)
    (t := [lit banner ++ lit nl;
           lit (py "PAUTA DE CORRECCIÓN - EXAMEN DE FINANZAS") ++ lit nl;
           lit banner ++ lit nl ++ lit nl]) as (e' & ->).
  - intros q acc e0 out _ Hs. exists e0.
    eapply rubric_text_step_raises; eauto.
  - exact H.
  - now exists e'.
Qed.

(** Whatever makes the summary raise makes the export raise. *)
Lemma export_raises_after_summary a e :
  rubric_summary (rubric a) = Raise e -> exists e', export_reports a = Raise e'.
Proof.
  intros E. unfold export_reports, json_dump.
  destruct (student_details a) as [rows|e1]; cbn [bind]; [|eauto].
  destruct (json_encodable (rubric a)) eqn:Hj; cbn [bind]; [|eauto].
  destruct (rubric_text_raises _ e Hj E) as (e' & ->).
  cbn [bind]. now exists e'.
Qed.

(** X8. When the service answers the rubric request with valid JSON,
    [generate_rubric] stores the parsed value as the rubric whatever
    its shape, after exactly one request; it reports an error exactly
    when printing the summary of this value raises, and then the
    export that follows raises too. *)
Theorem generate_rubric_stores_response
  (chat_create : nat -> request -> option pystr)
  (json_loads : pystr -> option json) (a : analyzer) (context : text)
  (content : pystr) (parsed : json) :
  rubric_context a = Ok context ->
  chat_create (length (sent a)) (RubricRequest context) = Some content ->
  json_loads content = Some parsed ->
  exists a' err,
    generate_rubric true chat_create json_loads a = Ok (a', err)
    /\ rubric a' = parsed
    /\ sent a' = sent a ++ [RubricRequest context]
    /\ extracted_answers a' = extracted_answers a
    /\ pattern_analysis a' = pattern_analysis a
    /\ (err = true <-> exists e, rubric_summary parsed = Raise e)
    /\ (err = true -> exists e, export_reports a' = Raise e).
Proof.
  intros Hc Hchat Hloads. unfold generate_rubric. rewrite Hc.
  cbn [bind negb]. unfold rubric_try. rewrite Hchat, Hloads.
  eexists. eexists. split; [reflexivity|]. cbn [rubric sent
    extracted_answers pattern_analysis fst snd].
  destruct (rubric_summary parsed) as [s|e] eqn:E; cbn [fst snd].
  - do 4 (split; [reflexivity|]). split; [|discriminate].
    split; [discriminate | intros (e & He); discriminate].
  - do 4 (split; [reflexivity|]). split.
    + split; [intros _; now exists e | reflexivity].
    + intros _. apply (export_raises_after_summary _ e). exact E.
Qed.

(** A rubric whose entry of question 1 is a text: it is stored, an
    error is reported, and the export raises. *)
Lemma generate_rubric_stores_text_rubric :
  exists a',
    generate_rubric true WrongTypes.chat_create
      (WrongTypes.json_loads (JDict []) WrongTypes.text_rubric) init
    = Ok (a', true)
    /\ rubric a' = WrongTypes.text_rubric
    /\ exists e, export_reports a' = Raise e.
Proof.
  destruct (generate_rubric_stores_response WrongTypes.chat_create
              (WrongTypes.json_loads (JDict []) WrongTypes.text_rubric) init
              _ (py "pauta") WrongTypes.text_rubric
              eq_refl eq_refl eq_refl)
    as (a' & err & Hg & Hr & _ & _ & _ & Herr & Hx).
  assert (He : err = true) by (apply Herr; eexists; reflexivity).
  subst err. exists a'. split; [exact Hg|]. split; [exact Hr|].
  now apply Hx.
Defined.

(** ** Running the synthesizer again *)

Lemma assoc_set_get_same {V} (d : list (pystr * V)) k v :
  assoc_get d k = Some v -> assoc_set d k v = d.
Proof.
  induction d as [|[k' v'] d IH]; cbn [assoc_get assoc_set]; [discriminate|].
  destruct (pystr_eqb k' k).
  - now intros [= ->].
  - intros H. now rewrite IH.
Qed.

(** X9. Running [synthesize_patterns] a second time changes nothing:
    the three entries are overwritten in place with the same
    statistics, and the same lines are printed. *)
Theorem synthesize_patterns_idempotent (a a1 : analyzer)
  (printed : list question_report) :
  synthesize_patterns a = Ok (a1, printed) ->
  synthesize_patterns a1 = Ok (a1, printed).
Proof.
  intros H. pose proof (synthesize_patterns_countable a _ H) as Hc.
  rewrite (synthesize_patterns_ok a Hc) in H.
  injection H as <- <-.
  rewrite synthesize_patterns_ok by exact Hc.
  cbn [documents extracted_answers pattern_analysis rubric sent].
  set (docs := extracted_answers a).
  set (d := assoc_set (assoc_set (assoc_set (pattern_analysis a) (q_key 1)
                                    (question_stats 1 docs))
                         (q_key 2) (question_stats 2 docs))
              (q_key 3) (question_stats 3 docs)).
  assert (H1 : assoc_get d (q_key 1) = Some (question_stats 1 docs)).
  { unfold d. rewrite !assoc_get_set_other by reflexivity.
    apply assoc_get_set_same. }
  assert (H2 : assoc_get d (q_key 2) = Some (question_stats 2 docs)).
  { unfold d. rewrite assoc_get_set_other by reflexivity.
    apply assoc_get_set_same. }
  assert (H3 : assoc_get d (q_key 3) = Some (question_stats 3 docs)).
  { unfold d. apply assoc_get_set_same. }
  rewrite (assoc_set_get_same d _ _ H1), (assoc_set_get_same d _ _ H2),
    (assoc_set_get_same d _ _ H3).
  reflexivity.
Qed.

(** Two students: the second run returns what the first returned. *)
Lemma synthesize_patterns_idempotent_two_students :
  exists a1 printed,
    synthesize_patterns TwoStudents.state = Ok (a1, printed)
    /\ synthesize_patterns a1 = Ok (a1, printed).
Proof.
  destruct (synthesize_patterns TwoStudents.state) as [[a1 printed]|] eqn:E;
    [|discriminate].
  exists a1, printed. split; [reflexivity|].
  now apply synthesize_patterns_idempotent with (a := TwoStudents.state).
Defined.

(** ** When the context of a request cannot be built *)

(** A loop whose body raises [e] on the items that fail the test [p],
    and only on them. *)
Lemma for_each_guarded {A S} (p : A -> bool) (e : exn) (l : list A)
  (body : S -> A -> result S) :
  (forall s x, In x l ->
               if p x then exists s', body s x = Ok s'
               else body s x = Raise e) ->
  forall s,
    if forallb p l then exists s', for_each l body s = Ok s'
    else for_each l body s = Raise e.
Proof.
  induction l as [|x l IH]; intros H s; cbn [forallb for_each].
  - now exists s.
  - pose proof (H s x (or_introl eq_refl)) as Hx.
    destruct (p x); cbn [andb].
    + destruct Hx as (s1 & ->). cbn [bind]. apply IH.
      intros; apply H; now right.
    + now rewrite Hx.
Qed.

Lemma context_entry_guarded q answer :
  if entry_renders answer then exists s, context_entry q answer = Ok s
  else context_entry q answer = Raise TypeError.
Proof.
  unfold entry_renders, context_entry.
  destruct answer as [| | | | |a]; try (eexists; reflexivity).
  destruct (dict_get a (py "key_points")) as [[| | | |l|]|];
    try (eexists; reflexivity).
  destruct l as [|k ks]; [eexists; reflexivity|].
  rewrite py_join_spec.
  destruct (forallb is_str (slice_to 3 (k :: ks))); cbn [bind];
    [eexists|]; reflexivity.
Qed.

Lemma context_document_guarded context prev :
  if key_points_render prev
  then exists context', context_document context prev = Ok context'
  else context_document context prev = Raise TypeError.
Proof.
  unfold key_points_render, context_document.
  pose proof (for_each_guarded (fun kv => entry_renders (snd kv)) TypeError
                (ea_answers prev)
                (fun context kv =>
                   e <- context_entry (fst kv) (snd kv) ;; Ok (context ++ e)))
    as G.
  assert (Hbody : forall (s : pystr) (kv : pystr * json),
             In kv (ea_answers prev) ->
             if entry_renders (snd kv)
             then exists s', (e <- context_entry (fst kv) (snd kv) ;;
                              Ok (s ++ e)) = Ok s'
             else (e <- context_entry (fst kv) (snd kv) ;; Ok (s ++ e))
                  = Raise TypeError).
  { intros s kv _.
    pose proof (context_entry_guarded (fst kv) (snd kv)) as He.
    destruct (entry_renders (snd kv)).
    - destruct He as (s0 & ->). cbn [bind]. eexists. reflexivity.
    - now rewrite He. }
  specialize (G Hbody
                (context ++ py "Documento: " ++ ea_student_name prev ++ nl)).
  cbn beta in G.
  destruct (forallb (fun kv => entry_renders (snd kv)) (ea_answers prev)).
  - destruct G as (c & ->). cbn [bind]. eexists. reflexivity.
  - now rewrite G.
Qed.

(** X10. The context of a request can be built exactly when, in each
    of the last three accumulated analyses, every entry whose key
    points are a list has strings as its first three key points;
    otherwise building it raises [TypeError], and so does the
    extraction of the next document, before its [try], whatever the
    client and the service are. *)
Theorem build_context_total (l : list extracted) :
  if forallb key_points_render (slice_last 3 l)
  then exists context, build_context l = Ok context
  else build_context l = Raise TypeError
       /\ forall client_configured chat_create json_loads a doc_data,
            extracted_answers a = l ->
            extract_answers_from_document client_configured chat_create
              json_loads a doc_data
            = Raise TypeError.
Proof.
  pose proof (for_each_guarded key_points_render TypeError (slice_last 3 l)
                context_document
                (fun s x _ => context_document_guarded s x) context_header)
    as G.
  assert (Hb : build_context l
               = match l with
                 | [] => Ok []
                 | _ :: _ => for_each (slice_last 3 l) context_document
                               context_header
                 end) by reflexivity.
  destruct (forallb key_points_render (slice_last 3 l)) eqn:E.
  - rewrite Hb. destruct l; [now exists []|exact G].
  - assert (Hr : build_context l = Raise TypeError).
    { rewrite Hb. destruct l; [discriminate|exact G]. }
    split; [exact Hr|].
    intros client_configured chat_create json_loads a doc_data <-.
    unfold extract_answers_from_document. now rewrite Hr.
Qed.

(** Key points that are numbers in the last analysis: the next
    extraction raises. *)
Lemma build_context_total_number_points :
  build_context
    [mk_extracted (py "A") (WrongTypes.entries WrongTypes.number_points)]
  = Raise TypeError.
Proof.
  exact (proj1 (build_context_total
                  [mk_extracted (py "A")
                     (WrongTypes.entries WrongTypes.number_points)])).
Defined.

(** ** Exactly when the export completes *)


Lemma student_step_guarded doc acc q_num :
  if concept_list_ok (ea_answers doc) (q_key q_num)
  then exists acc', student_step doc acc q_num = Ok acc'
  else student_step doc acc q_num = Raise TypeError.
Proof.
  unfold student_step, concept_list_ok.
  destruct (dict_get (ea_answers doc) (q_key q_num)) as [[| | | | |d]|];
    try (eexists; reflexivity).
  fold (concepts_of d). rewrite py_join_spec.
  destruct (forallb is_str (concepts_of d)); cbn [bind];
    [eexists|]; reflexivity.
Qed.

Lemma student_details_total a :
  if forallb (fun doc => summarizable (ea_answers doc)) (extracted_answers a)
  then exists rows, student_details a = Ok rows
  else student_details a = Raise TypeError.
Proof.
  unfold student_details.
  apply (for_each_guarded (fun doc => summarizable (ea_answers doc))
           TypeError).
  intros acc doc _. rewrite summarizable_spec.
  change (concepts_are_strings (ea_answers doc))
    with (forallb (fun q => concept_list_ok (ea_answers doc) (q_key q))
            range_1_4).
  apply (for_each_guarded
           (fun q => concept_list_ok (ea_answers doc) (q_key q)) TypeError).
  intros acc' q _. apply student_step_guarded.
Qed.






(** ** The main pipeline *)

Lemma validate_directory fs :
  fs_kind fs = Directory ->
  validate_folder_structure fs = Done (structure_valid fs).
Proof.
  intros Hk. unfold validate_folder_structure, structure_valid. rewrite Hk.
  destruct (fs_subfolders fs) as [|sf sfs] eqn:E.
  - now destruct (fs_root_docx fs).
  - rewrite count_subfolders_zero by lia. cbn [Z.eqb andb].
    now destruct (some_subfolder_has_docx (sf :: sfs)).
Qed.

Lemma load_documents_init found :
  exists docs,
    fst (load_documents init found) = mk_analyzer docs [] [] (JDict []) []
    /\ Forall2 loaded_from docs (filter readable (filter not_lock_file found)).
Proof.
  destruct (load_loop (filter not_lock_file found) [] []) as (new & Hf & Hall).
  exists new. split; [|exact Hall].
  unfold load_documents. cbn [fst init documents extracted_answers
    pattern_analysis rubric sent].
  now rewrite Hf.
Qed.

Section MainProperties.

Variable client_configured : bool.
Variable chat_create : nat -> request -> option pystr.
Variable json_loads : pystr -> option json.

Lemma main_directory fs :
  fs_kind fs = Directory ->
  main client_configured chat_create json_loads fs
  = if structure_valid fs
    then
      let a := fst (load_documents init (fs_found fs)) in
      match documents a with
      | [] => NoDocuments a
      | _ :: _ =>
          match run_stages client_configured chat_create json_loads a with
          | Ok (a', r) => Completed a' r
          | Raise e => Crashed (Uncaught e)
          end
      end
    else StructureInvalid.
Proof.
  intros Hk. unfold main. rewrite (validate_directory fs Hk), Hk.
  now destruct (structure_valid fs).
Qed.

End MainProperties.



(** ** The main pipeline without a client *)




(** ** What a completed run has done *)

Lemma generate_rubric_frame client_configured chat_create json_loads a a' err :
  generate_rubric client_configured chat_create json_loads a = Ok (a', err) ->
  documents a' = documents a
  /\ extracted_answers a' = extracted_answers a
  /\ pattern_analysis a' = pattern_analysis a
  /\ exists tail,
       sent a' = sent a ++ tail
       /\ if client_configured
          then exists context, tail = [RubricRequest context]
          else tail = [].
Proof.
  unfold generate_rubric.
  destruct (rubric_context a) as [context|]; cbn [bind]; [|discriminate].
  destruct client_configured; cbn [negb]; intros [= <- _]; cbn.
  - repeat split. eexists. split; [reflexivity|]. now exists context.
  - repeat split. exists []. now rewrite app_nil_r.
Qed.

(** X14. When [main] runs to the end, the documents are those loaded
    from the readable files that are not lock files, in the order in
    which they were found; the requests sent are one extraction
    request per document, in that order, followed by the single rubric
    request (none at all without a client); the analyses kept are
    responses of the service, for some of the documents and in their
    order; the pattern analysis has the three question keys; and the
    JSON file receives the rubric of the analyzer. *)
Theorem main_completed
  (client_configured : bool) (chat_create : nat -> request -> option pystr)
  (json_loads : pystr -> option json) (fs : filesystem) (a : analyzer)
  (r : reports) :
  main client_configured chat_create json_loads fs = Completed a r ->
  Forall2 loaded_from (documents a) (loadable fs)
  /\ documents a <> []
  /\ (exists reqs tail,
         sent a = reqs ++ tail
         /\ requests_of client_configured reqs (documents a)
         /\ if client_configured
            then exists context, tail = [RubricRequest context]
            else tail = [])
  /\ kept_in_order (documents a) (extracted_answers a)
  /\ Forall (stored_response json_loads) (extracted_answers a)
  /\ map fst (pattern_analysis a) = question_keys
  /\ length (analisis_patrones r) = 3%nat
  /\ pauta_correccion_json r = rubric a.
Proof.
  intros H.
  destruct (fs_kind fs) eqn:Hk;
    try (unfold main, validate_folder_structure in H; rewrite Hk in H;
         discriminate).
  rewrite (main_directory _ _ _ fs Hk) in H.
  destruct (structure_valid fs); [|discriminate].
  destruct (load_documents_init (fs_found fs)) as (docs & Ha & Hall).
  cbn zeta in H. rewrite Ha in H. cbn [documents] in H.
  destruct docs as [|d docs]; [discriminate|].
  destruct (run_stages _ _ _ _) as [[a' r']|] eqn:E; [|discriminate].
  injection H as -> ->. unfold run_stages in E.
  destruct (analyze_patterns_iteratively _ _ _ _) as [a1|] eqn:E1;
    cbn [bind] in E; [|discriminate].
  destruct (synthesize_patterns a1) as [[a2 printed]|] eqn:E2;
    cbn [bind fst] in E; [|discriminate].
  destruct (generate_rubric _ _ _ a2) as [[a3 err]|] eqn:E3;
    cbn [bind fst] in E; [|discriminate].
  destruct (export_reports a3) as [r3|] eqn:E4; cbn [bind] in E;
    [|discriminate].
  injection E as <- <-.
  unfold analyze_patterns_iteratively in E1.
  destruct (analyze_loop_inv _ _ _ _ _ _ E1)
    as (new & reqs & He & Hko & Hst & Hse & Hrq & Hd & Hp & Hu).
  cbn [documents extracted_answers pattern_analysis rubric sent app] in *.
  pose proof (synthesize_patterns_countable a1 _ E2) as Hc.
  rewrite (synthesize_patterns_ok a1 Hc) in E2. injection E2 as <- _.
  destruct (generate_rubric_frame _ _ _ _ _ _ E3)
    as (Hd3 & He3 & Hp3 & tail & Hs3 & Ht).
  cbn [documents extracted_answers pattern_analysis rubric sent] in *.
  rewrite Hd3, Hd, He3, He, Hp3, Hp, Hs3, Hse.
  split; [exact Hall|]. split; [discriminate|].
  split; [exists reqs, tail; auto|].
  split; [exact Hko|]. split; [exact Hst|]. split; [reflexivity|].
  destruct (export_reports_inv _ _ E4) as (students & txt & _ & _ & _ & ->).
  cbn [analisis_patrones pauta_correccion_json].
  split; [|reflexivity].
  unfold pattern_report. rewrite length_map, Hp3, Hp. reflexivity.
Qed.

(** Two documents and a service that answers every request with an
    empty object: three requests. *)
Lemma main_completed_sample :
  exists a r,
    main true (fun _ _ => Some []) (fun _ => Some (JDict []))
      SampleTree.with_subfolders = Completed a r
    /\ length (documents a) = 2%nat
    /\ length (sent a) = 3%nat
    /\ pauta_correccion_json r = rubric a.
Proof.
  assert (E : exists a r,
             main true (fun _ _ => Some []) (fun _ => Some (JDict []))
               SampleTree.with_subfolders = Completed a r)
    by (vm_compute; eexists; eexists; reflexivity).
  destruct E as (a & r & E).
  destruct (main_completed true _ _ _ a r E)
    as (Hd & _ & (reqs & tail & Hs & Hq & (context & Ht)) & _ & _ & _ & _ & Hj).
  exists a, r. split; [exact E|].
  pose proof (Forall2_length Hd) as Hn. cbn in Hn.
  split; [exact Hn|]. split; [|exact Hj].
  apply Forall2_length in Hq.
  rewrite Hs, Ht, length_app, Hq, Hn. reflexivity.
Defined.

(** ** Which exceptions leave the pipeline *)

Lemma for_each_raises_only {A S} (P : exn -> Prop) (l : list A)
  (body : S -> A -> result S) :
  (forall s x e, body s x = Raise e -> P e) ->
  forall s e, for_each l body s = Raise e -> P e.
Proof.
  intros H. induction l as [|x l IH]; intros s e; cbn [for_each];
    [discriminate|].
  destruct (body s x) as [s1|e1] eqn:E; cbn [bind].
  - apply IH.
  - intros [= <-]. eapply H; eauto.
Qed.

Lemma py_get_raises v k d e : py_get v k d = Raise e -> shape_error e.
Proof. destruct v; cbn; intros [= <-]; now right. Qed.

Lemma py_iter_raises v e : py_iter v = Raise e -> shape_error e.
Proof. destruct v; cbn; intros [= <-]; now left. Qed.

Lemma py_contains_raises v s e : py_contains v s = Raise e -> shape_error e.
Proof. destruct v; cbn; intros [= <-]; now left. Qed.

Lemma py_getitem_raises v s e : py_getitem v s = Raise e -> shape_error e.
Proof. destruct v; cbn; intros [= <-]; now left. Qed.

Lemma py_slice_to_raises n v e : py_slice_to n v = Raise e -> shape_error e.
Proof. destruct v; cbn; intros [= <-]; now left. Qed.

(** Splits [x <- m ;; k = Raise e] into the two places where the
    exception can come from. *)
Ltac raise_cases H lemma :=
  match type of H with
  | bind ?m _ = Raise _ =>
      let E := fresh "E" in
      destruct m eqn:E; cbn [bind] in H;
      [| injection H as <-; eapply lemma; exact E]
  end.

Lemma build_context_raises l e : build_context l = Raise e -> shape_error e.
Proof.
  unfold build_context. destruct l as [|x l]; [discriminate|].
  apply for_each_raises_only. intros context prev e0 H.
  pose proof (context_document_guarded context prev) as G.
  destruct (key_points_render prev).
  - destruct G as (c & G). congruence.
  - left. congruence.
Qed.

Lemma analyze_raises client_configured chat_create json_loads a e :
  analyze_patterns_iteratively client_configured chat_create json_loads a
  = Raise e ->
  shape_error e.
Proof.
  unfold analyze_patterns_iteratively. apply for_each_raises_only.
  intros s doc e0. unfold analyze_step, extract_answers_from_document.
  destruct (build_context (extracted_answers s)) eqn:E; cbn [bind].
  - destruct client_configured; cbn [negb bind fst snd].
    + destruct (try_except _ None); discriminate.
    + discriminate.
  - intros [= <-]. eapply build_context_raises; eauto.
Qed.

Lemma high_quality_examples_raises docs e :
  high_quality_examples docs = Raise e -> shape_error e.
Proof.
  unfold high_quality_examples. apply for_each_raises_only.
  intros acc doc e0. apply for_each_raises_only. clear.
  intros acc q e H. unfold example_step in H.
  destruct (dict_get (ea_answers doc) (q_key q)) as [answer|];
    [|discriminate].
  raise_cases H py_get_raises.
  match type of H with
  | (if ?b then _ else _) = _ => destruct b
  end; [|discriminate].
  raise_cases H py_get_raises.
  raise_cases H py_slice_to_raises.
  discriminate.
Qed.

Lemma generate_rubric_raises client_configured chat_create json_loads a e :
  generate_rubric client_configured chat_create json_loads a = Raise e ->
  shape_error e.
Proof.
  unfold generate_rubric, rubric_context. intros H.
  destruct (high_quality_examples (extracted_answers a)) eqn:E;
    cbn [bind] in H.
  - destruct client_configured; discriminate.
  - injection H as <-. eapply high_quality_examples_raises; eauto.
Qed.

Lemma rubric_elements_raises rubric_data key e :
  rubric_elements rubric_data key = Raise e -> shape_error e.
Proof.
  unfold rubric_elements. intros H.
  raise_cases H py_get_raises.
  raise_cases H py_iter_raises.
  revert H. apply for_each_raises_only. clear.
  intros acc elem e H. unfold element_fields in H.
  destruct elem; cbn in H; try (injection H as <-; now right).
  discriminate.
Qed.

Lemma rubric_text_step_shape rubric out q_num e :
  rubric_text_step rubric out q_num = Raise e -> shape_error e.
Proof.
  unfold rubric_text_step. intros H.
  raise_cases H py_contains_raises.
  match type of H with
  | (if ?b then _ else _) = _ => destruct b
  end; [|discriminate].
  raise_cases H py_getitem_raises.
  raise_cases H py_get_raises.
  raise_cases H rubric_elements_raises.
  raise_cases H py_get_raises.
  match type of H with
  | bind ?m _ = _ => destruct m eqn:Ed; cbn [bind] in H
  end.
  - raise_cases H py_get_raises.
    raise_cases H py_iter_raises.
    raise_cases H py_get_raises.
    discriminate.
  - injection H as <-.
    match type of Ed with
    | (if truthy ?d then _ else _) = _ => destruct (truthy d)
    end; [|discriminate].
    raise_cases Ed rubric_elements_raises. discriminate.
Qed.

Lemma rubric_text_shape rubric e :
  rubric_text rubric = Raise e -> shape_error e.
Proof.
  unfold rubric_text. intros H.
  match type of H with
  | bind ?m _ = _ => destruct m eqn:Ef; cbn [bind] in H
  end.
  - raise_cases H py_contains_raises.
    match type of H with
    | (if ?b then _ else _) = _ => destruct b
    end; [|discriminate].
    raise_cases H py_getitem_raises. discriminate.
  - injection H as <-. revert Ef. apply for_each_raises_only.
    intros out q e'. apply rubric_text_step_shape.
Qed.

(** The export raises for the shape of a value, or for a string that
    [json.dump] cannot encode. *)
Lemma export_reports_raises a e :
  export_reports a = Raise e -> export_error e.
Proof.
  unfold export_reports. intros H.
  pose proof (student_details_total a) as Hs.
  destruct (student_details a) as [rows|e1]; cbn [bind] in H.
  - unfold json_dump in H.
    destruct (json_encodable (rubric a)) eqn:Hj; cbn [bind] in H;
      [|right; congruence].
    destruct (rubric_text (rubric a)) as [txt|e2] eqn:Et; cbn [bind] in H.
    + rewrite (write_all_ok _ (rubric_text_writable _ _ Hj Et)) in H.
      discriminate.
    + injection H as <-. left. eapply rubric_text_shape; eauto.
  - injection H as <-. left.
    destruct (forallb _ (extracted_answers a)).
    + destruct Hs as (rows & Hs). discriminate.
    + left. congruence.
Qed.

Lemma run_stages_raises client_configured chat_create json_loads a e :
  run_stages client_configured chat_create json_loads a = Raise e ->
  export_error e.
Proof.
  unfold run_stages. intros H.
  match type of H with
  | bind ?m _ = _ => destruct m as [a1|e1] eqn:E1; cbn [bind] in H
  end; [|injection H as <-; left; eapply analyze_raises; eauto].
  match type of H with
  | bind ?m _ = _ => destruct m as [r2|e2] eqn:E2; cbn [bind] in H
  end.
  - match type of H with
    | bind ?m _ = _ => destruct m as [r3|e3] eqn:E3; cbn [bind] in H
    end; [|injection H as <-; left; eapply generate_rubric_raises; eauto].
    raise_cases H export_reports_raises.
    discriminate.
  - injection H as <-. left. left.
    match type of E2 with
    | synthesize_patterns ?a1 = _ =>
        destruct (countable (extracted_answers a1)) eqn:Hc;
        [rewrite (synthesize_patterns_ok a1 Hc) in E2
        |rewrite (synthesize_patterns_raises a1 Hc) in E2]
    end; congruence.
Qed.

(** With a service whose every call fails or returns text that is not
    JSON, the first stage keeps nothing. *)
Lemma analyze_failing_service client_configured chat_create json_loads docs :
  service_fails chat_create json_loads ->
  forall a,
    extracted_answers a = [] ->
    exists reqs,
      for_each docs (analyze_step client_configured chat_create json_loads) a
      = Ok (mk_analyzer (documents a) [] (pattern_analysis a) (rubric a)
              (sent a ++ reqs)).
Proof.
  intros Hf. induction docs as [|doc docs IH]; intros a Ha.
  - exists []. cbn [for_each]. rewrite app_nil_r. destruct a.
    cbn in Ha. now subst.
  - cbn [for_each]. unfold analyze_step at 1.
    unfold extract_answers_from_document. rewrite Ha.
    cbn [build_context bind].
    destruct client_configured; cbn [negb bind fst snd].
    + match goal with
      | |- context [try_except ?t None] =>
          destruct (try_except t None) as [analysis|] eqn:E
      end.
      * destruct (extract_try_some _ _ _ _ _ _ E) as (content & Hc & Hl & _).
        rewrite (Hf _ _ _ Hc) in Hl. discriminate.
      * cbn [bind].
        match goal with
        | |- exists _, for_each docs _ ?a1 = _ =>
            destruct (IH a1 eq_refl) as (reqs & ->)
        end.
        eexists. cbn [documents pattern_analysis rubric sent].
        now rewrite <- app_assoc.
    + match goal with
      | |- exists _, for_each docs _ ?a1 = _ =>
          destruct (IH a1 eq_refl) as (reqs & ->)
      end.
      eexists. cbn [documents pattern_analysis rubric sent].
      now rewrite <- app_assoc.
Qed.

Lemma run_stages_failing_service client_configured chat_create json_loads
  docs :
  service_fails chat_create json_loads ->
  exists a r,
    run_stages client_configured chat_create json_loads
      (mk_analyzer docs [] [] (JDict []) [])
    = Ok (a, r)
    /\ documents a = docs
    /\ extracted_answers a = []
    /\ rubric a = JDict []
    /\ map row_numbers (analisis_patrones r)
       = [(0, 0, 0, 0); (0, 0, 0, 0); (0, 0, 0, 0)]
    /\ analisis_por_estudiante r = []
    /\ pauta_correccion_json r = JDict []
    /\ pauta_correccion_txt r = empty_rubric_text.
Proof.
  intros Hf. unfold run_stages, analyze_patterns_iteratively.
  cbn [documents].
  destruct (analyze_failing_service client_configured _ _ docs Hf
              (mk_analyzer docs [] [] (JDict []) []) eq_refl) as (reqs & ->).
  cbn [bind documents pattern_analysis rubric sent app].
  rewrite synthesize_patterns_ok by reflexivity.
  cbn [bind fst documents extracted_answers pattern_analysis rubric sent].
  unfold generate_rubric.
  match goal with
  | |- context [rubric_context ?a2] =>
      assert (Hc : exists context, rubric_context a2 = Ok context)
        by (eexists; reflexivity)
  end.
  destruct Hc as (context & ->). cbn [bind].
  destruct client_configured; cbn [negb bind fst snd].
  - assert (Ht : rubric_try chat_create json_loads (length reqs)
                   (RubricRequest context) = (None, true)).
    { unfold rubric_try.
      destruct (chat_create (length reqs) (RubricRequest context))
        as [content|] eqn:Ec; [|reflexivity].
      now rewrite (Hf _ _ _ Ec). }
    cbn [documents extracted_answers pattern_analysis rubric sent].
    rewrite Ht. cbn [fst snd].
    eexists. eexists. split; [reflexivity|]. repeat split.
  - eexists. eexists. split; [reflexivity|]. repeat split.
Qed.

(** X15. Failures of the service never stop [main].  No exception of
    a call to the service, none of [json.loads] and no division by
    zero leaves it; and with a service whose every call fails or
    returns text that is not valid JSON, [main] runs to the end on a
    valid folder with a loadable document: it keeps no analysis,
    leaves the rubric empty and writes a pattern table of three rows
    with a total of 0, an empty student table, the empty rubric and
    the bare heading of its text. *)
Theorem service_failures_absorbed
  (client_configured : bool) (chat_create : nat -> request -> option pystr)
  (json_loads : pystr -> option json) (fs : filesystem) :
  (forall e,
      main client_configured chat_create json_loads fs = Crashed (Uncaught e) ->
      e <> APIError /\ e <> JSONDecodeError /\ e <> ZeroDivisionError)
  /\ (service_fails chat_create json_loads ->
      fs_kind fs = Directory ->
      structure_valid fs = true ->
      loadable fs <> [] ->
      exists a r,
        main client_configured chat_create json_loads fs = Completed a r
        /\ Forall2 loaded_from (documents a) (loadable fs)
        /\ extracted_answers a = []
        /\ rubric a = JDict []
        /\ map row_numbers (analisis_patrones r)
           = [(0, 0, 0, 0); (0, 0, 0, 0); (0, 0, 0, 0)]
        /\ analisis_por_estudiante r = []
        /\ pauta_correccion_json r = JDict []
        /\ pauta_correccion_txt r = empty_rubric_text).
Proof.
  split.
  - intros e H.
    assert (He : export_error e).
    { destruct (fs_kind fs) eqn:Hk;
        try (unfold main, validate_folder_structure in H; rewrite Hk in H;
             discriminate).
      rewrite (main_directory _ _ _ fs Hk) in H.
      destruct (structure_valid fs); [|discriminate].
      cbn zeta in H.
      destruct (documents (fst (load_documents init (fs_found fs))));
        [discriminate|].
      destruct (run_stages _ _ _ _) as [[a' r]|e'] eqn:E; [discriminate|].
      injection H as <-. eapply run_stages_raises; eauto. }
    destruct He as [[-> | ->] | ->]; repeat split; discriminate.
  - intros Hf Hk Hv Hl. rewrite (main_directory _ _ _ fs Hk), Hv.
    destruct (load_documents_init (fs_found fs)) as (docs & Ha & Hall).
    cbn zeta. rewrite Ha. cbn [documents]. fold (loadable fs) in Hall.
    destruct docs as [|d docs].
    { inversion Hall as [Hnil|]. congruence. }
    destruct (run_stages_failing_service client_configured _ _ (d :: docs) Hf)
      as (a & r & -> & Hd & He & Hr & Hp & Hs & Hj & Ht).
    exists a, r. split; [reflexivity|]. rewrite Hd.
    repeat split; assumption.
Qed.

(** Two documents and a service that answers every request with text
    that is not JSON: three requests are sent, nothing is kept, and
    [main] runs to the end. *)
Lemma service_failures_absorbed_sample :
  exists a r,
    main true (fun _ _ => Some (py "lo siento")) (fun _ => None)
      SampleTree.with_subfolders
    = Completed a r
    /\ length (documents a) = 2%nat
    /\ extracted_answers a = []
    /\ pauta_correccion_json r = JDict [].
Proof.
  destruct (proj2 (service_failures_absorbed true
                     (fun _ _ => Some (py "lo siento")) (fun _ => None)
                     SampleTree.with_subfolders))
    as (a & r & Hm & Hd & He & _ & _ & _ & Hj & _).
  - intros n req content _. reflexivity.
  - reflexivity.
  - reflexivity.
  - discriminate.
  - exists a, r. split; [exact Hm|].
    split; [exact (Forall2_length Hd)|]. split; [exact He | exact Hj].
Defined.

(** ** Loading again, and the concepts that are shown *)


Lemma fold_left_append {A B} (f : A -> list B) (l : list A) : forall base,
  fold_left (fun acc x => acc ++ f x) l base = base ++ flat_map f l.
Proof.
  induction l as [|x l IH]; intros base; cbn [fold_left flat_map].
  - now rewrite app_nil_r.
  - now rewrite IH, app_assoc.
Qed.

(** What a question adds to the prompt of the rubric: of the stored
    ranking, the first five concepts. *)
Lemma pattern_context_spec context k q_num docs :
  pattern_context context (k, question_stats q_num docs)
  = context
    ++ question_section q_num (Z.of_nat (length docs))
         (most_common 5 (counted (question_concepts q_num docs))).
Proof.
  unfold pattern_context, question_section.
  cbn [snd question_stats ps_pregunta ps_total_respuestas
         ps_conceptos_frecuentes].
  change (fun (context0 : list piece) (cf : json * Z) =>
            context0 ++ lit (py "  - ") ++ [Fmt (fst cf)] ++ lit (py ": ")
            ++ lit (str_of_Z (snd cf)) ++ lit (py " veces") ++ lit nl)
    with (fun (context0 : list piece) (cf : json * Z) =>
            context0 ++ concept_item cf).
  rewrite fold_left_append. unfold most_common, slice_to.
  rewrite firstn_firstn. cbn [Nat.min]. now rewrite <- !app_assoc.
Qed.

Lemma example_contexts_spec examples : forall context,
  fold_left example_context examples context
  = context ++ flat_map example_text examples.
Proof.
  intros context.
  change example_context with (fun context ex => context ++ example_text ex).
  apply fold_left_append.
Qed.

(** X17. After the synthesis of a fresh analyzer, the pattern table
    shows for each question the three most frequent concepts of its
    ranking, each with its frequency; and the prompt of the rubric
    request lists for each question its text, the number of analysed
    documents and the five most frequent concepts, followed by the
    first six high-quality examples.  This is the request that
    [generate_rubric] sends. *)
Theorem shown_concepts (a : analyzer) (examples : list example) :
  countable (extracted_answers a) = true ->
  pattern_analysis a = [] ->
  high_quality_examples (extracted_answers a) = Ok examples ->
  let docs := extracted_answers a in
  let ranking q_num := counted (question_concepts q_num docs) in
  let prompt := rubric_prompt (Z.of_nat (length docs)) ranking examples in
  exists a' printed,
    synthesize_patterns a = Ok (a', printed)
    /\ map pr_conceptos (pattern_report a')
       = map (fun q_num =>
                join (lit (py ", "))
                  (map concept_cell (most_common 3 (ranking q_num))))
           [1; 2; 3]
    /\ rubric_context a' = Ok prompt
    /\ forall chat_create json_loads,
         exists a'' err,
           generate_rubric true chat_create json_loads a' = Ok (a'', err)
           /\ sent a'' = sent a ++ [RubricRequest prompt].
Proof.
  intros Hc Hpa Hex docs ranking prompt.
  rewrite (synthesize_patterns_ok a Hc). rewrite Hpa. fold docs.
  assert (Hkeys : assoc_set
                    (assoc_set
                       (assoc_set [] (q_key 1) (question_stats 1 docs))
                       (q_key 2) (question_stats 2 docs))
                    (q_key 3) (question_stats 3 docs)
                  = [(q_key 1, question_stats 1 docs);
                     (q_key 2, question_stats 2 docs);
                     (q_key 3, question_stats 3 docs)])
    by reflexivity.
  rewrite Hkeys. eexists. eexists. split; [reflexivity|].
  assert (Hprompt : rubric_context
                      (mk_analyzer (documents a) docs
                         [(q_key 1, question_stats 1 docs);
                          (q_key 2, question_stats 2 docs);
                          (q_key 3, question_stats 3 docs)]
                         (rubric a) (sent a))
                    = Ok prompt).
  { unfold rubric_context. cbn [pattern_analysis extracted_answers].
    fold docs in Hex. rewrite Hex. cbn [bind fold_left]. f_equal.
    unfold prompt_examples. rewrite example_contexts_spec.
    rewrite !pattern_context_spec.
    unfold prompt, rubric_prompt. cbn [flat_map]. fold (ranking 1).
    fold (ranking 2). fold (ranking 3).
    rewrite app_nil_r, <- !app_assoc. reflexivity. }
  split; [|split; [exact Hprompt|]].
  - unfold pattern_report. cbn [pattern_analysis map snd].
    unfold pattern_row_of.
    cbn [pr_conceptos question_stats ps_conceptos_frecuentes].
    unfold most_common, slice_to. rewrite !firstn_firstn. reflexivity.
  - intros chat_create json_loads. unfold generate_rubric.
    rewrite Hprompt. cbn [bind negb sent]. eexists. eexists.
    split; reflexivity.
Qed.

(** Two students: the table shows the three concepts of question 1,
    and the rubric request is sent with the prompt of the rankings. *)
Lemma shown_concepts_two_students :
  exists a' printed,
    synthesize_patterns TwoStudents.state = Ok (a', printed)
    /\ nth_error (map pr_conceptos (pattern_report a')) 0
       = Some (join (lit (py ", "))
                 (map concept_cell
                    [(JStr (py "beta"), 2); (JStr (py "alfa"), 2);
                     (JStr (py "gamma"), 1)]))
    /\ exists prompt, rubric_context a' = Ok prompt.
Proof.
  destruct (high_quality_examples (extracted_answers TwoStudents.state))
    as [examples|] eqn:He; [|discriminate].
  destruct (shown_concepts TwoStudents.state examples eq_refl eq_refl He)
    as (a' & printed & Hs & Ht & Hp & _).
  exists a', printed. split; [exact Hs|]. split.
  - rewrite Ht. reflexivity.
  - eexists. exact Hp.
Defined.
